(** * Variability test of [lande.fermi.likelihood.variability]

    A shallow embedding of [CombinedVariabilityTester] and the properties
    of its time binning, per-bin fitting protocol and [TS_var] aggregation,
    and of [VariabilityTester.plot] with [plot_points] of
    [lande.utilities.plotting].

    Numbers.  The program computes with NumPy double precision values.
    They are modelled as exact rationals extended with the IEEE special
    values the code reacts to: not-a-number and the two infinities.
    Rounding error, overflow, underflow and the sign of zero are not
    represented, with one exception: the edges of the time bins depend
    on how [numpy.linspace] rounds, and there every operation is rounded
    as in double precision ([Binary64]). *)

From Stdlib Require Import ZArith QArith Qcanon Qround Qabs Qcabs Qpower Bool List String Lia Lqa.
From Stdlib Require SpecFloat.
Import ListNotations.

Set Implicit Arguments.

(** ** Extended numbers *)

Module Float.

Inductive float : Type :=
| NaN
| Inf (neg : bool)
| Fin (q : Qc).

Definition of_Q (q : Q) : float := Fin (Q2Qc q).
Definition of_Z (z : Z) : float := Fin (Q2Qc (inject_Z z)).

Definition zero : float := of_Z 0.
Definition one : float := of_Z 1.
Definition two : float := of_Z 2.

Definition isnan (x : float) : bool :=
  match x with NaN => true | _ => false end.

Definition isfinite (x : float) : bool :=
  match x with Fin _ => true | _ => false end.

(** Sign of a rational: [true] when strictly negative. *)
Definition Qc_neg (q : Qc) : bool :=
  match Qccompare q 0 with Lt => true | _ => false end.

Definition Qc_is0 (q : Qc) : bool := Qc_eq_bool q 0.

Definition opp (x : float) : float :=
  match x with
  | NaN => NaN
  | Inf s => Inf (negb s)
  | Fin a => Fin (- a)
  end.

Definition add (x y : float) : float :=
  match x, y with
  | NaN, _ | _, NaN => NaN
  | Inf s, Inf t => if Bool.eqb s t then Inf s else NaN
  | Inf s, Fin _ => Inf s
  | Fin _, Inf t => Inf t
  | Fin a, Fin b => Fin (a + b)
  end.

Definition sub (x y : float) : float := add x (opp y).

Definition mul (x y : float) : float :=
  match x, y with
  | NaN, _ | _, NaN => NaN
  | Inf s, Inf t => Inf (xorb s t)
  | Inf s, Fin b => if Qc_is0 b then NaN else Inf (xorb s (Qc_neg b))
  | Fin a, Inf t => if Qc_is0 a then NaN else Inf (xorb (Qc_neg a) t)
  | Fin a, Fin b => Fin (a * b)
  end.

(** Array division in NumPy never raises: [0/0] and [inf/inf] are NaN,
    [x/0] is an infinity. *)
Definition div (x y : float) : float :=
  match x, y with
  | NaN, _ | _, NaN => NaN
  | Inf _, Inf _ => NaN
  | Inf s, Fin b => Inf (xorb s (Qc_neg b))
  | Fin _, Inf _ => Fin 0
  | Fin a, Fin b =>
      if Qc_is0 b then (if Qc_is0 a then NaN else Inf (Qc_neg a))
      else Fin (a / b)
  end.

(** [x**2] *)
Definition sq (x : float) : float := mul x x.

(** [x < y]; every comparison with NaN is false. *)
Definition ltb (x y : float) : bool :=
  match x, y with
  | NaN, _ | _, NaN => false
  | Inf s, Inf t => s && negb t
  | Inf s, Fin _ => s
  | Fin _, Inf t => negb t
  | Fin a, Fin b => match Qccompare a b with Lt => true | _ => false end
  end.

End Float.

Import Float.

Declare Scope float_scope.
Delimit Scope float_scope with fl.
Bind Scope float_scope with float.
Infix "+" := Float.add : float_scope.
Infix "-" := Float.sub : float_scope.
Infix "*" := Float.mul : float_scope.
Infix "/" := Float.div : float_scope.

(** ** Exceptions and results *)

Inductive exn : Type :=
| Exception (msg : string)
| AssertionError
| NameError (name : string)
| AttributeError (name : string)
| KeyError (key : string)
| IndexError
| ValueError (msg : string).

Inductive result (A : Type) : Type :=
| Ok (a : A)
| Raise (e : exn).

Arguments Ok {A} a.
Arguments Raise {A} e.

Definition is_ok {A} (r : result A) : bool :=
  match r with Ok _ => true | Raise _ => false end.

Definition rbind {A B} (r : result A) (k : A -> result B) : result B :=
  match r with Ok a => k a | Raise e => Raise e end.

Fixpoint rmap {A B} (g : A -> result B) (l : list A) : result (list B) :=
  match l with
  | [] => Ok []
  | x :: l' =>
      rbind (g x) (fun y => rbind (rmap g l') (fun ys => Ok (y :: ys)))
  end.

(** ** Result dictionaries *)

Inductive backend : Type := pointlike | gtlike.

Definition backend_key (t : backend) : string :=
  match t with pointlike => "pointlike" | gtlike => "gtlike" end.

(** [flux_dict(...)]: the keys read by this module. *)
Record flux_dict : Type := { flux : float; flux_err : float }.

(** [PointlikeUpperLimit(...).todict()], [GtlikeUpperLimit(...).todict()] *)
Record ul_dict : Type := { ul_flux : float }.

(** The dictionary [results] built by the per-bin fitters. *)
Record bin_result : Type := {
  ll_0 : float;
  ll_1 : float;
  r_flux : flux_dict;
  TS : float;
  diffuse : list (string * float);
  upper_limit : option ul_dict
}.

(** One entry of [self.bands].  The sub-dictionaries are attached after
    the band has been appended, so either may be missing. *)
Record band : Type := {
  tstart : Z;
  tstop : Z;
  days : Z;
  b_pointlike : option bin_result;
  b_gtlike : option bin_result
}.

Definition band_get (b : band) (t : backend) : result bin_result :=
  match (match t with pointlike => b_pointlike b | gtlike => b_gtlike b end) with
  | Some r => Ok r
  | None => Raise (KeyError (backend_key t))
  end.

(** [source_dict(...)] of the all-time fit, with the ['TS'] entry that
    [all_time_fit] adds for pointlike. *)
Record source_dict : Type := { sd_flux : flux_dict; sd_TS : option float }.

Record all_time_dict : Type := {
  a_pointlike : source_dict;
  a_gtlike : option source_dict
}.

Definition all_time_get (a : all_time_dict) (t : backend) : result source_dict :=
  match t with
  | pointlike => Ok (a_pointlike a)
  | gtlike =>
      match a_gtlike a with
      | Some d => Ok d
      | None => Raise (KeyError "gtlike")
      end
  end.

(** ** NumPy array operations used by the aggregation *)

Module np.

Definition array := list float.

(** Element-wise binary operation on arrays of the same length. *)
Fixpoint zip_with (op : float -> float -> float) (x y : array) : array :=
  match x, y with
  | a :: x', b :: y' => op a b :: zip_with op x' y'
  | _, _ => []
  end.

Definition isnan (x : array) : list bool := map Float.isnan x.

Definition invert (c : list bool) : list bool := map negb c.

(** [np.where(cond, x, y)] with an array [x] and a scalar [y]. *)
Fixpoint where_ (cond : list bool) (x : array) (y : float) : array :=
  match cond, x with
  | c :: cond', a :: x' => (if c then a else y) :: where_ cond' x' y
  | _, _ => []
  end.

(** [np.sum]: the elements are accumulated from zero. *)
Definition sum (x : array) : float := fold_left Float.add x Float.zero.

End np.

(** ** The variability aggregation *)

(** Class attribute [CombinedVariabilityTester.f]. *)
Definition CombinedVariabilityTester_f : float := Float.of_Q (2 # 100).

(** The body of [compute_TS_var] once the arrays have been read. *)
Definition TS_var_of_arrays (f : float) (ll1 ll0 F : np.array) (F0 : float) : float :=
  let df := map (fun x => x - F0)%fl F in
  let TS_var := map (fun x => Float.two * x)%fl (np.zip_with Float.sub ll1 ll0) in
  let fraction :=
    np.zip_with Float.div
      (map Float.sq df)
      (map (fun x => x + Float.sq f * Float.sq F0)%fl (map Float.sq df)) in
  let good_fraction := np.where_ (np.invert (np.isnan fraction)) fraction Float.one in
  let TS_var := np.zip_with Float.mul TS_var good_fraction in
  np.sum TS_var.

(** [compute_TS_var(self, type)], as a function of the attributes it
    reads: [self.f], [self.bands] and [self.all_time]. *)
Definition compute_TS_var_of (f : float) (bands : list band)
    (all_time : option all_time_dict) (type : backend) : result float :=
  rbind (rmap (fun b => band_get b type) bands) (fun rs =>
  let ll1 := map ll_1 rs in
  let ll0 := map ll_0 rs in
  let F := map (fun r => flux (r_flux r)) rs in
  rbind (match all_time with
         | Some a => all_time_get a type
         | None => Raise (AttributeError "all_time")
         end) (fun a =>
  let F0 := flux (sd_flux a) in
  Ok (TS_var_of_arrays f ll1 ll0 F F0))).

(** The formula of the specification, bin by bin. *)

Definition damping_fraction (f F0 df : float) : float :=
  (Float.sq df / (Float.sq df + Float.sq f * Float.sq F0))%fl.

Definition damping_weight (f F0 df : float) : float :=
  let w := damping_fraction f F0 df in
  if Float.isnan w then Float.one else w.

Definition raw_statistic (r : bin_result) : float :=
  (Float.two * (ll_1 r - ll_0 r))%fl.

(** The per-bin term as the specification writes it. *)
Definition spec_term (f F0 : float) (r : bin_result) : float :=
  (raw_statistic r * damping_fraction f F0 (flux (r_flux r) - F0))%fl.

(** The per-bin term with the not-a-number guard. *)
Definition damped_term (f F0 : float) (r : bin_result) : float :=
  (raw_statistic r * damping_weight f F0 (flux (r_flux r) - F0))%fl.

(** Squares and their sums and products: never negative, never [-inf]. *)
Definition nonneg (x : float) : Prop :=
  match x with
  | NaN => True
  | Inf s => s = false
  | Fin q => (0 <= q)%Qc
  end.

(** ** Time bins *)

(** [np.round]: to the nearest integer, halves to the even neighbour. *)
Definition np_round (q : Qc) : Z :=
  let n := Qnum q in
  let d := Zpos (Qden q) in
  let lo := (n / d)%Z in
  match (2 * (n mod d) ?= d)%Z with
  | Lt => lo
  | Gt => (lo + 1)%Z
  | Eq => if Z.even lo then lo else (lo + 1)%Z
  end.

(** [numpy.arange(0, num)] *)
Definition arange (num : Z) : list Z := map Z.of_nat (seq 0 (Z.to_nat num)).

Definition Qc_of_Z (z : Z) : Qc := Q2Qc (inject_Z z).

(** [y[-1] = v] *)
Fixpoint set_last (y : list Qc) (v : Qc) : list Qc :=
  match y with
  | [] => []
  | [_] => [v]
  | a :: y' => a :: set_last y' v
  end.

(** ** Double precision

    [numpy.linspace] computes its points in IEEE binary64 arithmetic and
    [np.round] decides on the values so obtained, so the rounding of each
    of its operations is represented: the exact result is rounded to 53
    significant bits, to the nearest value, and to the one with an even
    last bit on a tie; below [2^-1022] the spacing stays [2^-1074].
    Overflow is not represented: the magnitudes are taken to stay below
    [2^1024]. *)

Module Binary64.

(** [2^e] for an integer [e] of either sign. *)
Definition pow2 (e : Z) : Q := (2 ^ e)%Q.

(** The exponent [k] with [2^k <= q < 2^(k+1)], for [q > 0]. *)
Definition ilog2 (q : Q) : Z :=
  let k := (Z.log2 (Qnum q) - Z.log2 (Zpos (Qden q)))%Z in
  if Qle_bool (pow2 k) q then k else (k - 1)%Z.

(** The exponent of the unit in the last place: 53 significant bits,
    and no exponent below that of the subnormal numbers. *)
Definition ulp_exponent (q : Q) : Z :=
  Z.max (ilog2 (Qabs q) - 52) (-1074).

(** Round to nearest, ties to even. *)
Definition rnd (q : Qc) : Qc :=
  if Qc_eq_bool q 0 then q
  else
    let e := ulp_exponent q in
    Q2Qc (inject_Z (np_round (Q2Qc (q / pow2 e))) * pow2 e).

Definition add (x y : Qc) : Qc := rnd (x + y).
Definition sub (x y : Qc) : Qc := rnd (x - y).
Definition mul (x y : Qc) : Qc := rnd (x * y).

(** [x / y] for [y] other than zero. *)
Definition div (x y : Qc) : Qc := rnd (x / y).

(** An integer as a double, [float(z)]: itself up to [2^53], the nearest
    double beyond. *)
Definition of_int (z : Z) : Qc := rnd (Qc_of_Z z).

(** Half the distance from 1 to the next number, and half the smallest
    positive number. *)
Definition u : Q := 1 # (2 ^ 53).
Definition eta : Q := 1 # (2 ^ 1075).

End Binary64.

(** [numpy.linspace(start, stop, num)] with the end point included:
    [arange(0, num) * step + start] with
    [step = (stop - start) / float(num - 1)], and then [y[-1] = stop]. *)
Definition linspace (start stop : Qc) (num : Z) : list Qc :=
  if (num <=? 0)%Z then []
  else if (num =? 1)%Z then [start]
  else
    let step :=
      Binary64.div (Binary64.sub stop start) (Binary64.of_int (num - 1)) in
    let y :=
      map (fun k => Binary64.add (Binary64.mul (Binary64.of_int k) step) start)
          (arange num) in
    set_last y stop.

(** The edges [b], and the slices [b[:-1]] and [b[1:]]. *)
Definition bin_edges (earliest latest : Qc) (nbins : Z) : list Z :=
  map np_round (linspace earliest latest (nbins + 1)).

Definition uniform_bins (earliest latest : Qc) (nbins : Z) : list Z * list Z :=
  let b := bin_edges earliest latest nbins in
  (removelast b, tl b).

(** An instant lies in some bin, the bins taken with both ends. *)
Definition in_some_bin (starts stops : list Z) (t : Qc) : Prop :=
  exists k : nat,
    (k < List.length starts)%nat
    /\ (Qc_of_Z (nth k starts 0%Z) <= t)%Qc
    /\ (t <= Qc_of_Z (nth k stops 0%Z))%Qc.

(** Every instant of [[lo, hi]] lies in a bin. *)
Definition covers (starts stops : list Z) (lo hi : Qc) : Prop :=
  forall t : Qc, (lo <= t)%Qc -> (t <= hi)%Qc -> in_some_bin starts stops t.

(** [np.asarray(x, dtype=int)] truncates towards zero. *)
Definition astype_int (q : Qc) : Z := Z.quot (Qnum q) (Zpos (Qden q)).

(** The contents of the event files: the START and STOP columns of the
    good-time-interval table of a file, or a list of such. *)
#[warnings="-register-all"]
Inductive ft1 : Type :=
| ft1_file (START STOP : list Qc)
| ft1_list (files : list ft1).

Definition Qc_min (a b : Qc) : Qc := if Qc_neg (b - a)%Qc then b else a.
Definition Qc_max (a b : Qc) : Qc := if Qc_neg (a - b)%Qc then b else a.

(** [min(seq)] and [max(seq)]; empty sequences raise. *)
Definition py_min (l : list Qc) : result Qc :=
  match l with
  | [] => Raise (ValueError "min() arg is an empty sequence")
  | a :: l' => Ok (fold_left Qc_min l' a)
  end.

Definition py_max (l : list Qc) : result Qc :=
  match l with
  | [] => Raise (ValueError "max() arg is an empty sequence")
  | a :: l' => Ok (fold_left Qc_max l' a)
  end.

Fixpoint get_time_range (ft1files : ft1) : result (Qc * Qc) :=
  match ft1files with
  | ft1_list files =>
      rbind (rmap get_time_range files) (fun rs =>
      match rs with
      | [] => Raise (ValueError "need more than 0 values to unpack")
      | _ =>
          rbind (py_min (map fst rs)) (fun lo =>
          rbind (py_max (map snd rs)) (fun hi => Ok (lo, hi)))
      end)
  | ft1_file START STOP =>
      rbind (py_min START) (fun tmin =>
      rbind (py_max STOP) (fun tmax => Ok (tmin, tmax)))
  end.

(** ** Likelihood objects *)

(** A spectral parameter: its value and whether the optimiser may move it. *)
Record param : Type := { p_value : float; p_free : bool }.

(** A source of the model; the first parameter is the normalisation
    (prefactor), the others describe the spectral shape. *)
Record source : Type := { s_name : string; s_params : list param }.

(** The data selection an analysis object is bound to. *)
Record dataset : Type := {
  sa_tstart : Z;
  sa_tstop : Z;
  ft2files : list string;
  ft1files : ft1;
  selection : option (Z * Z)
}.

(** A pointlike ROI or a gtlike likelihood object: the data it is bound
    to and its parameter state. *)
Record model : Type := { m_data : dataset; m_sources : list source }.

Definition with_sources (m : model) (l : list source) : model :=
  {| m_data := m_data m; m_sources := l |}.

Definition freeze_param (p : param) : param :=
  {| p_value := p_value p; p_free := false |}.

Definition free_param (p : param) : param :=
  {| p_value := p_value p; p_free := true |}.

Definition freeze_source (s : source) : source :=
  {| s_name := s_name s; s_params := map freeze_param (s_params s) |}.

(** Modelled from the spec: [modify(like, which, free=False)] of the
    [modify] module and the ROI method of the same name, which freeze
    every parameter of the source called [which]. *)
Definition modify (m : model) (which : string) : model :=
  with_sources m
    (map (fun s => if String.eqb (s_name s) which then freeze_source s else s)
         (m_sources m)).

(** Modelled from the spec: [allow_fit_only_prefactor] of the [fit]
    module, which leaves only the normalisation of the source free and
    keeps its shape parameters fixed. *)
Definition prefactor_only (s : source) : source :=
  {| s_name := s_name s;
     s_params := match s_params s with
                 | [] => []
                 | p :: ps => free_param p :: map freeze_param ps
                 end |}.

Definition allow_fit_only_prefactor (m : model) (name : string) : model :=
  with_sources m
    (map (fun s => if String.eqb (s_name s) name then prefactor_only s else s)
         (m_sources m)).

(** Modelled from the spec: [SuperState(like)] of the [superstate] module
    and [PointlikeState(roi)], which copy the parameter state of an
    object; [restore] writes the copy back into an object. *)
Definition snapshot (m : model) : list source := m_sources m.
Definition restore (saved : list source) (m : model) : model := with_sources m saved.

(** The fitting engines and the helpers of the [save] and [limits]
    modules, which this module calls and does not define. *)
Class Engine : Type := {
  (** parameter state after [roi.fit(...)], [paranoid_gtlike_fit(like)] *)
  fit : backend -> model -> list source;
  (** [roi.logLikelihood(roi.parameters())], [like.logLike.value()] *)
  logLikelihood : backend -> model -> float;
  (** [roi.TS(name, quick=False)], [like.Ts(name, reoptimize=True)] *)
  source_TS : backend -> model -> string -> float;
  flux_of : backend -> model -> string -> flux_dict;
  diffuse_of : backend -> model -> list (string * float);
  (** [PointlikeUpperLimit(roi, name, cl=...)], [GtlikeUpperLimit(...)] *)
  upper_limit_of : backend -> model -> string -> float -> ul_dict;
  (** [Gtlike(roi, ...).like] *)
  Gtlike : model -> model;
  get_background : model -> list string;
  get_sources : model -> list string
}.

(** ** The tester object *)

Record options : Type := {
  savedir : option string;
  always_upper_limit : bool;
  min_ts : float;
  ul_confidence : float;
  do_gtlike : bool;
  refit_background : bool;
  refit_other_sources : bool;
  use_pointlike_ltcube : bool;
  nbins : option Z;
  tstarts : option (list Qc);
  tstops : option (list Qc)
}.

Definition defaults : options := {|
  savedir := None;
  always_upper_limit := false;
  min_ts := Float.of_Z 4;
  ul_confidence := Float.of_Q (95 # 100);
  do_gtlike := true;
  refit_background := true;
  refit_other_sources := true;
  use_pointlike_ltcube := false;
  nbins := None;
  tstarts := None;
  tstops := None
|}.

Definition set_nbins (v : option Z) (o : options) : options := {|
  savedir := savedir o;
  always_upper_limit := always_upper_limit o;
  min_ts := min_ts o;
  ul_confidence := ul_confidence o;
  do_gtlike := do_gtlike o;
  refit_background := refit_background o;
  refit_other_sources := refit_other_sources o;
  use_pointlike_ltcube := use_pointlike_ltcube o;
  nbins := v;
  tstarts := tstarts o;
  tstops := tstops o
|}.

Inductive stage : Type := AllTime | BinFrozen | BinFree.

(** Calls into the collaborators, in the order they are made. *)
Inductive event : Type :=
| EvFit (b : backend) (st : stage) (m : model)
| EvUpperLimit (b : backend) (cl : float).

(** The caller's ROI, the attributes of [self], and the calls made so far. *)
Record state : Type := {
  roi : model;
  opts : options;
  name : string;
  self_f : float;
  save_data : bool;
  time_range : option (Qc * Qc);
  time : option (list Z * list Z);
  all_time : option all_time_dict;
  bands : list band;
  best_gtlike_state : option (list source);
  TS_var : option (float * option float);
  log : list event
}.

(** Attribute assignment. *)

Definition set_roi (v : model) (s : state) : state := {|
  roi := v;
  opts := opts s;
  name := name s;
  self_f := self_f s;
  save_data := save_data s;
  time_range := time_range s;
  time := time s;
  all_time := all_time s;
  bands := bands s;
  best_gtlike_state := best_gtlike_state s;
  TS_var := TS_var s;
  log := log s
|}.

Definition set_opts (v : options) (s : state) : state := {|
  roi := roi s;
  opts := v;
  name := name s;
  self_f := self_f s;
  save_data := save_data s;
  time_range := time_range s;
  time := time s;
  all_time := all_time s;
  bands := bands s;
  best_gtlike_state := best_gtlike_state s;
  TS_var := TS_var s;
  log := log s
|}.

Definition set_save_data (v : bool) (s : state) : state := {|
  roi := roi s;
  opts := opts s;
  name := name s;
  self_f := self_f s;
  save_data := v;
  time_range := time_range s;
  time := time s;
  all_time := all_time s;
  bands := bands s;
  best_gtlike_state := best_gtlike_state s;
  TS_var := TS_var s;
  log := log s
|}.

Definition set_time_range (v : option (Qc * Qc)) (s : state) : state := {|
  roi := roi s;
  opts := opts s;
  name := name s;
  self_f := self_f s;
  save_data := save_data s;
  time_range := v;
  time := time s;
  all_time := all_time s;
  bands := bands s;
  best_gtlike_state := best_gtlike_state s;
  TS_var := TS_var s;
  log := log s
|}.

Definition set_time (v : option (list Z * list Z)) (s : state) : state := {|
  roi := roi s;
  opts := opts s;
  name := name s;
  self_f := self_f s;
  save_data := save_data s;
  time_range := time_range s;
  time := v;
  all_time := all_time s;
  bands := bands s;
  best_gtlike_state := best_gtlike_state s;
  TS_var := TS_var s;
  log := log s
|}.

Definition set_all_time (v : option all_time_dict) (s : state) : state := {|
  roi := roi s;
  opts := opts s;
  name := name s;
  self_f := self_f s;
  save_data := save_data s;
  time_range := time_range s;
  time := time s;
  all_time := v;
  bands := bands s;
  best_gtlike_state := best_gtlike_state s;
  TS_var := TS_var s;
  log := log s
|}.

Definition set_bands (v : list band) (s : state) : state := {|
  roi := roi s;
  opts := opts s;
  name := name s;
  self_f := self_f s;
  save_data := save_data s;
  time_range := time_range s;
  time := time s;
  all_time := all_time s;
  bands := v;
  best_gtlike_state := best_gtlike_state s;
  TS_var := TS_var s;
  log := log s
|}.

Definition set_best_gtlike_state (v : option (list source)) (s : state) : state := {|
  roi := roi s;
  opts := opts s;
  name := name s;
  self_f := self_f s;
  save_data := save_data s;
  time_range := time_range s;
  time := time s;
  all_time := all_time s;
  bands := bands s;
  best_gtlike_state := v;
  TS_var := TS_var s;
  log := log s
|}.

Definition set_TS_var (v : option (float * option float)) (s : state) : state := {|
  roi := roi s;
  opts := opts s;
  name := name s;
  self_f := self_f s;
  save_data := save_data s;
  time_range := time_range s;
  time := time s;
  all_time := all_time s;
  bands := bands s;
  best_gtlike_state := best_gtlike_state s;
  TS_var := v;
  log := log s
|}.

Definition set_log (v : list event) (s : state) : state := {|
  roi := roi s;
  opts := opts s;
  name := name s;
  self_f := self_f s;
  save_data := save_data s;
  time_range := time_range s;
  time := time s;
  all_time := all_time s;
  bands := bands s;
  best_gtlike_state := best_gtlike_state s;
  TS_var := TS_var s;
  log := v
|}.

(** ** Sequencing: state and exceptions

    A computation reads and updates the state and either returns a value
    or raises; the updates made before an exception stay in place. *)

Definition M (A : Type) : Type := state -> result A * state.

Definition ret {A} (a : A) : M A := fun s => (Ok a, s).

Definition bind {A B} (c : M A) (k : A -> M B) : M B :=
  fun s =>
    match c s with
    | (Ok a, s') => k a s'
    | (Raise e, s') => (Raise e, s')
    end.

Definition raise {A} (e : exn) : M A := fun s => (Raise e, s).

Definition get : M state := fun s => (Ok s, s).

Definition update (g : state -> state) : M unit := fun s => (Ok tt, g s).

Definition lift {A} (r : result A) : M A := fun s => (r, s).

Declare Scope monad_scope.
Delimit Scope monad_scope with monad.
Notation "x <- c1 ;; c2" := (bind c1 (fun x => c2))
  (at level 61, c1 at next level, right associativity) : monad_scope.
Notation "c1 ;; c2" := (bind c1 (fun _ => c2))
  (at level 61, right associativity) : monad_scope.
Open Scope monad_scope.

(** [for x in l: body(x)] *)
Fixpoint for_ {A} (l : list A) (body : A -> M unit) : M unit :=
  match l with
  | [] => ret tt
  | x :: l' => body x ;; for_ l' body
  end.

Definition emit (e : event) : M unit := update (fun s => set_log (log s ++ [e]) s).

(** Evaluating a name that is bound neither in the function nor in the
    module raises. *)
Definition load_name (scope : list string) (x : string) : M unit :=
  if existsb (String.eqb x) scope then ret tt else raise (NameError x).

(** The names bound at module level: the imports and the two classes. *)
Definition module_names : list string :=
  [ "Gtlike"; "SED"; "mkdtemp"; "join"; "exists"; "expandvars"; "os";
    "shutil"; "yaml"; "P"; "pyfits"; "np"; "stats"; "fmin"; "GtApp";
    "keyword_options"; "DataSpecification"; "SpectralAnalysis";
    "PointlikeState"; "phase_ltcube"; "tolist"; "plot_points";
    "paranoid_gtlike_fit"; "modify"; "flux_dict"; "diffuse_dict";
    "get_background"; "get_sources"; "source_dict"; "GtlikeUpperLimit";
    "PointlikeUpperLimit"; "allow_fit_only_prefactor"; "SuperState";
    "BaseFitter"; "summary"; "pointlike_ltcube"; "VariabilityTester";
    "CombinedVariabilityTester" ]%string.

(** The parameters and local variables of [each_time_fit_pointlike]. *)
Definition each_time_fit_pointlike_names : list string :=
  [ "self"; "smaller_roi"; "tstart"; "tstop"; "results"; "name"; "ll";
    "source"; "TS"; "pul" ]%string.

(** ** The methods of [CombinedVariabilityTester] *)

Definition is_none {A} (o : option A) : bool :=
  match o with None => true | Some _ => false end.

Definition is_some {A} (o : option A) : bool := negb (is_none o).

(** The directories themselves are not represented, only the flag. *)
Definition _setup_savedir : M unit :=
  self <- get ;;
  update (set_save_data (is_some (savedir (opts self)))).

Definition _setup_time_bins : M unit :=
  self <- get ;;
  let o := opts self in
  (if is_none (nbins o) && (is_none (tstarts o) && is_none (tstops o))
   then raise (Exception "Must specify nbins or tstarts and tstops")
   else ret tt) ;;
  (if is_some (nbins o) && (is_some (tstarts o) && is_some (tstops o))
   then raise (Exception "Must not specify both nbins or tstarts and tstops")
   else ret tt) ;;
  (if is_none (tstarts o) && is_some (tstops o)
      || is_some (tstarts o) && is_none (tstops o)
   then raise (Exception "Must specify both tsarts and tstops")
   else ret tt) ;;
  r <- lift (get_time_range (ft1files (m_data (roi self)))) ;;
  update (set_time_range (Some r)) ;;
  let '(earliest_time, latest_time) := r in
  se <- match nbins o, tstarts o, tstops o with
        | Some n, _, _ =>
            (* round to nearest second, for simplicity *)
            ret (uniform_bins earliest_time latest_time n)
        | None, Some ts, Some te =>
            (if Nat.eqb (List.length ts) (List.length te) then ret tt
             else raise AssertionError) ;;
            update (fun s => set_opts (set_nbins (Some (Z.of_nat (List.length ts))) (opts s)) s) ;;
            ret (map astype_int ts, map astype_int te)
        | _, _, _ => raise (NameError "starts")
        end ;;
  update (set_time (Some se)).

Section Methods.

Context {E : Engine}.

(** A fit call: recorded, then the object carries the fitted parameters. *)
Definition run_fit (b : backend) (st : stage) (m : model) : M model :=
  emit (EvFit b st m) ;;
  ret (with_sources m (fit b m)).

Definition all_time_fit : M all_time_dict :=
  self <- get ;;
  let name := name self in
  roi' <- run_fit pointlike AllTime (roi self) ;;
  update (set_roi roi') ;;
  let a_point := {| sd_flux := flux_of pointlike roi' name;
                    sd_TS := Some (source_TS pointlike roi' name) |} in
  if do_gtlike (opts self) then
    let like := Gtlike roi' in
    like <- run_fit gtlike AllTime like ;;
    update (set_best_gtlike_state (Some (snapshot like))) ;;
    ret {| a_pointlike := a_point;
           a_gtlike := Some {| sd_flux := flux_of gtlike like name; sd_TS := None |} |}
  else
    ret {| a_pointlike := a_point; a_gtlike := None |}.

(** The confidence level written in both per-bin fitters. *)
Definition cl_literal : float := Float.of_Q (95 # 100).

Definition each_time_fit_pointlike (smaller_roi : model) (tstart tstop : Z)
  : M (bin_result * model) :=
  self <- get ;;
  let name := name self in
  let ll := fun m => Float.opp (logLikelihood pointlike m) in
  (if negb (refit_background (opts self)) then
     for_ (get_background smaller_roi) (fun source =>
       (* roi.modify(which=source,free=False) *)
       load_name (each_time_fit_pointlike_names ++ module_names) "roi")
   else ret tt) ;;
  let smaller_roi :=
    if negb (refit_other_sources (opts self))
    then fold_left modify (get_sources smaller_roi) smaller_roi
    else smaller_roi in
  (* Freeze source of interest *)
  let smaller_roi := modify smaller_roi name in
  smaller_roi <- run_fit pointlike BinFrozen smaller_roi ;;
  let ll_0 := ll smaller_roi in
  (* Fit prefactor of source of interest *)
  let smaller_roi := allow_fit_only_prefactor smaller_roi name in
  smaller_roi <- run_fit pointlike BinFree smaller_roi ;;
  let ll_1 := ll smaller_roi in
  let fl := flux_of pointlike smaller_roi name in
  let ts := source_TS pointlike smaller_roi name in
  let dif := diffuse_of pointlike smaller_roi in
  ul <- (if Float.ltb ts (min_ts (opts self)) || always_upper_limit (opts self)
         then emit (EvUpperLimit pointlike cl_literal) ;;
              ret (Some (upper_limit_of pointlike smaller_roi name cl_literal))
         else ret None) ;;
  ret ({| ll_0 := ll_0; ll_1 := ll_1; r_flux := fl; TS := ts;
          diffuse := dif; upper_limit := ul |}, smaller_roi).

Definition each_time_fit_gtlike (smaller_roi : model) (tstart tstop : Z)
  : M bin_result :=
  self <- get ;;
  let name := name self in
  let like := Gtlike smaller_roi in
  let ll := fun m => logLikelihood gtlike m in
  (* update gtlike object with best fit gtlike parameters *)
  best <- match best_gtlike_state self with
          | Some saved => ret saved
          | None => raise (AttributeError "best_gtlike_state")
          end ;;
  let like := restore best like in
  let like :=
    if negb (refit_background (opts self))
    then fold_left modify (get_background like) like
    else like in
  let like :=
    if negb (refit_other_sources (opts self))
    then fold_left modify (get_sources like) like
    else like in
  (* Freeze source of interest *)
  let like := modify like name in
  like <- run_fit gtlike BinFrozen like ;;
  let ll_0 := ll like in
  (* Fit prefactor of source of interest *)
  let like := allow_fit_only_prefactor like name in
  like <- run_fit gtlike BinFree like ;;
  let ll_1 := ll like in
  let fl := flux_of gtlike like name in
  let ts := source_TS gtlike like name in
  let dif := diffuse_of gtlike like in
  ul <- (if Float.ltb ts (min_ts (opts self)) || always_upper_limit (opts self)
         then emit (EvUpperLimit gtlike cl_literal) ;;
              ret (Some (upper_limit_of gtlike like name cl_literal))
         else ret None) ;;
  ret {| ll_0 := ll_0; ll_1 := ll_1; r_flux := fl; TS := ts;
         diffuse := dif; upper_limit := ul |}.

(** [time_cut]: a new ROI bound to the events between [tstart] and
    [tstop], with copies of the sources of [roi].  The files written on
    the way are not represented. *)
Definition time_cut (roi : model) (tstart tstop : Z) : M model :=
  let d := m_data roi in
  let sources := m_sources roi in
  (if negb (sa_tstart d =? 0)%Z || negb (sa_tstop d =? 0)%Z
   then raise (Exception "sanity check") else ret tt) ;;
  (if (1 <? List.length (ft2files d))%nat
   then raise (Exception "...") else ret tt) ;;
  match ft2files d with
  | [] => raise IndexError
  | _ :: _ =>
      ret {| m_data := {| sa_tstart := sa_tstart d;
                          sa_tstop := sa_tstop d;
                          ft2files := ft2files d;
                          ft1files := ft1files d;
                          selection := Some (tstart, tstop) |};
             m_sources := sources |}
  end.

Definition compute_TS_var (type : backend) : M float :=
  self <- get ;;
  lift (compute_TS_var_of (self_f self) (bands self) (all_time self) type).

(** Assignment into the band appended last, which [band] still names. *)
Fixpoint map_last (g : band -> band) (l : list band) : list band :=
  match l with
  | [] => []
  | [b] => [g b]
  | b :: l' => b :: map_last g l'
  end.

Definition set_b_pointlike (r : bin_result) (b : band) : band :=
  {| tstart := tstart b; tstop := tstop b; days := days b;
     b_pointlike := Some r; b_gtlike := b_gtlike b |}.

Definition set_b_gtlike (r : bin_result) (b : band) : band :=
  {| tstart := tstart b; tstop := tstop b; days := days b;
     b_pointlike := b_pointlike b; b_gtlike := Some r |}.

(** The body of the loop over the time bins. *)
Definition one_bin (t : Z * Z) : M unit :=
  let '(tstart, tstop) := t in
  self <- get ;;
  let days := ((tstop - tstart) / (60 * 60 * 24))%Z in
  let band := {| tstart := tstart; tstop := tstop; days := days;
                 b_pointlike := None; b_gtlike := None |} in
  update (fun s => set_bands (bands s ++ [band]) s) ;;
  smaller_roi <- time_cut (roi self) tstart tstop ;;
  rp <- each_time_fit_pointlike smaller_roi tstart tstop ;;
  let '(r, smaller_roi) := rp in
  update (fun s => set_bands (map_last (set_b_pointlike r) (bands s)) s) ;;
  if do_gtlike (opts self) then
    r <- each_time_fit_gtlike smaller_roi tstart tstop ;;
    update (fun s => set_bands (map_last (set_b_gtlike r) (bands s)) s)
  else ret tt.

(** The dictionary [self.results] only gathers references to the
    attributes set here and is not represented. *)
Definition _test_variability : M unit :=
  (* Perform all-time analysis *)
  a <- all_time_fit ;;
  update (set_all_time (Some a)) ;;
  update (set_bands []) ;;
  self <- get ;;
  se <- match time self with
        | Some se => ret se
        | None => raise (AttributeError "time")
        end ;;
  for_ (combine (fst se) (snd se)) one_bin ;;
  tp <- compute_TS_var pointlike ;;
  update (set_TS_var (Some (tp, None))) ;;
  if do_gtlike (opts self) then
    tg <- compute_TS_var gtlike ;;
    update (set_TS_var (Some (tp, Some tg)))
  else ret tt.

Definition __init__ : M unit :=
  _setup_savedir ;;
  _setup_time_bins ;;
  self <- get ;;
  let saved_state := snapshot (roi self) in
  _test_variability ;;
  update (fun s => set_roi (restore saved_state (roi s)) s).

(** The object before [__init__] runs: the caller's ROI, the keyword
    options and the class attribute [f]. *)
Definition new_tester (roi : model) (name : string) (o : options) : state := {|
  roi := roi;
  opts := o;
  name := name;
  self_f := CombinedVariabilityTester_f;
  save_data := false;
  time_range := None;
  time := None;
  all_time := None;
  bands := [];
  best_gtlike_state := None;
  TS_var := None;
  log := []
|}.

(** [CombinedVariabilityTester(roi, name, **kwargs)] *)
Definition construct (roi : model) (name : string) (o : options)
  : result unit * state :=
  __init__ (new_tester roi name o).

End Methods.

(** ** A small engine and ROI for running the model

    The optimiser moves every free parameter up by one, the likelihood is
    the sum of the parameter values, TS and flux of a source are its
    normalisation, and the upper limit reports as its flux the
    confidence level it was asked for. *)

Module Demo.

Definition is_diffuse (n : string) : bool :=
  String.eqb n "galdiff" || String.eqb n "isodiff".

Definition norm_of (m : model) (n : string) : float :=
  match filter (fun s => String.eqb (s_name s) n) (m_sources m) with
  | s :: _ => match s_params s with p :: _ => p_value p | [] => NaN end
  | [] => NaN
  end.

Definition step_param (p : param) : param :=
  if p_free p then {| p_value := (p_value p + Float.one)%fl; p_free := true |} else p.

Definition engine : Engine := {|
  fit := fun _ m =>
    map (fun s => {| s_name := s_name s; s_params := map step_param (s_params s) |})
        (m_sources m);
  logLikelihood := fun _ m =>
    np.sum (flat_map (fun s => map p_value (s_params s)) (m_sources m));
  source_TS := fun _ m n => norm_of m n;
  flux_of := fun _ m n => {| flux := norm_of m n; flux_err := Float.one |};
  diffuse_of := fun _ m =>
    map (fun s => (s_name s, norm_of m (s_name s)))
        (filter (fun s => is_diffuse (s_name s)) (m_sources m));
  upper_limit_of := fun _ _ _ cl => {| ul_flux := cl |};
  Gtlike := fun m => m;
  get_background := fun m => filter is_diffuse (map s_name (m_sources m));
  get_sources := fun m => filter (fun n => negb (is_diffuse n)) (map s_name (m_sources m))
|}.

Definition P (v : Z) (free : bool) : param := {| p_value := Float.of_Z v; p_free := free |}.

Definition data : dataset := {|
  sa_tstart := 0;
  sa_tstop := 0;
  ft2files := ["ft2.fits"%string];
  ft1files := ft1_file [Qc_of_Z 0; Qc_of_Z 50] [Qc_of_Z 40; Qc_of_Z 100];
  selection := None
|}.

Definition roi0 : model := {|
  m_data := data;
  m_sources := [ {| s_name := "galdiff"; s_params := [P 1 true; P 2 false] |};
                 {| s_name := "crab"; s_params := [P 3 true; P 2 true] |};
                 {| s_name := "other"; s_params := [P 5 true] |} ]
|}.

Definition with_nbins (n : Z) : options := set_nbins (Some n) defaults.

(** An observation that starts and ends between whole seconds: at the
    double-precision numbers nearest to 0.6 s and 10.4 s. *)
Definition roi_frac : model := {|
  m_data := {| sa_tstart := 0; sa_tstop := 0;
               ft2files := ["ft2.fits"%string];
               ft1files := ft1_file [Binary64.rnd (Q2Qc (3 # 5))]
                                    [Binary64.rnd (Q2Qc (52 # 5))];
               selection := None |};
  m_sources := m_sources roi0
|}.

(** Options that ask for upper limits at 99% confidence in every bin. *)
Definition ul99 : options := {|
  savedir := None;
  always_upper_limit := true;
  min_ts := Float.of_Z 4;
  ul_confidence := Float.of_Q (99 # 100);
  do_gtlike := true;
  refit_background := true;
  refit_other_sources := true;
  use_pointlike_ltcube := false;
  nbins := Some 2%Z;
  tstarts := None;
  tstops := None
|}.

(** Options that keep the background sources fixed in every bin. *)
Definition fixed_background : options := {|
  savedir := None;
  always_upper_limit := false;
  min_ts := Float.of_Z 4;
  ul_confidence := Float.of_Q (95 # 100);
  do_gtlike := true;
  refit_background := false;
  refit_other_sources := true;
  use_pointlike_ltcube := false;
  nbins := Some 2%Z;
  tstarts := None;
  tstops := None
|}.

(** Explicit bins: out of order, overlapping, with fractional seconds. *)
Definition explicit : options := {|
  savedir := None;
  always_upper_limit := false;
  min_ts := Float.of_Z 4;
  ul_confidence := Float.of_Q (95 # 100);
  do_gtlike := true;
  refit_background := true;
  refit_other_sources := true;
  use_pointlike_ltcube := false;
  nbins := None;
  tstarts := Some [Q2Qc (101 # 2); Qc_of_Z 0; Q2Qc (- 3 # 2)];
  tstops := Some [Q2Qc (199 # 2); Q2Qc (21 # 2); Q2Qc (- 1 # 2)]
|}.

(** Options that leave gtlike out. *)
Definition pointlike_only : options := {|
  savedir := None;
  always_upper_limit := false;
  min_ts := Float.of_Z 4;
  ul_confidence := Float.of_Q (95 # 100);
  do_gtlike := false;
  refit_background := true;
  refit_other_sources := false;
  use_pointlike_ltcube := false;
  nbins := Some 3%Z;
  tstarts := None;
  tstops := None
|}.

(** A tester in the middle of its loop: the all-time gtlike state saved. *)
Definition in_loop (o : options) : state :=
  set_best_gtlike_state (Some (m_sources roi0)) (new_tester roi0 "crab" o).

(** Hand-made fit results for the aggregation. *)
Definition mk_result (l0 l1 fl : float) : bin_result := {|
  ll_0 := l0; ll_1 := l1;
  r_flux := {| flux := fl; flux_err := Float.zero |};
  TS := Float.zero; diffuse := []; upper_limit := None
|}.

Definition mk_band (r : bin_result) : band := {|
  tstart := 0; tstop := 86400; days := 1;
  b_pointlike := Some r; b_gtlike := None
|}.

Definition mk_all_time (F0 : float) : all_time_dict := {|
  a_pointlike := {| sd_flux := {| flux := F0; flux_err := Float.zero |};
                    sd_TS := None |};
  a_gtlike := None
|}.

(** A tester whose bands and all-time fit are already filled in. *)
Definition fitted (rs : list bin_result) (F0 : float) : state :=
  set_all_time (Some (mk_all_time F0))
    (set_bands (map mk_band rs) (new_tester roi0 "crab" defaults)).

End Demo.

(** ** Statements about the time-bin options *)

(** The result is the configuration error of [_setup_time_bins]. *)
Definition config_error {A} (r : result A) : bool :=
  match r with Raise (Exception _) => true | _ => false end.

(** The option combinations the specification rejects: both forms
    supplied, neither supplied, or only one of [tstarts] and [tstops]. *)
Definition conflicting_time_options (o : options) : bool :=
  is_some (nbins o) && (is_some (tstarts o) && is_some (tstops o))
  || is_none (nbins o) && (is_none (tstarts o) && is_none (tstops o))
  || xorb (is_some (tstarts o)) (is_some (tstops o)).

Definition is_fit (e : event) : bool :=
  match e with EvFit _ _ _ => true | _ => false end.

(** ** Statements about the per-bin fitters *)

Definition source_frozen (s : source) : Prop :=
  Forall (fun p => p_free p = false) (s_params s).

(** Every source of [m] called [n] has all its parameters frozen. *)
Definition frozen_in (m : model) (n : string) : Prop :=
  forall s, In s (m_sources m) -> s_name s = n -> source_frozen s.

(** Names and parameter values, without the free flags. *)
Definition param_values (l : list source) : list (string * list float) :=
  map (fun s => (s_name s, map p_value (s_params s))) l.

(** The condition under which the fitters ask for an upper limit. *)
Definition wants_upper_limit (o : options) (ts : float) : bool :=
  Float.ltb ts (min_ts o) || always_upper_limit o.


Section FitterStatements.

Context {E : Engine}.

(** The object handed to the first fit of a bin: the freezing asked for
    by the options, then the source of interest frozen. *)
Definition freeze_for_bin (o : options) (name : string) (m : model) : model :=
  let m := if negb (refit_background o)
           then fold_left modify (get_background m) m else m in
  let m := if negb (refit_other_sources o)
           then fold_left modify (get_sources m) m else m in
  modify m name.

(** The two fits of a bin, started from [m0], and what is read off them. *)
Definition after_fit (b : backend) (m : model) : model := with_sources m (fit b m).

Definition free_fit_input (b : backend) (name : string) (m0 : model) : model :=
  allow_fit_only_prefactor (after_fit b m0) name.

Definition bin_result_of (b : backend) (ll : model -> float) (o : options)
    (name : string) (m0 : model) : bin_result :=
  let m1 := after_fit b (free_fit_input b name m0) in
  let ts := source_TS b m1 name in
  {| ll_0 := ll (after_fit b m0);
     ll_1 := ll m1;
     r_flux := flux_of b m1 name;
     TS := ts;
     diffuse := diffuse_of b m1;
     upper_limit := if wants_upper_limit o ts
                    then Some (upper_limit_of b m1 name cl_literal)
                    else None |}.

Definition bin_events (b : backend) (o : options) (name : string) (m0 : model)
  : list event :=
  let m1 := after_fit b (free_fit_input b name m0) in
  [EvFit b BinFrozen m0; EvFit b BinFree (free_fit_input b name m0)]
  ++ (if wants_upper_limit o (source_TS b m1 name)
      then [EvUpperLimit b cl_literal] else []).

End FitterStatements.

(** ** Statements about a whole run *)

(** A property of the state that a computation cannot break, whether it
    returns or raises. *)
Definition preserves {A} (I : state -> Prop) (c : M A) : Prop :=
  forall s, I s -> I (snd (c s)).

Section RunStatements.

Context {E : Engine}.

(** The parameter state that the all-time gtlike fit reaches from the
    caller's ROI, which [all_time_fit] saves. *)
Definition all_time_gtlike_state (roi0 : model) : list source :=
  fit gtlike (Gtlike (after_fit pointlike roi0)).

(** A first per-bin gtlike fit starts from the saved state [best],
    restored into a new likelihood object and then frozen as the options
    ask. *)
Definition starts_from (o : options) (name0 : string) (best : list source)
    (e : event) : Prop :=
  match e with
  | EvFit gtlike BinFrozen m =>
      exists smaller_roi : model,
        m = freeze_for_bin o name0 (restore best (Gtlike smaller_roi))
  | _ => True
  end.

(** What holds of the tester throughout a run started on [roi0]. *)
Definition run_invariant (roi0 : model) (o : options) (name0 : string)
    (s : state) : Prop :=
  name s = name0
  /\ refit_background (opts s) = refit_background o
  /\ refit_other_sources (opts s) = refit_other_sources o
  /\ m_data (roi s) = m_data roi0
  /\ (forall b, best_gtlike_state s = Some b -> b = all_time_gtlike_state roi0)
  /\ Forall (starts_from o name0 (all_time_gtlike_state roi0)) (log s).

End RunStatements.

(** The objects on which the first gtlike fit of each bin was made. *)
Definition frozen_gtlike_fits (l : list event) : list model :=
  flat_map (fun e => match e with
                     | EvFit gtlike BinFrozen m => [m]
                     | _ => []
                     end) l.

(** ** Statements about the aggregation *)

(** A value of the unit interval. *)
Definition in_unit_interval (x : float) : Prop :=
  exists w : Qc, x = Fin w /\ (0 <= w)%Qc /\ (w <= 1)%Qc.

Definition has_entry (type : backend) (b : band) : bool :=
  match type with
  | pointlike => is_some (b_pointlike b)
  | gtlike => is_some (b_gtlike b)
  end.

Definition all_time_has (type : backend) (a : all_time_dict) : bool :=
  match type with
  | pointlike => true
  | gtlike => is_some (a_gtlike a)
  end.

(** ** Statements about the time range and the explicit bins *)

Definition is_nil {A} (l : list A) : bool :=
  match l with [] => true | _ :: _ => false end.

(** No table and no list of files is empty. *)
Fixpoint ft1_complete (f : ft1) : bool :=
  match f with
  | ft1_file START STOP => negb (is_nil START) && negb (is_nil STOP)
  | ft1_list files => negb (is_nil files) && forallb ft1_complete files
  end.

(** All START and all STOP values of the files. *)
Fixpoint all_starts (f : ft1) : list Qc :=
  match f with
  | ft1_file START _ => START
  | ft1_list files => flat_map all_starts files
  end.

Fixpoint all_stops (f : ft1) : list Qc :=
  match f with
  | ft1_file _ STOP => STOP
  | ft1_list files => flat_map all_stops files
  end.

(** ** Statements about the report and the calls of a run *)

(** The ROI that [time_cut] builds when it does not raise. *)
Definition time_cut_roi (roi : model) (tstart tstop : Z) : model :=
  {| m_data := {| sa_tstart := sa_tstart (m_data roi);
                  sa_tstop := sa_tstop (m_data roi);
                  ft2files := ft2files (m_data roi);
                  ft1files := ft1files (m_data roi);
                  selection := Some (tstart, tstop) |};
     m_sources := m_sources roi |}.

(** A per-bin result carries an upper limit exactly when the options
    ask for one. *)
Definition limit_as_asked (o : options) (r : option bin_result) : Prop :=
  forall x, r = Some x -> is_some (upper_limit x) = wants_upper_limit o (TS x).

(** The band of the report for the time bin [t]. *)
Definition band_report (o : options) (t : Z * Z) (b : band) : Prop :=
  tstart b = fst t
  /\ tstop b = snd t
  /\ days b = ((snd t - fst t) / 86400)%Z
  /\ is_some (b_pointlike b) = true
  /\ is_some (b_gtlike b) = do_gtlike o
  /\ limit_as_asked o (b_pointlike b)
  /\ limit_as_asked o (b_gtlike b).

(** The options and the class attribute a report depends on. *)
Definition report_options (o : options) (s : state) : Prop :=
  do_gtlike (opts s) = do_gtlike o
  /\ min_ts (opts s) = min_ts o
  /\ always_upper_limit (opts s) = always_upper_limit o
  /\ self_f s = CombinedVariabilityTester_f.

Definition is_gtlike_event (e : event) : bool :=
  match e with
  | EvFit gtlike _ _ | EvUpperLimit gtlike _ => true
  | _ => false
  end.

(** The time bins the loop runs over. *)
Definition bins_of (tm : option (list Z * list Z)) : list (Z * Z) :=
  match tm with
  | Some se => combine (fst se) (snd se)
  | None => []
  end.

Section ReportStatements.

Context {E : Engine}.

(** The object handed to the first pointlike fit of a bin. *)
Definition pointlike_first_input (o : options) (name : string) (m : model)
  : model :=
  modify (if negb (refit_other_sources o)
          then fold_left modify (get_sources m) m else m) name.

(** What every call recorded in a run started on [roi0] satisfies, for
    the time bins [bins]. *)
Definition call_ok (roi0 : model) (o : options) (name0 : string)
    (bins : list (Z * Z)) (e : event) : Prop :=
  match e with
  | EvFit pointlike AllTime m => m = roi0
  | EvFit pointlike BinFrozen m =>
      exists t, In t bins
        /\ m = pointlike_first_input o name0
                 (time_cut_roi (after_fit pointlike roi0) (fst t) (snd t))
  | EvFit pointlike BinFree _ => True
  | EvUpperLimit pointlike cl => cl = cl_literal
  | EvFit gtlike _ _ => do_gtlike o = true
  | EvUpperLimit gtlike cl => do_gtlike o = true /\ cl = cl_literal
  end.

(** What holds of the tester from the all-time fit to the end of the loop. *)
Definition loop_invariant (roi0 : model) (o : options) (name0 : string)
    (bins : list (Z * Z)) (s : state) : Prop :=
  name s = name0
  /\ refit_other_sources (opts s) = refit_other_sources o
  /\ do_gtlike (opts s) = do_gtlike o
  /\ roi s = after_fit pointlike roi0
  /\ Forall (call_ok roi0 o name0 bins) (log s).

(** What holds of a new tester until the all-time fit. *)
Definition setup_facts (roi0 : model) (o : options) (name0 : string)
    (s : state) : Prop :=
  name s = name0
  /\ refit_other_sources (opts s) = refit_other_sources o
  /\ do_gtlike (opts s) = do_gtlike o
  /\ roi s = roi0
  /\ log s = [].

End ReportStatements.

(** The objects handed to the first pointlike fit of each bin, in order. *)
Definition frozen_pointlike_fits (l : list event) : list model :=
  flat_map (fun e => match e with
                     | EvFit pointlike BinFrozen m => [m]
                     | _ => []
                     end) l.

(** ** Plotting: [plot_points] and [VariabilityTester.plot]

    The drawing itself is matplotlib's; what is modelled is the arrays
    handed to [axes.errorbar], [axes.plot] and [axes.axhline].  The
    arrays are one-dimensional and of one length, as [plot] builds them. *)

(** [x >= y]; every comparison with NaN is false. *)
Definition float_geb (x y : float) : bool :=
  match x, y with
  | NaN, _ | _, NaN => false
  | _, _ => negb (Float.ltb x y)
  end.

(** [a[m]] for a boolean array [m]. *)
Fixpoint mask_get (m : list bool) (a : np.array) : np.array :=
  match m, a with
  | c :: m', v :: a' => if c then v :: mask_get m' a' else mask_get m' a'
  | _, _ => []
  end.

(** [a[m] = v], where [v] has one element for each true entry of [m]. *)
Fixpoint mask_set (m : list bool) (a v : np.array) : np.array :=
  match m, a with
  | c :: m', x :: a' =>
      if c then
        match v with
        | y :: v' => y :: mask_set m' a' v'
        | [] => x :: mask_set m' a' []
        end
      else x :: mask_set m' a' v
  | _, _ => a
  end.

Definition zeros_like (a : np.array) : np.array := map (fun _ => Float.zero) a.

Definition zeros (n : nat) : np.array := repeat Float.zero n.

(** [sum(m)] of a boolean array: the number of true entries. *)
Definition py_sum (m : list bool) : nat := List.length (filter (fun c => c) m).

(** The arguments of [axes.errorbar(x, y, xerr=[..], yerr=[..])]. *)
Record errorbar_call : Type := {
  e_x : np.array;
  e_y : np.array;
  e_xerr : np.array * np.array;
  e_yerr : np.array * np.array
}.

(** The arguments of [axes.plot(x, y, marker=CARETDOWN)]. *)
Record plot_call : Type := { p_x : np.array; p_y : np.array }.

Record drawn : Type := { errorbar : errorbar_call; arrows : option plot_call }.

(** [significant] is one flag for all points or an array of flags. *)
Inductive significance : Type :=
| all_points (b : bool)
| per_point (s : list bool).

Definition significant_array (significant : significance) (x : np.array)
  : list bool :=
  match significant with
  | all_points b => repeat b (List.length x)
  | per_point s => s
  end.

Definition default_ul_fraction : float := Float.of_Q (4 # 10).

(** [plot_points].  The error arrays are copied before they are written;
    [y] is not, so the array drawn, [e_y], is also what the caller's [y]
    holds after the call. *)
Definition plot_points (x y : np.array) (xlo xhi : option np.array)
    (y_lower_err y_upper_err : option np.array) (y_ul : np.array)
    (significant : significance) (ul_fraction : float) : drawn :=
  let s := significant_array significant x in
  let dx_hi := match xhi with
               | Some xhi => np.zip_with Float.sub xhi x
               | None => zeros_like y
               end in
  let dx_lo := match xlo with
               | Some xlo => np.zip_with Float.sub x xlo
               | None => zeros_like x
               end in
  let y_lower_err := match y_lower_err with
                     | None => zeros_like y
                     | Some e => e
                     end in
  let y_upper_err := match y_upper_err with
                     | None => zeros_like y
                     | Some e => e
                     end in
  let ns := np.invert s in
  let has_ul := (0 <? py_sum ns)%nat in
  (* If there are upper limits, replace data points in arrays
     with upper limits. *)
  let y := if has_ul then mask_set ns y (mask_get ns y_ul) else y in
  let y_lower_err :=
    if has_ul
    then mask_set ns y_lower_err
           (map (fun v => ul_fraction * v)%fl (mask_get ns y_ul))
    else y_lower_err in
  let y_upper_err :=
    if has_ul then mask_set ns y_upper_err (zeros (py_sum ns))
    else y_upper_err in
  {| errorbar := {| e_x := x; e_y := y;
                    e_xerr := (dx_lo, dx_hi);
                    e_yerr := (y_lower_err, y_upper_err) |};
     (* plot the upper limit down arrow markers *)
     arrows := if has_ul
               then Some {| p_x := mask_get ns x;
                            p_y := map (fun v => (Float.one - ul_fraction) * v)%fl
                                       (mask_get ns y_ul) |}
               else None |}.

(** The entries of [self.results] that [plot] reads. *)
Record results_dict : Type := {
  res_min_ts : float;
  res_time : list Z * list Z;
  res_bands : list band;
  res_all_time : all_time_dict
}.

(** [self.results] is the last thing [_test_variability] sets: it exists
    after a constructor call that returned, and only then. *)
Definition results_of (run : result unit * state) : option results_dict :=
  match run with
  | (Ok _, s) =>
      match time s, all_time s with
      | Some t, Some a =>
          Some {| res_min_ts := min_ts (opts s); res_time := t;
                  res_bands := bands s; res_all_time := a |}
      | _, _ => None
      end
  | (Raise _, _) => None
  end.

(** [np.asarray(x).astype(float)] of an integer array. *)
Definition astype_float (l : list Z) : np.array := map Float.of_Z l.

(** One pass of the loop of [plot]: the points and the dashed line. *)
Record curve : Type := { c_type : backend; c_points : drawn; c_axhline : float }.

(** [VariabilityTester.plot]; [ul_fraction] reaches [plot_points] through
    the keyword arguments.  What was drawn before an exception is not
    represented. *)
Definition plot (results : results_dict) (plot_gtlike plot_pointlike : bool)
    (ul_fraction : float) : result (list curve) :=
  let bands := res_bands results in
  let all_time := res_all_time results in
  let min_ts := res_min_ts results in
  let starts := astype_float (fst (res_time results)) in
  let stops := astype_float (snd (res_time results)) in
  let time := map (fun v => v / Float.two)%fl (np.zip_with Float.add starts stops) in
  let loop := (if plot_gtlike then [gtlike] else [])
              ++ (if plot_pointlike then [pointlike] else []) in
  rmap (fun t =>
    rbind (all_time_get all_time t) (fun a =>
    let f0 := flux (sd_flux a) in
    rbind (rmap (fun b => band_get b t) bands) (fun rs =>
    let ts := map TS rs in
    let significant := map (fun v => float_geb v min_ts) ts in
    let f := map (fun r => flux (r_flux r)) rs in
    let ferr := map (fun r => flux_err (r_flux r)) rs in
    (* astype(float) converts None to nan *)
    let fup := map (fun r => match upper_limit r with
                             | Some u => ul_flux u
                             | None => NaN
                             end) rs in
    Ok {| c_type := t;
          c_points := plot_points time f (Some starts) (Some stops)
                        (Some ferr) (Some ferr) fup (per_point significant)
                        ul_fraction;
          c_axhline := f0 |}))) loop.

(** ** Statements about the plot *)

(** Point by point: [p] where the flag is set, [q] elsewhere. *)
Fixpoint choose (m : list bool) (p q : np.array) : np.array :=
  match m, p, q with
  | c :: m', a :: p', b :: q' => (if c then a else b) :: choose m' p' q'
  | _, _, _ => []
  end.

(** The fitted results of the bands for one backend, where present. *)
Definition results_for (t : backend) (bs : list band) : list bin_result :=
  flat_map (fun b => match band_get b t with Ok r => [r] | Raise _ => [] end) bs.

(** The curves of a plot that returned. *)
Definition curves_of (r : result (list curve)) : list curve :=
  match r with Ok cs => cs | Raise _ => [] end.

Definition no_curve : curve :=
  {| c_type := pointlike;
     c_points := plot_points [] [] None None None None [] (all_points true) NaN;
     c_axhline := NaN |}.

(** The report of a run on the small ROI, empty if the run raised. *)
Definition demo_report (o : options) : results_dict :=
  match results_of (construct (E:=Demo.engine) Demo.roi0 "crab" o) with
  | Some r => r
  | None => {| res_min_ts := NaN; res_time := ([], []); res_bands := [];
               res_all_time := Demo.mk_all_time NaN |}
  end.

(** ** Statements about the data a run needs *)

(** What [time_cut] checks before it builds the new ROI: no time cut in
    the analysis object, and one spacecraft file. *)
Definition can_cut (d : dataset) : bool :=
  (sa_tstart d =? 0)%Z && (sa_tstop d =? 0)%Z
  && (List.length (ft2files d) =? 1)%nat.

(** The sum of a list of numbers. *)
Definition Qc_sum (l : list Qc) : Qc := fold_right Qcplus 0%Qc l.

(** ** Statements about the evenly spaced bins *)

(** A time as the program holds it: a double-precision number, and one
    whose seconds fit a 64-bit integer. *)
Definition binary64_time (q : Qc) : Prop :=
  Binary64.rnd q = q /\ (Qcabs q <= Qc_of_Z (2 ^ 62))%Qc.

(** The [k]-th of the [n+1] values of [linspace], as it is computed. *)
Definition linspace_point (start stop : Qc) (n k : Z) : Qc :=
  if (k =? n)%Z then stop
  else
    Binary64.add
      (Binary64.mul (Binary64.of_int k)
         (Binary64.div (Binary64.sub stop start) (Binary64.of_int n)))
      start.

(** The same point in exact arithmetic. *)
Definition even_point (start stop : Qc) (n k : Z) : Qc :=
  (start + Qc_of_Z k * (stop - start) / Qc_of_Z n)%Qc.

(** A bound on the rounding error of the four operations behind a point. *)
Definition float_error (start stop : Qc) (n : Z) : Qc :=
  (Q2Qc (1 # 2 ^ 50) * (Qcabs start + Qcabs stop)
   + Qc_of_Z (n + 4) * Q2Qc (1 # 2 ^ 1074))%Qc.

(** The operations of [linspace] in the standard library's specification
    of IEEE 754 arithmetic, at the parameters of binary64. *)
Module IEEE.

Definition prec : Z := 53.
Definition emax : Z := 1024.

Definition value (x : SpecFloat.spec_float) : Q :=
  match x with
  | SpecFloat.S754_finite s m e =>
      (if s then -1 else 1) * inject_Z (Zpos m) * Binary64.pow2 e
  | _ => 0
  end.

(** The number nearest to [m * 2^e]. *)
Definition of_scaled (m e : Z) : SpecFloat.spec_float :=
  SpecFloat.binary_normalize prec emax m e false.

Definition of_Z (z : Z) : SpecFloat.spec_float := of_scaled z 0.

(** Whether an operation of the specification and the rounded exact
    operation give the same number on [a * 2^ea] and [b * 2^eb]. *)
Definition agree
    (op : Z -> Z -> SpecFloat.spec_float -> SpecFloat.spec_float
          -> SpecFloat.spec_float)
    (exact : Qc -> Qc -> Qc) (a ea b eb : Z) : bool :=
  Qeq_bool
    (Binary64.rnd (exact (Q2Qc (inject_Z a * Binary64.pow2 ea))
                         (Q2Qc (inject_Z b * Binary64.pow2 eb))))
    (value (op prec emax (of_scaled a ea) (of_scaled b eb))).

Definition linspace_point (start stop : SpecFloat.spec_float) (n k : Z)
  : SpecFloat.spec_float :=
  if (k =? n)%Z then stop
  else
    SpecFloat.SFadd prec emax
      (SpecFloat.SFmul prec emax (of_Z k)
         (SpecFloat.SFdiv prec emax (SpecFloat.SFsub prec emax stop start)
            (of_Z n)))
      start.

Definition linspace (start stop : SpecFloat.spec_float) (n : Z) : list Q :=
  map (fun k => Qred (value (linspace_point start stop n k))) (arange (n + 1)).

End IEEE.

(** * Properties *)

(** ** Rationals *)

Lemma this_plus (a b : Qc) : (this (a + b) == this a + this b)%Q.
Proof. unfold Qcplus, Q2Qc; cbn [this]. apply Qred_correct. Qed.

Lemma this_mult (a b : Qc) : (this (a * b) == this a * this b)%Q.
Proof. unfold Qcmult, Q2Qc; cbn [this]. apply Qred_correct. Qed.

Lemma this_opp (a : Qc) : (this (- a) == - this a)%Q.
Proof. unfold Qcopp, Q2Qc; cbn [this]. apply Qred_correct. Qed.

Lemma this_minus (a b : Qc) : (this (a - b) == this a - this b)%Q.
Proof. unfold Qcminus. rewrite this_plus, this_opp. reflexivity. Qed.

Lemma this_inv (a : Qc) : (this (/ a) == / this a)%Q.
Proof. unfold Qcinv, Q2Qc; cbn [this]. apply Qred_correct. Qed.

Lemma this_div (a b : Qc) : (this (a / b) == this a / this b)%Q.
Proof. unfold Qcdiv. rewrite this_mult, this_inv. reflexivity. Qed.

Lemma this_Q2Qc (q : Q) : (this (Q2Qc q) == q)%Q.
Proof. unfold Q2Qc; cbn [this]. apply Qred_correct. Qed.

Lemma Qc_eq_this (a b : Qc) : a = b <-> (this a == this b)%Q.
Proof. split; [intros ->; reflexivity | apply Qc_is_canon]. Qed.

(** Moves a goal about canonical rationals to plain rationals. *)
Ltac to_Q :=
  unfold Qcle, Qclt in *;
  repeat match goal with
    | H : @eq Qc _ _ |- _ => apply Qc_eq_this in H
    | H : ~ @eq Qc _ _ |- _ => rewrite Qc_eq_this in H
    | |- @eq Qc _ _ => apply Qc_eq_this
    | |- ~ @eq Qc _ _ => rewrite Qc_eq_this
    end;
  repeat (rewrite ?this_plus, ?this_mult, ?this_minus, ?this_opp, ?this_div,
            ?this_inv, ?this_Q2Qc in * );
  change (this 0%Qc) with 0%Q in *;
  change (this 1%Qc) with 1%Q in *.

Lemma Qc_is0_spec (q : Qc) : Float.Qc_is0 q = true <-> q = 0%Qc.
Proof.
  unfold Float.Qc_is0, Qc_eq_bool.
  destruct (Qc_eq_dec q 0); split; intros; congruence.
Qed.

Lemma Qc_is0_false (q : Qc) : Float.Qc_is0 q = false <-> q <> 0%Qc.
Proof.
  rewrite <- Qc_is0_spec. destruct (Float.Qc_is0 q); split; congruence.
Qed.

Lemma Qc_sq_nonneg (q : Qc) : (0 <= q * q)%Qc.
Proof. to_Q. nra. Qed.

Lemma Qc_sum_nonneg_0 (a c : Qc) :
  (0 <= a)%Qc -> (0 <= c)%Qc -> (a + c)%Qc = 0%Qc -> a = 0%Qc.
Proof. intros. to_Q. lra. Qed.

(** ** The model on small inputs *)

Lemma Fin_eq (a b : Qc) : (this a == this b)%Q -> Fin a = Fin b.
Proof. intros H. f_equal. now apply Qc_is_canon. Qed.

Example np_round_halves :
  map np_round [Q2Qc (1 # 2); Q2Qc (3 # 2); Q2Qc (5 # 2); Q2Qc (-1 # 2);
                Q2Qc (-3 # 2); Q2Qc (7 # 5); Q2Qc (-7 # 5)]
  = [0; 2; 2; 0; -2; 1; -1]%Z.
Proof. reflexivity. Qed.

Example uniform_bins_100_s :
  uniform_bins (Qc_of_Z 0) (Qc_of_Z 100) 3 = ([0; 33; 67]%Z, [33; 67; 100]%Z).
Proof. vm_compute. reflexivity. Qed.

Example division_special_cases :
  (Float.zero / Float.zero)%fl = NaN
  /\ (Float.one / Float.zero)%fl = Inf false
  /\ (Inf false / Inf false)%fl = NaN
  /\ (Float.one / Inf false)%fl = Float.zero.
Proof. repeat split. Qed.

(** One bin with [F = 2 F0]: the fraction is [1/(1 + f^2)], so with
    [2*(ll_1 - ll_0) = 2] and [f = 0.02] the sum is [5000/2501]. *)
Example TS_var_one_bin :
  TS_var_of_arrays CombinedVariabilityTester_f
    [Float.one] [Float.zero] [Float.two] Float.one
  = Float.of_Q (5000 # 2501).
Proof. apply Fin_eq. reflexivity. Qed.

(** A not-a-number flux leaves the raw statistic. *)
Example TS_var_nan_flux :
  TS_var_of_arrays CombinedVariabilityTester_f
    [Float.one] [Float.zero] [NaN] Float.one
  = Float.two.
Proof. apply Fin_eq. reflexivity. Qed.

(** A run of the demonstration engine: the all-time fit moves the
    parameters of the caller's ROI. *)
Example all_time_fit_moves_roi :
  m_sources (roi (snd (all_time_fit (E:=Demo.engine)
                         (new_tester Demo.roi0 "crab" (Demo.with_nbins 2)))))
  <> m_sources Demo.roi0.
Proof. intros H. vm_compute in H. discriminate H. Qed.

(** ** Aggregation: the array program and the per-bin sum *)

Lemma good_fraction_weight (f F0 df : float) :
  (if negb (Float.isnan (damping_fraction f F0 df))
   then damping_fraction f F0 df else Float.one)
  = damping_weight f F0 df.
Proof.
  unfold damping_weight.
  destruct (Float.isnan (damping_fraction f F0 df)); reflexivity.
Qed.

(** The array handed to [np.sum] holds, bin by bin, the guarded term. *)
Lemma weighted_array_terms (f F0 : float) (rs : list bin_result) :
  let F := map (fun r => flux (r_flux r)) rs in
  let df := map (fun x => x - F0)%fl F in
  let fraction :=
    np.zip_with Float.div (map Float.sq df)
      (map (fun x => x + Float.sq f * Float.sq F0)%fl (map Float.sq df)) in
  np.zip_with Float.mul
    (map (fun x => Float.two * x)%fl
       (np.zip_with Float.sub (map ll_1 rs) (map ll_0 rs)))
    (np.where_ (np.invert (np.isnan fraction)) fraction Float.one)
  = map (damped_term f F0) rs.
Proof.
  induction rs as [|r rs IH]; [reflexivity|].
  cbn [map np.zip_with np.isnan np.invert np.where_] in *.
  f_equal; [|exact IH].
  unfold damped_term, raw_statistic.
  rewrite <- good_fraction_weight. reflexivity.
Qed.

Lemma TS_var_of_arrays_sum (f F0 : float) (rs : list bin_result) :
  TS_var_of_arrays f (map ll_1 rs) (map ll_0 rs)
    (map (fun r => flux (r_flux r)) rs) F0
  = np.sum (map (damped_term f F0) rs).
Proof.
  unfold TS_var_of_arrays. f_equal. apply weighted_array_terms.
Qed.

Lemma default_f_value : CombinedVariabilityTester_f = Float.of_Q (1 # 50).
Proof.
  unfold CombinedVariabilityTester_f, Float.of_Q. f_equal.
  apply Q2Qc_eq_iff. reflexivity.
Qed.

Lemma compute_TS_var_returns
    (self : state) (type : backend) (rs : list bin_result)
    (a : all_time_dict) (d : source_dict) :
  rmap (fun b => band_get b type) (bands self) = Ok rs ->
  all_time self = Some a ->
  all_time_get a type = Ok d ->
  exists v,
    compute_TS_var type self = (Ok v, self)
    /\ v = np.sum (map (damped_term (self_f self) (flux (sd_flux d))) rs).
Proof.
  intros Hb Ha Hd.
  unfold compute_TS_var, bind, get, lift, compute_TS_var_of.
  rewrite Hb, Ha, Hd. cbn [rbind].
  rewrite TS_var_of_arrays_sum. eexists. split; reflexivity.
Qed.




(** ** The damping fraction is a number or not-a-number *)

Lemma Qc_neg_nonneg (q : Qc) : (0 <= q)%Qc -> Float.Qc_neg q = false.
Proof.
  intros H. unfold Float.Qc_neg.
  destruct (Qccompare q 0) eqn:E; try reflexivity.
  apply Qclt_alt in E. exfalso. apply (Qcle_not_lt _ _ H E).
Qed.

Lemma nonneg_sq (x : float) : nonneg (Float.sq x).
Proof.
  destruct x as [|s|q]; cbn; auto.
  - destruct s; reflexivity.
  - apply Qc_sq_nonneg.
Qed.

Lemma nonneg_mul (x y : float) : nonneg x -> nonneg y -> nonneg (x * y).
Proof.
  destruct x as [|s|a], y as [|t|b]; cbn; intros Hx Hy; subst; auto.
  - destruct (Float.Qc_is0 b); cbn; auto. now rewrite Qc_neg_nonneg.
  - destruct (Float.Qc_is0 a); cbn; auto. now rewrite Qc_neg_nonneg.
  - to_Q. nra.
Qed.

Lemma nonneg_add (x y : float) : nonneg x -> nonneg y -> nonneg (x + y).
Proof.
  destruct x as [|s|a], y as [|t|b]; cbn; intros Hx Hy; subst; cbn; auto.
  to_Q. lra.
Qed.

Lemma div_by_sum_fin_or_nan (n c : float) :
  nonneg n -> nonneg c ->
  Float.isnan (n / (n + c)) = true \/ Float.isfinite (n / (n + c)) = true.
Proof.
  destruct n as [|s|a], c as [|t|b]; cbn; intros Hn Hc; subst; cbn; auto.
  destruct (Float.Qc_is0 (a + b)) eqn:E; cbn; auto.
  apply Qc_is0_spec in E.
  apply (Qc_sum_nonneg_0 Hn Hc) in E. subst a.
  left. reflexivity.
Qed.

Lemma damping_fraction_fin_or_nan (f F0 df : float) :
  Float.isnan (damping_fraction f F0 df) = true
  \/ Float.isfinite (damping_fraction f F0 df) = true.
Proof.
  unfold damping_fraction. apply div_by_sum_fin_or_nan.
  - apply nonneg_sq.
  - apply nonneg_mul; apply nonneg_sq.
Qed.

Lemma damping_weight_finite (f F0 df : float) :
  Float.isfinite (damping_weight f F0 df) = true.
Proof.
  unfold damping_weight.
  destruct (damping_fraction_fin_or_nan f F0 df) as [H|H].
  - rewrite H. reflexivity.
  - destruct (damping_fraction f F0 df); try discriminate. exact H.
Qed.

(** A not-a-number deviation makes the fraction not-a-number. *)
Lemma nan_deviation_nan_fraction (f F0 df : float) :
  Float.isnan df = true -> Float.isnan (damping_fraction f F0 df) = true.
Proof. destruct df; try discriminate. reflexivity. Qed.

Lemma mul_one_r (x : float) : (x * Float.one)%fl = x.
Proof.
  destruct x as [|s|a]; cbn; try reflexivity.
  - destruct s; reflexivity.
  - f_equal. apply Qcmult_1_r.
Qed.

Lemma raw_statistic_finite (r : bin_result) :
  Float.isfinite (ll_0 r) = true -> Float.isfinite (ll_1 r) = true ->
  Float.isfinite (raw_statistic r) = true.
Proof.
  unfold raw_statistic.
  destruct (ll_0 r), (ll_1 r); try discriminate. reflexivity.
Qed.

Lemma mul_finite (x y : float) :
  Float.isfinite x = true -> Float.isfinite y = true ->
  Float.isfinite (x * y) = true.
Proof. destruct x, y; try discriminate; reflexivity. Qed.

Lemma sum_from_finite (l : list float) (acc : float) :
  Forall (fun x => Float.isfinite x = true) l ->
  Float.isfinite acc = true ->
  Float.isfinite (fold_left Float.add l acc) = true.
Proof.
  intros H. revert acc.
  induction H as [|x l Hx _ IH]; intros acc Hacc; cbn; [exact Hacc|].
  apply IH. destruct acc, x; try discriminate; reflexivity.
Qed.

Lemma finite_not_nan (x : float) :
  Float.isfinite x = true -> Float.isnan x = false.
Proof. destruct x; try discriminate; reflexivity. Qed.

(** With finite log-likelihoods every guarded sum is a number, whatever
    the fluxes are. *)
Lemma guarded_sum_finite (f F0 : float) (rs : list bin_result) :
  (forall r, In r rs ->
     Float.isfinite (ll_0 r) = true /\ Float.isfinite (ll_1 r) = true) ->
  Float.isfinite (np.sum (map (damped_term f F0) rs)) = true.
Proof.
  intros H. unfold np.sum. apply sum_from_finite; [|reflexivity].
  apply Forall_forall. intros x Hx.
  apply in_map_iff in Hx. destruct Hx as [r [<- Hr]].
  destruct (H r Hr) as [H0 H1].
  apply mul_finite.
  - now apply raw_statistic_finite.
  - apply damping_weight_finite.
Qed.

Lemma damped_term_guarded (f F0 : float) (r : bin_result) :
  Float.isnan (damping_fraction f F0 (flux (r_flux r) - F0)) = true ->
  damped_term f F0 r = raw_statistic r.
Proof.
  intros H. unfold damped_term, damping_weight. rewrite H. apply mul_one_r.
Qed.

Lemma damped_term_unguarded (f F0 : float) (r : bin_result) :
  Float.isnan (damping_fraction f F0 (flux (r_flux r) - F0)) = false ->
  damped_term f F0 r = spec_term f F0 r.
Proof.
  intros H. unfold damped_term, spec_term, damping_weight. now rewrite H.
Qed.

Lemma map_damped_unguarded (f F0 : float) (rs : list bin_result) :
  (forall r, In r rs ->
     Float.isnan (damping_fraction f F0 (flux (r_flux r) - F0)) = false) ->
  map (damped_term f F0) rs = map (spec_term f F0) rs.
Proof.
  intros H. apply map_ext_in. intros r Hr. apply damped_term_unguarded; auto.
Qed.

Lemma sum_of_numbers (qs : list Qc) (acc : Qc) :
  fold_left Float.add (map Fin qs) (Fin acc) = Fin (acc + Qc_sum qs).
Proof.
  revert acc. induction qs as [|q qs IH]; intros acc; cbn [map fold_left Qc_sum fold_right].
  - f_equal. ring.
  - cbn [Float.add]. rewrite IH. f_equal. unfold Qc_sum. ring.
Qed.

Lemma np_sum_of_numbers (qs : list Qc) :
  np.sum (map Fin qs) = Fin (Qc_sum qs).
Proof.
  unfold np.sum. change Float.zero with (Fin 0%Qc).
  rewrite sum_of_numbers. f_equal. ring.
Qed.

Lemma raw_statistic_number (r : bin_result) (l0 l1 : Qc) :
  ll_0 r = Fin l0 -> ll_1 r = Fin l1 ->
  raw_statistic r = Fin (Q2Qc 2 * (l1 - l0)).
Proof. intros H0 H1. unfold raw_statistic. rewrite H0, H1. reflexivity. Qed.

(** With finite log-likelihoods and damping fractions that are numbers,
    the terms of the specification are numbers, and they are the terms
    the code sums. *)
Lemma damped_terms_numbers (f F0 : float) (rs : list bin_result) :
  (forall r, In r rs ->
     Float.isnan (damping_fraction f F0 (flux (r_flux r) - F0)) = false) ->
  (forall r, In r rs ->
     Float.isfinite (ll_0 r) = true /\ Float.isfinite (ll_1 r) = true) ->
  exists qs : list Qc,
    Forall2 (fun r q => spec_term f F0 r = Fin q) rs qs
    /\ map (damped_term f F0) rs = map Fin qs.
Proof.
  induction rs as [|r rs IH]; intros Hfr Hll.
  - exists []. split; [constructor|reflexivity].
  - destruct IH as (qs & Hqs & Hmap).
    + intros x Hx. apply Hfr. now right.
    + intros x Hx. apply Hll. now right.
    + assert (Hr : Float.isnan (damping_fraction f F0 (flux (r_flux r) - F0))
                   = false) by (apply Hfr; now left).
      destruct (Hll r (or_introl eq_refl)) as [H0 H1].
      destruct (ll_0 r) as [| |l0] eqn:E0; try discriminate H0.
      destruct (ll_1 r) as [| |l1] eqn:E1; try discriminate H1.
      pose proof (damping_weight_finite f F0 (flux (r_flux r) - F0)) as Hw.
      unfold damping_weight in Hw. rewrite Hr in Hw.
      destruct (damping_fraction f F0 (flux (r_flux r) - F0)) as [| |w] eqn:Ew;
        try discriminate Hw.
      assert (Hterm : spec_term f F0 r = Fin (Q2Qc 2 * (l1 - l0) * w)).
      { unfold spec_term. rewrite (raw_statistic_number r E0 E1), Ew.
        reflexivity. }
      exists ((Q2Qc 2 * (l1 - l0) * w)%Qc :: qs). split.
      * constructor; [exact Hterm|exact Hqs].
      * cbn [map]. rewrite Hmap. f_equal.
        rewrite damped_term_unguarded by (rewrite Ew; reflexivity).
        exact Hterm.
Qed.

(** C4, as amended.  With finite log-likelihoods in every bin, when the
    damping fraction of exactly one bin [b] is not-a-number (as it is
    when its flux deviation is) and that of every other bin is a number,
    [compute_TS_var] returns a number: the sum of the raw statistic
    [2*(ll_1 - ll_0)] of [b], undamped, and of the damped statistic of
    every other bin. *)
Theorem nan_bin_contributes_raw
    (self : state) (type : backend) (pre post : list bin_result)
    (b : bin_result) (a : all_time_dict) (d : source_dict) :
  rmap (fun x => band_get x type) (bands self) = Ok (pre ++ b :: post) ->
  all_time self = Some a ->
  all_time_get a type = Ok d ->
  Float.isnan (damping_fraction (self_f self) (flux (sd_flux d))
                 (flux (r_flux b) - flux (sd_flux d))) = true ->
  (forall r, In r (pre ++ post) ->
     Float.isnan (damping_fraction (self_f self) (flux (sd_flux d))
                    (flux (r_flux r) - flux (sd_flux d))) = false) ->
  (forall r, In r (pre ++ b :: post) ->
     Float.isfinite (ll_0 r) = true /\ Float.isfinite (ll_1 r) = true) ->
  exists (qpre qpost : list Qc) (l0 l1 : Qc),
    ll_0 b = Fin l0
    /\ ll_1 b = Fin l1
    /\ Forall2 (fun r q => spec_term (self_f self) (flux (sd_flux d)) r = Fin q)
         pre qpre
    /\ Forall2 (fun r q => spec_term (self_f self) (flux (sd_flux d)) r = Fin q)
         post qpost
    /\ compute_TS_var type self
       = (Ok (Fin (Qc_sum (qpre ++ (Q2Qc 2 * (l1 - l0))%Qc :: qpost))), self).
Proof.
  intros Hb Ha Hd Hnan Hothers Hll.
  destruct (compute_TS_var_returns self type Hb Ha Hd) as [v [Hv Hsum]].
  destruct (@damped_terms_numbers (self_f self) (flux (sd_flux d)) pre)
    as (qpre & Hqpre & Hmpre).
  { intros r Hr. apply Hothers, in_or_app. now left. }
  { intros r Hr. apply Hll, in_or_app. now left. }
  destruct (@damped_terms_numbers (self_f self) (flux (sd_flux d)) post)
    as (qpost & Hqpost & Hmpost).
  { intros r Hr. apply Hothers, in_or_app. now right. }
  { intros r Hr. apply Hll, in_or_app. right. now right. }
  destruct (Hll b) as [H0 H1]; [apply in_or_app; right; now left|].
  destruct (ll_0 b) as [| |l0] eqn:E0; try discriminate H0.
  destruct (ll_1 b) as [| |l1] eqn:E1; try discriminate H1.
  exists qpre, qpost, l0, l1.
  do 4 (split; [first [reflexivity | assumption]|]).
  rewrite Hv. f_equal. f_equal. subst v.
  rewrite map_app. cbn [map].
  rewrite (damped_term_guarded _ _ _ Hnan), (raw_statistic_number b E0 E1).
  rewrite Hmpre, Hmpost.
  change (Fin (Q2Qc 2 * (l1 - l0)) :: map Fin qpost)
    with (map Fin ((Q2Qc 2 * (l1 - l0))%Qc :: qpost)).
  rewrite <- map_app. apply np_sum_of_numbers.
Qed.

Lemma nan_bin_contributes_raw_witness :
  exists (qpre qpost : list Qc) (l0 l1 : Qc),
    Float.one = Fin l0
    /\ Float.two = Fin l1
    /\ Forall2 (fun r q => spec_term CombinedVariabilityTester_f Float.one r
                           = Fin q)
         [Demo.mk_result Float.zero Float.one Float.two] qpre
    /\ Forall2 (fun r q => spec_term CombinedVariabilityTester_f Float.one r
                           = Fin q)
         [Demo.mk_result Float.zero Float.two Float.zero] qpost
    /\ compute_TS_var pointlike
         (Demo.fitted [Demo.mk_result Float.zero Float.one Float.two;
                       Demo.mk_result Float.one Float.two NaN;
                       Demo.mk_result Float.zero Float.two Float.zero] Float.one)
       = (Ok (Fin (Qc_sum (qpre ++ (Q2Qc 2 * (l1 - l0))%Qc :: qpost))),
          Demo.fitted [Demo.mk_result Float.zero Float.one Float.two;
                       Demo.mk_result Float.one Float.two NaN;
                       Demo.mk_result Float.zero Float.two Float.zero] Float.one).
Proof.
  apply (@nan_bin_contributes_raw
           (Demo.fitted [Demo.mk_result Float.zero Float.one Float.two;
                         Demo.mk_result Float.one Float.two NaN;
                         Demo.mk_result Float.zero Float.two Float.zero] Float.one)
           pointlike
           [Demo.mk_result Float.zero Float.one Float.two]
           [Demo.mk_result Float.zero Float.two Float.zero]
           (Demo.mk_result Float.one Float.two NaN)
           (Demo.mk_all_time Float.one)
           (a_pointlike (Demo.mk_all_time Float.one))).
  - reflexivity.
  - reflexivity.
  - reflexivity.
  - reflexivity.
  - intros r [<-|[<-|[]]]; vm_compute; reflexivity.
  - intros r [<-|[<-|[<-|[]]]]; split; reflexivity.
Defined.

(** C4 as stated fails when a log-likelihood is not a number: only the
    damping fraction is guarded.  With one bin whose fit failed, its
    flux and its [ll_1] both not-a-number, beside a regular bin, the
    result is not-a-number. *)
Lemma nan_likelihood_not_guarded :
  let f := CombinedVariabilityTester_f in
  let good := Demo.mk_result Float.zero Float.one Float.two in
  let failed := Demo.mk_result Float.one NaN NaN in
  Float.isnan (damping_fraction f Float.one (flux (r_flux failed) - Float.one))
  = true
  /\ Float.isnan (damping_fraction f Float.one (flux (r_flux good) - Float.one))
     = false
  /\ compute_TS_var pointlike (Demo.fitted [good; failed] Float.one)
     = (Ok NaN, Demo.fitted [good; failed] Float.one).
Proof. repeat split; vm_compute; reflexivity. Qed.

(** ** The damping weight at zero deviation and at large deviations *)

Lemma damping_fraction_at_zero (f F0 : Qc) :
  f <> 0%Qc -> F0 <> 0%Qc ->
  damping_fraction (Fin f) (Fin F0) (Fin 0%Qc) = Fin 0%Qc.
Proof.
  intros Hf HF. unfold damping_fraction. cbn.
  assert (Hc : (0 * 0 + f * f * (F0 * F0))%Qc <> 0%Qc).
  { to_Q. intros H.
    assert (Hf2 : (0 < this f * this f)%Q) by nra.
    assert (HF2 : (0 < this F0 * this F0)%Q) by nra.
    nra. }
  apply Qc_is0_false in Hc. rewrite Hc.
  f_equal. unfold Qcdiv. ring.
Qed.

Lemma damping_fraction_large (f F0 eps : Qc) :
  (0 < eps)%Qc ->
  exists M : Qc, forall df : Qc,
    (M < df \/ df < - M)%Qc ->
    exists w : Qc,
      damping_fraction (Fin f) (Fin F0) (Fin df) = Fin w
      /\ (1 - eps < w)%Qc /\ (w <= 1)%Qc.
Proof.
  intros Heps.
  set (c := (f * f * (F0 * F0))%Qc).
  assert (Hc : (0 <= c)%Qc) by (unfold c; to_Q; nra).
  exists (c / eps + 1)%Qc. intros df Hdf.
  set (n := (df * df)%Qc).
  assert (Hk : (this (c / eps) * this eps == this c)%Q).
  { rewrite this_div. field. to_Q. lra. }
  assert (Hk0 : (0 <= this (c / eps))%Q).
  { to_Q. nra. }
  assert (Hn : (c / eps + 1 < n)%Qc).
  { unfold n. to_Q. set (k := (this c / this eps)%Q) in *. destruct Hdf; nra. }
  assert (Hden : (n + c)%Qc <> 0%Qc).
  { to_Q. set (k := (this c / this eps)%Q) in *. lra. }
  exists (n / (n + c))%Qc. split; [|split].
  - unfold damping_fraction. cbn. fold n. fold c.
    apply Qc_is0_false in Hden. rewrite Hden. reflexivity.
  - assert (Hw : (this (n / (n + c)) * (this n + this c) == this n)%Q).
    { rewrite this_div, this_plus. field. to_Q. exact Hden. }
    to_Q.
    set (k := (this c / this eps)%Q) in *.
    set (w := (this n / (this n + this c))%Q) in *.
    nra.
  - assert (Hw : (this (n / (n + c)) * (this n + this c) == this n)%Q).
    { rewrite this_div, this_plus. field. to_Q. exact Hden. }
    to_Q.
    set (k := (this c / this eps)%Q) in *.
    set (w := (this n / (this n + this c))%Q) in *.
    nra.
Qed.

Lemma sub_self (q : Qc) : (Fin q - Fin q)%fl = Fin 0%Qc.
Proof. cbn. f_equal. apply Qcplus_opp_r. Qed.

(** C5, as amended.  For a finite all-time flux [F0] and systematic
    fraction [f]: when both are non-zero the damping weight at [df = 0]
    is [0] and a bin whose flux equals [F0] contributes nothing; and the
    weight tends to [1] as [|df|] grows: for every [eps > 0] it lies in
    [(1 - eps, 1]] for all [|df|] beyond some bound. *)
Theorem damping_weight_limits (f F0 : Qc) :
  (f <> 0%Qc -> F0 <> 0%Qc ->
     damping_weight (Fin f) (Fin F0) (Fin 0%Qc) = Fin 0%Qc
     /\ forall r : bin_result,
          Float.isfinite (ll_0 r) = true -> Float.isfinite (ll_1 r) = true ->
          flux (r_flux r) = Fin F0 ->
          damped_term (Fin f) (Fin F0) r = Fin 0%Qc)
  /\ (forall eps : Qc, (0 < eps)%Qc ->
        exists M : Qc, forall df : Qc,
          (M < df \/ df < - M)%Qc ->
          exists w : Qc,
            damping_weight (Fin f) (Fin F0) (Fin df) = Fin w
            /\ (1 - eps < w)%Qc /\ (w <= 1)%Qc).
Proof.
  split.
  - intros Hf HF.
    assert (H0 : damping_weight (Fin f) (Fin F0) (Fin 0%Qc) = Fin 0%Qc).
    { unfold damping_weight. now rewrite damping_fraction_at_zero. }
    split; [exact H0|].
    intros r Hl0 Hl1 Hfl. unfold damped_term.
    rewrite Hfl, sub_self, H0.
    pose proof (raw_statistic_finite r Hl0 Hl1) as Hr.
    destruct (raw_statistic r) as [| |q]; try discriminate.
    cbn. f_equal. apply Qcmult_0_r.
  - intros eps Heps.
    destruct (damping_fraction_large f F0 Heps) as [M HM].
    exists M. intros df Hdf.
    destruct (HM df Hdf) as [w [Hw Hb]].
    exists w. split; [|exact Hb].
    unfold damping_weight. now rewrite Hw.
Qed.

Lemma damping_weight_limits_witness :
  (damping_weight CombinedVariabilityTester_f Float.one (Fin 0%Qc) = Fin 0%Qc
   /\ damped_term CombinedVariabilityTester_f Float.one
        (Demo.mk_result Float.zero Float.two Float.one) = Fin 0%Qc)
  /\ exists M : Qc, forall df : Qc,
       (M < df \/ df < - M)%Qc ->
       exists w : Qc,
         damping_weight CombinedVariabilityTester_f Float.one (Fin df) = Fin w
         /\ (1 - Q2Qc (1 # 10) < w)%Qc /\ (w <= 1)%Qc.
Proof.
  destruct (damping_weight_limits (Q2Qc (2 # 100)) (Q2Qc (inject_Z 1)))
    as [Hzero Hlim].
  split.
  - destruct Hzero as [H0 Hr].
    + intros H. apply (f_equal this) in H. vm_compute in H. discriminate H.
    + intros H. apply (f_equal this) in H. vm_compute in H. discriminate H.
    + split; [exact H0|]. apply Hr; reflexivity.
  - apply Hlim. reflexivity.
Defined.

(** C5 as stated fails for [F0 = 0]: the fraction at [df = 0] is [0/0],
    the weight is replaced by [1] and the bin contributes its whole
    statistic [2*(ll_1 - ll_0) = 4]. *)
Lemma damping_weight_at_zero_flux_fails :
  Float.isnan (damping_fraction CombinedVariabilityTester_f Float.zero Float.zero)
  = true
  /\ damping_weight CombinedVariabilityTester_f Float.zero Float.zero
     = Float.one
  /\ damped_term CombinedVariabilityTester_f Float.zero
       (Demo.mk_result Float.zero Float.two Float.zero)
     <> Float.zero.
Proof.
  split; [reflexivity|]. split; [reflexivity|].
  intros H. vm_compute in H. discriminate H.
Qed.

(** ** Rounding to the nearest second *)

Lemma np_round_Z (q : Qc) :
  (- Zpos (Qden q) <= 2 * (np_round q * Zpos (Qden q) - Qnum q) <= Zpos (Qden q))%Z.
Proof.
  unfold np_round.
  set (n := Qnum q). set (d := Zpos (Qden q)).
  assert (Hd : (0 < d)%Z) by (unfold d; lia).
  pose proof (Z.div_mod n d ltac:(lia)) as Hdm.
  pose proof (Z.mod_pos_bound n d Hd) as Hm.
  destruct (Z.compare_spec (2 * (n mod d)) d) as [He|Hl|Hg].
  - destruct (Z.even (n / d)); nia.
  - nia.
  - nia.
Qed.

Lemma this_Qc_of_Z (z : Z) : (this (Qc_of_Z z) == inject_Z z)%Q.
Proof. apply this_Q2Qc. Qed.

Lemma np_round_half (q : Qc) :
  (Qc_of_Z (np_round q) - q <= Q2Qc (1 # 2))%Qc
  /\ (q - Qc_of_Z (np_round q) <= Q2Qc (1 # 2))%Qc.
Proof.
  pose proof (np_round_Z q) as H.
  to_Q. rewrite !this_Qc_of_Z.
  set (r := np_round q) in *.
  destruct q as [[n d] Hq]. cbn [this Qnum Qden] in *.
  unfold Qle, Qminus, Qplus, Qopp, inject_Z. cbn [Qnum Qden].
  split; nia.
Qed.

Lemma np_round_mono (p q : Qc) : (p <= q)%Qc -> (np_round p <= np_round q)%Z.
Proof.
  intros Hpq.
  destruct (Z_le_gt_dec (np_round p) (np_round q)) as [H|H]; [exact H|].
  exfalso.
  destruct (np_round_half p) as [Hp _].
  destruct (np_round_half q) as [_ Hq].
  assert (Heq : p = q).
  { assert (H1 : (inject_Z (np_round q) + 1 <= inject_Z (np_round p))%Q).
    { rewrite <- (inject_Z_plus _ 1). rewrite <- Zle_Qle. lia. }
    to_Q. rewrite !this_Qc_of_Z in *. lra. }
  subst. lia.
Qed.

(** ** Rounding to double precision *)

Lemma pow2_pos (e : Z) : (0 < Binary64.pow2 e)%Q.
Proof. apply Qpower_0_lt. reflexivity. Qed.

Lemma pow2_plus (a b : Z) :
  (Binary64.pow2 (a + b) == Binary64.pow2 a * Binary64.pow2 b)%Q.
Proof. apply Qpower_plus. discriminate. Qed.

Lemma pow2_Z (n : Z) :
  (0 <= n)%Z -> (Binary64.pow2 n == inject_Z (2 ^ n))%Q.
Proof. intros Hn. unfold Binary64.pow2. now rewrite Zpower_Qpower. Qed.

Lemma pow2_opp (n : Z) : (Binary64.pow2 (- n) == / Binary64.pow2 n)%Q.
Proof. apply Qpower_opp. Qed.

Lemma pow2_succ (k : Z) :
  (Binary64.pow2 (k + 1) == 2 * Binary64.pow2 k)%Q.
Proof. rewrite pow2_plus. unfold Binary64.pow2 at 2. rewrite Qpower_1_r. ring. Qed.

Lemma log2_bounds (n : Z) :
  (0 < n)%Z -> (2 ^ Z.log2 n <= n < 2 * 2 ^ Z.log2 n)%Z.
Proof.
  intros Hn. pose proof (Z.log2_spec n Hn) as H.
  rewrite Z.pow_succ_r in H by apply Z.log2_nonneg. exact H.
Qed.

(** [ilog2] brackets its argument. *)
Lemma ilog2_spec (q : Q) :
  (0 < q)%Q ->
  (Binary64.pow2 (Binary64.ilog2 q) <= q)%Q
  /\ (q < Binary64.pow2 (Binary64.ilog2 q + 1))%Q.
Proof.
  intros Hq. unfold Binary64.ilog2.
  set (n := Qnum q). set (d := Zpos (Qden q)).
  set (la := Z.log2 n). set (lb := Z.log2 d).
  assert (Hn : (0 < n)%Z).
  { unfold n. destruct q as [a b]. unfold Qlt in Hq. cbn in *. lia. }
  assert (Hd : (0 < d)%Z) by (unfold d; lia).
  destruct (log2_bounds Hn) as [Hn1 Hn2]. fold la in Hn1, Hn2.
  destruct (log2_bounds Hd) as [Hd1 Hd2]. fold lb in Hd1, Hd2.
  assert (Hla : (0 <= la)%Z) by apply Z.log2_nonneg.
  assert (Hlb : (0 <= lb)%Z) by apply Z.log2_nonneg.
  assert (Hpa : (0 < 2 ^ la)%Z) by (apply Z.pow_pos_nonneg; lia).
  assert (Hpb : (0 < 2 ^ lb)%Z) by (apply Z.pow_pos_nonneg; lia).
  assert (Hqd : (q == inject_Z n / inject_Z d)%Q).
  { unfold n, d. destruct q as [a b]. cbn [Qnum Qden]. apply Qmake_Qdiv. }
  assert (Hk : (Binary64.pow2 (la - lb) == inject_Z (2 ^ la) / inject_Z (2 ^ lb))%Q).
  { unfold Z.sub. rewrite pow2_plus, pow2_opp, !pow2_Z by lia. reflexivity. }
  assert (Hdq : (0 < inject_Z d)%Q)
    by (change 0%Q with (inject_Z 0); rewrite <- Zlt_Qlt; lia).
  assert (Hbq : (0 < inject_Z (2 ^ lb))%Q)
    by (change 0%Q with (inject_Z 0); rewrite <- Zlt_Qlt; lia).
  (* 2^(k-1) < q < 2^(k+1) for k = la - lb *)
  assert (Hlow : (Binary64.pow2 (la - lb) <= 2 * q)%Q).
  { rewrite Hk, Hqd.
    apply Qle_shift_div_r; [exact Hbq|].
    setoid_replace (2 * (inject_Z n / inject_Z d) * inject_Z (2 ^ lb))%Q
      with (inject_Z (2 * n * 2 ^ lb) / inject_Z d)%Q
      by (rewrite !inject_Z_mult; field; lra).
    apply Qle_shift_div_l; [exact Hdq|].
    rewrite <- inject_Z_mult, <- Zle_Qle. nia. }
  assert (Hhigh : (q < 2 * Binary64.pow2 (la - lb))%Q).
  { rewrite Hk, Hqd.
    apply Qlt_shift_div_r; [exact Hdq|].
    setoid_replace (2 * (inject_Z (2 ^ la) / inject_Z (2 ^ lb)) * inject_Z d)%Q
      with (inject_Z (2 * 2 ^ la * d) / inject_Z (2 ^ lb))%Q
      by (rewrite !inject_Z_mult; field; lra).
    apply Qlt_shift_div_l; [exact Hbq|].
    rewrite <- inject_Z_mult, <- Zlt_Qlt. nia. }
  destruct (Qle_bool (Binary64.pow2 (la - lb)) q) eqn:Hb.
  - apply Qle_bool_iff in Hb. split; [exact Hb|].
    rewrite pow2_succ. exact Hhigh.
  - assert (Hlt : (q < Binary64.pow2 (la - lb))%Q).
    { apply Qnot_le_lt. intros H. apply Qle_bool_iff in H. congruence. }
    replace (la - lb - 1 + 1)%Z with (la - lb)%Z by lia.
    split; [|exact Hlt].
    assert (Hs : (Binary64.pow2 (la - lb) == 2 * Binary64.pow2 (la - lb - 1))%Q).
    { rewrite <- pow2_succ. now replace (la - lb - 1 + 1)%Z with (la - lb)%Z by lia. }
    rewrite Hs in Hlow. lra.
Qed.

Lemma half_ulp_52 : (Binary64.pow2 (-52) * (1 # 2) == Binary64.u)%Q.
Proof. vm_compute. reflexivity. Qed.

Lemma half_ulp_min : (Binary64.pow2 (-1074) * (1 # 2) == Binary64.eta)%Q.
Proof. vm_compute. reflexivity. Qed.

Lemma u_pos : (0 < Binary64.u)%Q.
Proof. reflexivity. Qed.

Lemma eta_pos : (0 < Binary64.eta)%Q.
Proof. reflexivity. Qed.

(** Half a unit in the last place is a relative error of [u], or [eta]
    among the subnormal numbers. *)
Lemma half_ulp_bound (x : Q) :
  (~ x == 0)%Q ->
  (Binary64.pow2 (Binary64.ulp_exponent x) * (1 # 2)
   <= Binary64.u * Qabs x + Binary64.eta)%Q.
Proof.
  intros Hx.
  assert (Hax : (0 < Qabs x)%Q).
  { destruct (Q_dec x 0) as [[H|H]|H]; [| |contradiction].
    - rewrite Qabs_neg by lra. lra.
    - rewrite Qabs_pos by lra. lra. }
  destruct (ilog2_spec Hax) as [Hlo _].
  pose proof u_pos. pose proof eta_pos.
  unfold Binary64.ulp_exponent.
  destruct (Z.max_spec (Binary64.ilog2 (Qabs x) - 52) (-1074)) as [[_ ->]|[_ ->]].
  - rewrite half_ulp_min.
    assert (0 <= Binary64.u * Qabs x)%Q by (apply Qmult_le_0_compat; lra).
    lra.
  - replace (Binary64.ilog2 (Qabs x) - 52)%Z
      with (Binary64.ilog2 (Qabs x) + (-52))%Z by lia.
    rewrite pow2_plus.
    setoid_replace (Binary64.pow2 (Binary64.ilog2 (Qabs x)) * Binary64.pow2 (-52)
                    * (1 # 2))%Q
      with (Binary64.u * Binary64.pow2 (Binary64.ilog2 (Qabs x)))%Q
      by (rewrite <- half_ulp_52; ring).
    assert (Binary64.u * Binary64.pow2 (Binary64.ilog2 (Qabs x))
            <= Binary64.u * Qabs x)%Q.
    { apply Qmult_le_l; [exact u_pos|exact Hlo]. }
    lra.
Qed.

(** The error of one rounding. *)
Lemma rnd_error (q : Qc) :
  (Qabs (this (Binary64.rnd q) - this q)
   <= Binary64.u * Qabs (this q) + Binary64.eta)%Q.
Proof.
  unfold Binary64.rnd.
  destruct (Qc_eq_bool q 0) eqn:H0.
  - setoid_replace (this q - this q)%Q with 0%Q by ring.
    cbn [Qabs Z.abs Qnum Qden].
    pose proof (Qabs_nonneg (this q)). pose proof u_pos. pose proof eta_pos.
    assert (0 <= Binary64.u * Qabs (this q))%Q by (apply Qmult_le_0_compat; lra).
    lra.
  - assert (Hq : ~ (this q == 0)%Q).
    { intros H.
      assert (Hq0 : q = 0%Qc) by (apply Qc_is_canon; exact H).
      rewrite Hq0 in H0. discriminate H0. }
    set (e := Binary64.ulp_exponent (this q)).
    pose proof (pow2_pos e) as He.
    destruct (np_round_half (Q2Qc (this q / Binary64.pow2 e))) as [H1 H2].
    pose proof (half_ulp_bound Hq) as Hb. fold e in Hb.
    to_Q. rewrite !this_Qc_of_Z in *.
    set (m := inject_Z (np_round (Q2Qc (this q / Binary64.pow2 e)))) in *.
    set (p := Binary64.pow2 e) in *.
    set (x := this q) in *.
    assert (Hxy : (x == (x / p) * p)%Q) by (field; lra).
    apply Qabs_Qle_condition.
    assert (Hm1 : ((m - x / p) * p <= (1 # 2) * p)%Q)
      by (apply Qmult_le_compat_r; lra).
    assert (Hm2 : ((x / p - m) * p <= (1 # 2) * p)%Q)
      by (apply Qmult_le_compat_r; lra).
    set (z := (x / p)%Q) in *.
    split; [|].
    + assert (x - m * p == (z - m) * p)%Q by (rewrite Hxy at 1; ring). lra.
    + assert (m * p - x == (m - z) * p)%Q by (rewrite Hxy at 1; ring). lra.
Qed.

Lemma scale_bound (c z G : Q) :
  (0 <= c)%Q -> (c <= 1)%Q -> (- G <= z)%Q -> (z <= G)%Q ->
  (- G <= c * z)%Q /\ (c * z <= G)%Q.
Proof. intros. split; nra. Qed.

Lemma abs_bounds (a b : Q) : (Qabs a <= b)%Q -> (- b <= a)%Q /\ (a <= b)%Q.
Proof. intros H. now apply Qabs_Qle_condition. Qed.

Lemma abs_le (a b : Q) : (- b <= a)%Q -> (a <= b)%Q -> (Qabs a <= b)%Q.
Proof. intros. now apply Qabs_Qle_condition. Qed.

(** The four roundings of one point of [linspace]. *)
Lemma linspace_error_Q (e l d1 s p y n k : Q) :
  (e <= l)%Q -> (1 <= n)%Q -> (0 <= k)%Q -> (k <= n)%Q ->
  (Qabs (d1 - (l - e)) <= Binary64.u * Qabs (l - e) + Binary64.eta)%Q ->
  (Qabs (s - d1 / n) <= Binary64.u * Qabs (d1 / n) + Binary64.eta)%Q ->
  (Qabs (p - k * s) <= Binary64.u * Qabs (k * s) + Binary64.eta)%Q ->
  (Qabs (y - (p + e)) <= Binary64.u * Qabs (p + e) + Binary64.eta)%Q ->
  (Qabs (y - (e + k * (l - e) / n))
   <= (1 # 2 ^ 50) * (Qabs e + Qabs l) + (n + 4) * (1 # 2 ^ 1074))%Q.
Proof.
  intros Hel Hn Hk0 Hkn H1 H2 H3 H4.
  let v := eval vm_compute in Binary64.u in change Binary64.u with v in *.
  let v := eval vm_compute in Binary64.eta in change Binary64.eta with v in *.
  let v := eval vm_compute in (2 ^ 50)%positive in
    change (2 ^ 50)%positive with v.
  let v := eval vm_compute in (2 ^ 1074)%positive in
    change (2 ^ 1074)%positive with v.
  match goal with
  | H : (Qabs (s - _) <= ?a * _ + ?b)%Q |- _ => set (u := a) in *; set (eta := b) in *
  end.
  set (D := (l - e)%Q) in *.
  assert (HD : (0 <= D)%Q) by (unfold D; lra).
  rewrite (Qabs_pos D HD) in H1.
  pose proof (Qle_Qabs l) as Hl1.
  pose proof (Qle_Qabs (- e)) as He1. rewrite Qabs_opp in He1.
  pose proof (Qle_Qabs e) as He2.
  apply abs_bounds in H1. destruct H1 as [H1a H1b].
  (* |d1| *)
  assert (Had : (Qabs d1 <= D + (u * D + eta))%Q) by (apply abs_le; lra).
  pose proof (Qabs_nonneg d1) as Had0.
  (* n * (s - d1/n) *)
  assert (Hnt : (n * (d1 / n) == d1)%Q) by (field; lra).
  assert (Hnat : (n * Qabs (d1 / n) == Qabs d1)%Q).
  { rewrite <- (Qabs_pos n) at 1 by lra. rewrite <- Qabs_Qmult.
    now rewrite Hnt. }
  apply abs_bounds in H2. destruct H2 as [H2a H2b].
  set (t := (d1 / n)%Q) in *. set (at_ := Qabs t) in *.
  assert (Hv1 : (n * s - d1 <= u * Qabs d1 + n * eta)%Q).
  { assert (n * (s - t) <= n * (u * at_ + eta))%Q
      by (apply Qmult_le_l; lra).
    assert (n * (s - t) == n * s - d1)%Q by (rewrite <- Hnt; ring).
    assert (n * (u * at_ + eta) == u * Qabs d1 + n * eta)%Q
      by (rewrite <- Hnat; ring).
    lra. }
  assert (Hv2 : (- (u * Qabs d1 + n * eta) <= n * s - d1)%Q).
  { assert (n * (- (u * at_ + eta)) <= n * (s - t))%Q
      by (apply Qmult_le_l; lra).
    assert (n * (s - t) == n * s - d1)%Q by (rewrite <- Hnt; ring).
    assert (n * (- (u * at_ + eta)) == - (u * Qabs d1 + n * eta))%Q
      by (rewrite <- Hnat; ring).
    lra. }
  (* scaling by k/n *)
  set (c := (k / n)%Q).
  assert (Hc0 : (0 <= c)%Q) by (apply Qle_shift_div_l; lra).
  assert (Hc1 : (c <= 1)%Q) by (apply Qle_shift_div_r; lra).
  assert (Hw : (k * s == c * (n * s))%Q) by (unfold c; field; lra).
  assert (Hx : (k * D / n == c * D)%Q) by (unfold c; field; lra).
  set (E1 := (u * D + eta)%Q) in *.
  set (E2 := (u * Qabs d1 + n * eta)%Q) in *.
  destruct (@scale_bound c (n * s - D) (E1 + E2) Hc0 Hc1) as [Hs1 Hs2];
    [lra|lra|].
  destruct (@scale_bound c (n * s) (Qabs d1 + E2) Hc0 Hc1) as [Hs3 Hs4].
  { pose proof (Qle_Qabs (- d1)) as Hd. rewrite Qabs_opp in Hd. lra. }
  { pose proof (Qle_Qabs d1). lra. }
  assert (Hwx : (k * s - k * D / n == c * (n * s - D))%Q)
    by (rewrite Hw, Hx; ring).
  set (w := (k * s)%Q) in *. set (xk := (k * D / n)%Q) in *.
  assert (Haw : (Qabs w <= Qabs d1 + E2)%Q) by (apply abs_le; lra).
  apply abs_bounds in H3. destruct H3 as [H3a H3b].
  set (E3 := (u * Qabs w + eta)%Q) in *.
  assert (Hape : (Qabs (p + e) <= Qabs d1 + E2 + E3 + Qabs e)%Q)
    by (apply abs_le; lra).
  apply abs_bounds in H4. destruct H4 as [H4a H4b].
  pose proof (Qabs_nonneg (p + e)). pose proof (Qabs_nonneg w).
  pose proof (Qabs_nonneg e). pose proof (Qabs_nonneg l).
  assert (Hgoal : (y - (e + xk) == (y - (p + e)) + (p - w) + (w - xk))%Q) by ring.
  unfold E1, E2, E3, u, eta, D in *.
  apply abs_le; rewrite Hgoal; lra.
Qed.

Lemma this_Qcabs (x : Qc) : this (Qcabs x) = Qabs (this x).
Proof. reflexivity. Qed.

Lemma rnd_0 : Binary64.rnd 0%Qc = 0%Qc.
Proof. reflexivity. Qed.

Lemma float_error_nonneg (e l : Qc) (n : Z) :
  (1 <= n)%Z -> (0 <= float_error e l n)%Qc.
Proof.
  intros Hn. unfold float_error, Qcle.
  rewrite this_plus, !this_mult, this_plus, !this_Q2Qc, !this_Qcabs,
    this_Qc_of_Z.
  pose proof (Qabs_nonneg (this e)). pose proof (Qabs_nonneg (this l)).
  assert (0 <= inject_Z (n + 4))%Q
    by (change 0%Q with (inject_Z 0); rewrite <- Zle_Qle; lia).
  change (this 0%Qc) with 0%Q.
  apply Qplus_nonneg_nonneg' || idtac.
  assert (0 <= (1 # 2 ^ 50) * (Qabs (this e) + Qabs (this l)))%Q
    by (apply Qmult_le_0_compat; [discriminate|lra]).
  assert (0 <= inject_Z (n + 4) * (1 # 2 ^ 1074))%Q
    by (apply Qmult_le_0_compat; [assumption|discriminate]).
  lra.
Qed.

(** ** Lists: the slices of the edge array *)

Lemma set_last_length (y : list Qc) (v : Qc) :
  List.length (set_last y v) = List.length y.
Proof.
  induction y as [|a [|b y] IH]; cbn in *; auto.
Qed.

Lemma set_last_nth (y : list Qc) (v d : Qc) (k : nat) :
  (k < List.length y)%nat ->
  nth k (set_last y v) d
  = if Nat.eqb (S k) (List.length y) then v else nth k y d.
Proof.
  revert k. induction y as [|a [|b y] IH]; intros k Hk.
  - cbn in Hk. lia.
  - cbn in *. assert (k = 0)%nat by lia. subst. reflexivity.
  - destruct k as [|k].
    + reflexivity.
    + change (set_last (a :: b :: y) v) with (a :: set_last (b :: y) v).
      cbn [nth]. rewrite IH by (cbn in *; lia).
      reflexivity.
Qed.

Lemma arange_length (num : Z) : List.length (arange num) = Z.to_nat num.
Proof. unfold arange. now rewrite length_map, length_seq. Qed.

Lemma arange_nth (num : Z) (k : nat) :
  (k < Z.to_nat num)%nat -> nth k (arange num) 0%Z = Z.of_nat k.
Proof.
  intros Hk. unfold arange.
  change 0%Z with (Z.of_nat 0). rewrite map_nth, seq_nth by exact Hk.
  reflexivity.
Qed.

Lemma removelast_len {A} (l : list A) :
  List.length (removelast l) = (List.length l - 1)%nat.
Proof.
  induction l as [|a [|b l] IH]; cbn in *; auto. rewrite IH. lia.
Qed.

Lemma removelast_nth {A} (l : list A) (d : A) (k : nat) :
  (S k < List.length l)%nat -> nth k (removelast l) d = nth k l d.
Proof.
  revert k. induction l as [|a [|b l] IH]; intros k Hk; cbn in Hk; try lia.
  destruct k as [|k]; [reflexivity|].
  change (removelast (a :: b :: l)) with (a :: removelast (b :: l)).
  cbn [nth]. apply IH. cbn. lia.
Qed.

Lemma tl_nth {A} (l : list A) (d : A) (k : nat) :
  nth k (tl l) d = nth (S k) l d.
Proof. destruct l; [destruct k|]; reflexivity. Qed.

Lemma tl_len {A} (l : list A) : List.length (tl l) = (List.length l - 1)%nat.
Proof. destruct l; cbn; lia. Qed.

(** ** Evenly spaced edges *)

Lemma Qc_of_Z_nonzero (z : Z) : z <> 0%Z -> Qc_of_Z z <> 0%Qc.
Proof.
  intros Hz. to_Q. rewrite this_Qc_of_Z.
  unfold Qeq, inject_Z. cbn. lia.
Qed.

Lemma linspace_length (start stop : Qc) (num : Z) :
  (1 <= num)%Z -> List.length (linspace start stop num) = Z.to_nat num.
Proof.
  intros Hn. unfold linspace.
  destruct (Z.leb_spec num 0); [lia|].
  destruct (Z.eqb_spec num 1) as [->|Hne]; [reflexivity|].
  now rewrite set_last_length, length_map, arange_length.
Qed.

Lemma np_round_Qc_of_Z (z : Z) : np_round (Qc_of_Z z) = z.
Proof.
  unfold np_round, Qc_of_Z, Q2Qc. cbn [this].
  assert (H : Qred (inject_Z z) = inject_Z z).
  { apply Qred_iff. cbn. apply Z.gcd_1_r. }
  rewrite H. cbn [inject_Z Qnum Qden].
  rewrite Z.div_1_r, Z.mod_1_r. reflexivity.
Qed.

Lemma pow2_le (a b : Z) : (a <= b)%Z -> (Binary64.pow2 a <= Binary64.pow2 b)%Q.
Proof.
  intros H. replace b with (a + (b - a))%Z by lia.
  rewrite pow2_plus. rewrite (@pow2_Z (b - a)) by lia.
  pose proof (pow2_pos a).
  assert (1 <= inject_Z (2 ^ (b - a)))%Q.
  { change 1%Q with (inject_Z 1). rewrite <- Zle_Qle.
    assert (0 < 2 ^ (b - a))%Z by (apply Z.pow_pos_nonneg; lia). lia. }
  nra.
Qed.

(** Integers up to [2^53] are doubles. *)
Lemma of_int_exact (z : Z) :
  (0 <= z <= 2 ^ 53)%Z -> Binary64.of_int z = Qc_of_Z z.
Proof.
  intros [Hz0 Hz1]. unfold Binary64.of_int.
  destruct (Z.eq_dec z 0) as [->|Hz]; [reflexivity|].
  destruct (Z.eq_dec z (2 ^ 53)) as [->|Hz2];
    [apply Qc_is_canon; vm_compute; reflexivity|].
  unfold Binary64.rnd.
  destruct (Qc_eq_bool (Qc_of_Z z) 0) eqn:E0.
  { apply Qc_eq_bool_correct in E0. now apply Qc_of_Z_nonzero in E0. }
  assert (Hq : (this (Qc_of_Z z) == inject_Z z)%Q) by apply this_Qc_of_Z.
  assert (Hzq : (1 <= inject_Z z)%Q)
    by (change 1%Q with (inject_Z 1); rewrite <- Zle_Qle; lia).
  assert (Ha : (Qabs (this (Qc_of_Z z)) == inject_Z z)%Q).
  { rewrite Hq. apply Qabs_pos. lra. }
  assert (Hpos : (0 < Qabs (this (Qc_of_Z z)))%Q) by (rewrite Ha; lra).
  destruct (ilog2_spec Hpos) as [Hlo Hhi].
  set (i := Binary64.ilog2 (Qabs (this (Qc_of_Z z)))) in *.
  rewrite Ha in Hlo, Hhi.
  assert (Hi0 : (0 <= i)%Z).
  { destruct (Z_lt_le_dec i 0) as [Hneg|]; [|assumption].
    pose proof (@pow2_le (i + 1) 0 ltac:(lia)) as Hp.
    change (Binary64.pow2 0) with 1%Q in Hp. lra. }
  assert (Hi1 : (i <= 52)%Z).
  { destruct (Z_lt_le_dec 52 i) as [Hbig|]; [|lia].
    pose proof (@pow2_le 53 i ltac:(lia)) as Hp.
    rewrite (@pow2_Z 53) in Hp by lia.
    assert (inject_Z z < inject_Z (2 ^ 53))%Q by (rewrite <- Zlt_Qlt; lia).
    lra. }
  unfold Binary64.ulp_exponent. fold i.
  rewrite Z.max_l by lia.
  set (e := (i - 52)%Z).
  assert (He : (Binary64.pow2 e * inject_Z (2 ^ (- e)) == 1)%Q).
  { rewrite <- (@pow2_Z (- e)) by (unfold e; lia). rewrite <- pow2_plus.
    replace (e + - e)%Z with 0%Z by lia. reflexivity. }
  pose proof (pow2_pos e) as Hpe.
  set (p := Binary64.pow2 e) in *. set (w := inject_Z (2 ^ (- e))) in *.
  assert (Hw : (w == / p)%Q).
  { setoid_replace (/ p)%Q with (p * w * / p)%Q by (rewrite He; ring).
    field. lra. }
  assert (Hm : Q2Qc (this (Qc_of_Z z) / p) = Qc_of_Z (z * 2 ^ (- e))).
  { apply Qc_is_canon. rewrite this_Q2Qc, !this_Qc_of_Z, inject_Z_mult.
    fold w. rewrite Hw. reflexivity. }
  rewrite Hm, np_round_Qc_of_Z.
  apply Qc_is_canon. rewrite this_Q2Qc, this_Qc_of_Z, inject_Z_mult.
  fold w. rewrite Hw. field. lra.
Qed.

Lemma linspace_nth (start stop : Qc) (n : Z) (k : nat) :
  (1 <= n)%Z -> (k <= Z.to_nat n)%nat ->
  nth k (linspace start stop (n + 1)) 0%Qc
  = linspace_point start stop n (Z.of_nat k).
Proof.
  intros Hn Hk. unfold linspace, linspace_point.
  destruct (Z.leb_spec (n + 1) 0); [lia|].
  destruct (Z.eqb_spec (n + 1) 1); [lia|].
  replace (n + 1 - 1)%Z with n by lia.
  rewrite set_last_nth by (rewrite length_map, arange_length; lia).
  rewrite length_map, arange_length.
  destruct (Nat.eqb_spec (S k) (Z.to_nat (n + 1))) as [He|He];
    destruct (Z.eqb_spec (Z.of_nat k) n) as [Hkn|Hkn]; try lia;
    [reflexivity|].
  set (g := fun j : Z =>
              Binary64.add
                (Binary64.mul (Binary64.of_int j)
                   (Binary64.div (Binary64.sub stop start) (Binary64.of_int n)))
                start).
  rewrite (nth_indep _ 0%Qc (g 0%Z)) by (rewrite length_map, arange_length; lia).
  rewrite map_nth, arange_nth by lia.
  reflexivity.
Qed.

(** The first point is [start] itself: [0 * step + start]. *)
Lemma linspace_point_first (start stop : Qc) (n : Z) :
  (1 <= n)%Z -> Binary64.rnd start = start ->
  linspace_point start stop n 0 = start.
Proof.
  intros Hn Hs. unfold linspace_point.
  destruct (Z.eqb_spec 0 n); [lia|].
  unfold Binary64.add, Binary64.mul.
  change (Binary64.of_int 0) with 0%Qc.
  rewrite Qcmult_0_l, rnd_0, Qcplus_0_l. exact Hs.
Qed.

Lemma linspace_point_last (start stop : Qc) (n : Z) :
  linspace_point start stop n n = stop.
Proof. unfold linspace_point. now rewrite Z.eqb_refl. Qed.

(** Every computed point is within [float_error] of the exact one. *)
Lemma linspace_point_error (e l : Qc) (n : Z) (k : nat) :
  (1 <= n)%Z -> (n <= 2 ^ 53)%Z -> (k <= Z.to_nat n)%nat -> (e <= l)%Qc ->
  (Qcabs (linspace_point e l n (Z.of_nat k) - even_point e l n (Z.of_nat k))
   <= float_error e l n)%Qc.
Proof.
  intros Hn Hn2 Hk Hel.
  assert (Hn0 : Qc_of_Z n <> 0%Qc) by (apply Qc_of_Z_nonzero; lia).
  unfold linspace_point.
  rewrite (@of_int_exact n), (@of_int_exact (Z.of_nat k)) by lia.
  destruct (Z.eqb_spec (Z.of_nat k) n) as [Hkn|Hkn].
  - assert (Hx : even_point e l n (Z.of_nat k) = l).
    { unfold even_point. rewrite Hkn. field. exact Hn0. }
    rewrite Hx. replace (l - l)%Qc with 0%Qc by ring.
    now apply float_error_nonneg.
  - set (d1 := Binary64.sub l e).
    set (s := Binary64.div d1 (Qc_of_Z n)).
    set (p := Binary64.mul (Qc_of_Z (Z.of_nat k)) s).
    set (y := Binary64.add p e).
    pose proof (rnd_error (l - e)) as H1. fold (Binary64.sub l e) in H1.
    fold d1 in H1.
    pose proof (rnd_error (d1 / Qc_of_Z n)) as H2.
    fold (Binary64.div d1 (Qc_of_Z n)) in H2. fold s in H2.
    pose proof (rnd_error (Qc_of_Z (Z.of_nat k) * s)) as H3.
    fold (Binary64.mul (Qc_of_Z (Z.of_nat k)) s) in H3. fold p in H3.
    pose proof (rnd_error (p + e)) as H4.
    fold (Binary64.add p e) in H4. fold y in H4.
    rewrite this_minus in H1. rewrite this_div, this_Qc_of_Z in H2.
    rewrite this_mult, this_Qc_of_Z in H3. rewrite this_plus in H4.
    assert (Hnq : (1 <= inject_Z n)%Q)
      by (change 1%Q with (inject_Z 1); rewrite <- Zle_Qle; lia).
    assert (Hk0 : (0 <= inject_Z (Z.of_nat k))%Q)
      by (change 0%Q with (inject_Z 0); rewrite <- Zle_Qle; lia).
    assert (Hk1 : (inject_Z (Z.of_nat k) <= inject_Z n)%Q)
      by (rewrite <- Zle_Qle; lia).
    pose proof (@linspace_error_Q (this e) (this l) (this d1) (this s)
                  (this p) (this y) (inject_Z n) (inject_Z (Z.of_nat k))
                  Hel Hnq Hk0 Hk1 H1 H2 H3 H4) as HB.
    unfold even_point, float_error, Qcle.
    rewrite this_Qcabs, this_minus, this_plus, this_div, this_mult,
      this_minus, !this_Qc_of_Z.
    rewrite this_plus, !this_mult, this_plus, !this_Q2Qc, !this_Qcabs,
      this_Qc_of_Z.
    rewrite inject_Z_plus. exact HB.
Qed.

Lemma edges_cover (b : list Z) (t : Qc) :
  (2 <= List.length b)%nat ->
  (Qc_of_Z (nth 0 b 0%Z) <= t)%Qc ->
  (t <= Qc_of_Z (nth (List.length b - 1) b 0%Z))%Qc ->
  exists k : nat,
    (S k < List.length b)%nat
    /\ (Qc_of_Z (nth k b 0%Z) <= t)%Qc
    /\ (t <= Qc_of_Z (nth (S k) b 0%Z))%Qc.
Proof.
  induction b as [|x b IH]; intros Hlen Hlo Hhi; [cbn in Hlen; lia|].
  destruct b as [|y b]; [cbn in Hlen; lia|].
  destruct (Qclt_le_dec (Qc_of_Z y) t) as [Hy|Hy].
  - destruct b as [|z b].
    + cbn in Hhi. exfalso. apply (Qclt_not_le _ _ Hy Hhi).
    + destruct IH as [k [Hk [H1 H2]]].
      * cbn. lia.
      * cbn. apply Qclt_le_weak, Hy.
      * cbn [List.length Nat.sub nth] in Hhi |- *.
        rewrite ?Nat.sub_0_r in *. exact Hhi.
      * exists (S k). split; [cbn in *; lia|]. split; assumption.
  - exists 0%nat. split; [cbn; lia|]. split; assumption.
Qed.

Lemma bin_edges_length (e l : Qc) (n : Z) :
  (1 <= n)%Z -> List.length (bin_edges e l n) = S (Z.to_nat n).
Proof.
  intros Hn. unfold bin_edges.
  rewrite length_map, linspace_length by lia. lia.
Qed.

Lemma bin_edges_nth (e l : Qc) (n : Z) (k : nat) :
  (1 <= n)%Z -> (k <= Z.to_nat n)%nat ->
  nth k (bin_edges e l n) 0%Z
  = np_round (linspace_point e l n (Z.of_nat k)).
Proof.
  intros Hn Hk. unfold bin_edges.
  rewrite (nth_indep _ 0%Z (np_round 0%Qc))
    by (rewrite length_map, linspace_length; lia).
  rewrite map_nth, linspace_nth by assumption. reflexivity.
Qed.

Lemma setup_time_bins_uniform (self : state) (n : Z) (e l : Qc) :
  nbins (opts self) = Some n ->
  tstarts (opts self) = None ->
  tstops (opts self) = None ->
  get_time_range (ft1files (m_data (roi self))) = Ok (e, l) ->
  _setup_time_bins self
  = (Ok tt, set_time (Some (uniform_bins e l n))
              (set_time_range (Some (e, l)) self)).
Proof.
  intros Hn Hs He Hr.
  unfold _setup_time_bins, bind, get, lift, update, ret.
  rewrite Hn, Hs, He, Hr. reflexivity.
Qed.

Lemma uniform_bins_facts (e l : Qc) (n : Z) :
  (1 <= n)%Z ->
  let b := bin_edges e l n in
  let starts := fst (uniform_bins e l n) in
  let stops := snd (uniform_bins e l n) in
  List.length starts = Z.to_nat n
  /\ List.length stops = Z.to_nat n
  /\ (forall k, (k < Z.to_nat n)%nat ->
        nth k starts 0%Z = nth k b 0%Z /\ nth k stops 0%Z = nth (S k) b 0%Z).
Proof.
  intros Hn b starts stops.
  pose proof (bin_edges_length e l Hn) as Hlen. fold b in Hlen.
  unfold starts, stops, uniform_bins. fold b. cbn [fst snd].
  rewrite removelast_len, tl_len, Hlen.
  split; [lia|]. split; [lia|].
  intros k Hk. split.
  - apply removelast_nth. lia.
  - apply tl_nth.
Qed.

(** A number within less than a half of an integer rounds to it. *)
Lemma np_round_near (y : Qc) (m : Z) :
  (Qcabs (y - Qc_of_Z m) < Q2Qc (1 # 2))%Qc -> np_round y = m.
Proof.
  intros H. destruct (np_round_half y) as [H1 H2].
  unfold Qclt in H. rewrite this_Qcabs, this_minus in H.
  apply Qabs_Qlt_condition in H. destruct H as [Ha Hb].
  to_Q. rewrite !this_Qc_of_Z in *.
  assert (Hlt : (np_round y < m + 1)%Z).
  { rewrite Zlt_Qlt, inject_Z_plus. change (inject_Z 1) with 1%Q. lra. }
  assert (Hgt : (m < np_round y + 1)%Z).
  { rewrite Zlt_Qlt, inject_Z_plus. change (inject_Z 1) with 1%Q. lra. }
  lia.
Qed.

(** Two numbers round alike when no half-integer is as close to one of
    them as they are to each other. *)
Lemma same_rounding (x y fe : Qc) :
  (Qcabs (y - x) <= fe)%Qc ->
  (forall m : Z, (fe < Qcabs (x - (Qc_of_Z m + Q2Qc (1 # 2))))%Qc) ->
  np_round y = np_round x.
Proof.
  intros Hyx Hsep. apply np_round_near.
  destruct (np_round_half x) as [H1 H2].
  pose proof (Hsep (np_round x)) as Hup.
  pose proof (Hsep (np_round x + (-1))%Z) as Hdn.
  unfold Qcle in Hyx. rewrite this_Qcabs, this_minus in Hyx.
  apply abs_bounds in Hyx. destruct Hyx as [Hy1 Hy2].
  unfold Qclt in Hup, Hdn |- *.
  rewrite this_Qcabs, this_minus, this_plus, this_Q2Qc, this_Qc_of_Z in Hup, Hdn.
  rewrite this_Qcabs, this_minus, this_Qc_of_Z.
  rewrite inject_Z_plus in Hdn.
  change (inject_Z (-1)) with (-1 # 1) in Hdn.
  to_Q. rewrite !this_Qc_of_Z in *.
  set (r := inject_Z (np_round x)) in *.
  match type of Hup with
  | (_ < Qabs ?a)%Q =>
      assert (E1 : (Qabs a == - a)%Q) by (apply Qabs_neg; lra)
  end.
  match type of Hdn with
  | (_ < Qabs ?a)%Q =>
      assert (E2 : (Qabs a == a)%Q) by (apply Qabs_pos; lra)
  end.
  apply Qabs_Qlt_condition. split; lra.
Qed.

(** C2, as amended.  With [1 <= nbins <= 2^53] and double-precision times
    [earliest <= latest] the set-up produces exactly [nbins] bins whose
    edges are the [nbins+1] values of [numpy.linspace], each rounded to
    the nearest integer, ties to even.  The values are computed in
    double precision, [k*step + earliest] with
    [step = (latest - earliest)/nbins] and the last one [latest] itself,
    and each is within [float_error] of the evenly spaced point
    [earliest + k*(latest-earliest)/nbins]; an edge is the rounding of
    that point itself wherever the point is farther than [float_error]
    from every half-integer.  Bin [k] stops where bin
    [k+1] starts; the bins cover the span between the rounded end
    points, each of which is within half a second of [earliest] and
    [latest]; they cover [[earliest, latest]] itself when both are whole
    seconds. *)
Theorem uniform_time_bins
    (self : state) (n : Z) (earliest latest : Qc) :
  nbins (opts self) = Some n ->
  tstarts (opts self) = None ->
  tstops (opts self) = None ->
  get_time_range (ft1files (m_data (roi self))) = Ok (earliest, latest) ->
  (1 <= n)%Z ->
  (n <= 2 ^ 53)%Z ->
  (earliest <= latest)%Qc ->
  binary64_time earliest ->
  binary64_time latest ->
  exists (s' : state) (starts stops : list Z),
    _setup_time_bins self = (Ok tt, s')
    /\ time s' = Some (starts, stops)
    /\ List.length starts = Z.to_nat n
    /\ List.length stops = Z.to_nat n
    /\ (forall k, (k < Z.to_nat n)%nat ->
          nth k starts 0%Z
          = np_round (linspace_point earliest latest n (Z.of_nat k))
          /\ nth k stops 0%Z
             = np_round (linspace_point earliest latest n (Z.of_nat (S k))))
    /\ (forall k, (k <= Z.to_nat n)%nat ->
          (Qcabs (linspace_point earliest latest n (Z.of_nat k)
                  - even_point earliest latest n (Z.of_nat k))
           <= float_error earliest latest n)%Qc)
    /\ (forall k, (k <= Z.to_nat n)%nat ->
          (forall m : Z,
             (float_error earliest latest n
              < Qcabs (even_point earliest latest n (Z.of_nat k)
                       - (Qc_of_Z m + Q2Qc (1 # 2))))%Qc) ->
          np_round (linspace_point earliest latest n (Z.of_nat k))
          = np_round (even_point earliest latest n (Z.of_nat k)))
    /\ (forall k, (S k < Z.to_nat n)%nat ->
          nth k stops 0%Z = nth (S k) starts 0%Z)
    /\ nth 0 starts 0%Z = np_round earliest
    /\ nth (Z.to_nat n - 1) stops 0%Z = np_round latest
    /\ covers starts stops (Qc_of_Z (np_round earliest))
         (Qc_of_Z (np_round latest))
    /\ (Qc_of_Z (np_round earliest) - earliest <= Q2Qc (1 # 2))%Qc
    /\ (latest - Qc_of_Z (np_round latest) <= Q2Qc (1 # 2))%Qc
    /\ (forall a c : Z, earliest = Qc_of_Z a -> latest = Qc_of_Z c ->
          covers starts stops earliest latest).
Proof.
  intros Hn Hs He Hr Hn1 Hn2 Hel [Hde _] _.
  destruct (uniform_bins_facts earliest latest Hn1) as [Hls [Hle Hnth]].
  set (b := bin_edges earliest latest n) in *.
  set (starts := fst (uniform_bins earliest latest n)) in *.
  set (stops := snd (uniform_bins earliest latest n)) in *.
  assert (Hedge : forall k, (k <= Z.to_nat n)%nat ->
            nth k b 0%Z
            = np_round (linspace_point earliest latest n (Z.of_nat k)))
    by (intros; apply bin_edges_nth; assumption).
  assert (Hfirst : nth 0 b 0%Z = np_round earliest).
  { rewrite Hedge by lia. f_equal. cbn [Z.of_nat].
    now apply linspace_point_first. }
  assert (Hlast : nth (Z.to_nat n) b 0%Z = np_round latest).
  { rewrite Hedge by lia. f_equal. rewrite Z2Nat.id by lia.
    apply linspace_point_last. }
  assert (Hcov : covers starts stops (Qc_of_Z (np_round earliest))
                   (Qc_of_Z (np_round latest))).
  { intros t Hlo Hhi.
    destruct (@edges_cover b t) as [k [Hk [H1 H2]]].
    - unfold b. rewrite bin_edges_length by lia. lia.
    - now rewrite Hfirst.
    - unfold b at 1. rewrite bin_edges_length by lia.
      replace (S (Z.to_nat n) - 1)%nat with (Z.to_nat n) by lia.
      now rewrite Hlast.
    - unfold b in Hk. rewrite bin_edges_length in Hk by lia.
      exists k. destruct (Hnth k ltac:(lia)) as [-> ->].
      split; [lia|]. split; assumption. }
  exists (set_time (Some (uniform_bins earliest latest n))
            (set_time_range (Some (earliest, latest)) self)), starts, stops.
  split; [now apply setup_time_bins_uniform|].
  split; [unfold starts, stops; cbn [time set_time];
          now rewrite <- surjective_pairing|].
  split; [exact Hls|]. split; [exact Hle|].
  split.
  { intros k Hk. destruct (Hnth k Hk) as [-> ->].
    split; apply Hedge; lia. }
  split.
  { intros k Hk. now apply linspace_point_error. }
  split.
  { intros k Hk Hsep.
    apply (@same_rounding _ _ (float_error earliest latest n));
      [now apply linspace_point_error|exact Hsep]. }
  split.
  { intros k Hk. destruct (Hnth k ltac:(lia)) as [_ ->].
    destruct (Hnth (S k) Hk) as [-> _]. reflexivity. }
  split; [destruct (Hnth 0%nat ltac:(lia)) as [-> _]; exact Hfirst|].
  split.
  { destruct (Hnth (Z.to_nat n - 1)%nat ltac:(lia)) as [_ ->].
    replace (S (Z.to_nat n - 1)) with (Z.to_nat n) by lia. exact Hlast. }
  split; [exact Hcov|].
  split; [apply np_round_half|]. split; [apply np_round_half|].
  intros a c -> ->. rewrite !np_round_Qc_of_Z in Hcov. exact Hcov.
Qed.

Lemma binary64_time_Z (z : Z) :
  Binary64.rnd (Qc_of_Z z) = Qc_of_Z z ->
  (Z.abs z <= 2 ^ 62)%Z ->
  binary64_time (Qc_of_Z z).
Proof.
  intros Hr Hz. split; [exact Hr|].
  unfold Qcle. rewrite this_Qcabs, !this_Qc_of_Z.
  apply Qabs_Qle_condition. rewrite <- inject_Z_opp, <- !Zle_Qle. lia.
Qed.

Lemma uniform_time_bins_witness :
  exists (s' : state) (starts stops : list Z),
    _setup_time_bins (new_tester Demo.roi0 "crab" (Demo.with_nbins 2))
    = (Ok tt, s')
    /\ time s' = Some (starts, stops)
    /\ List.length starts = 2%nat
    /\ List.length stops = 2%nat
    /\ (forall k, (k < 2)%nat ->
          nth k starts 0%Z
          = np_round (linspace_point (Qc_of_Z 0) (Qc_of_Z 100) 2 (Z.of_nat k))
          /\ nth k stops 0%Z
             = np_round (linspace_point (Qc_of_Z 0) (Qc_of_Z 100) 2
                           (Z.of_nat (S k))))
    /\ (forall k, (k <= 2)%nat ->
          (Qcabs (linspace_point (Qc_of_Z 0) (Qc_of_Z 100) 2 (Z.of_nat k)
                  - even_point (Qc_of_Z 0) (Qc_of_Z 100) 2 (Z.of_nat k))
           <= float_error (Qc_of_Z 0) (Qc_of_Z 100) 2)%Qc)
    /\ (forall k, (k <= 2)%nat ->
          (forall m : Z,
             (float_error (Qc_of_Z 0) (Qc_of_Z 100) 2
              < Qcabs (even_point (Qc_of_Z 0) (Qc_of_Z 100) 2 (Z.of_nat k)
                       - (Qc_of_Z m + Q2Qc (1 # 2))))%Qc) ->
          np_round (linspace_point (Qc_of_Z 0) (Qc_of_Z 100) 2 (Z.of_nat k))
          = np_round (even_point (Qc_of_Z 0) (Qc_of_Z 100) 2 (Z.of_nat k)))
    /\ (forall k, (S k < 2)%nat -> nth k stops 0%Z = nth (S k) starts 0%Z)
    /\ nth 0 starts 0%Z = np_round (Qc_of_Z 0)
    /\ nth 1 stops 0%Z = np_round (Qc_of_Z 100)
    /\ covers starts stops (Qc_of_Z (np_round (Qc_of_Z 0)))
         (Qc_of_Z (np_round (Qc_of_Z 100)))
    /\ (Qc_of_Z (np_round (Qc_of_Z 0)) - Qc_of_Z 0 <= Q2Qc (1 # 2))%Qc
    /\ (Qc_of_Z 100 - Qc_of_Z (np_round (Qc_of_Z 100)) <= Q2Qc (1 # 2))%Qc
    /\ (forall a c : Z, Qc_of_Z 0 = Qc_of_Z a -> Qc_of_Z 100 = Qc_of_Z c ->
          covers starts stops (Qc_of_Z 0) (Qc_of_Z 100)).
Proof.
  apply (@uniform_time_bins
           (new_tester Demo.roi0 "crab" (Demo.with_nbins 2)) 2
           (Qc_of_Z 0) (Qc_of_Z 100)).
  - reflexivity.
  - reflexivity.
  - reflexivity.
  - reflexivity.
  - lia.
  - vm_compute. discriminate.
  - unfold Qcle. vm_compute. discriminate.
  - apply binary64_time_Z; [reflexivity|vm_compute; discriminate].
  - apply binary64_time_Z;
      [apply Qc_is_canon; vm_compute; reflexivity|vm_compute; discriminate].
Defined.

(** C2 as stated fails when the observation does not start on a whole
    second: from 0.6 s to 10.4 s, as double-precision numbers, with two
    bins the edges are 1, 6 and 10, and no bin contains the first
    instant of the observation. *)
Lemma uniform_time_bins_span_not_covered :
  exists (s' : state) (earliest latest : Qc),
    earliest = Binary64.rnd (Q2Qc (3 # 5))
    /\ latest = Binary64.rnd (Q2Qc (52 # 5))
    /\ binary64_time earliest /\ binary64_time latest
    /\ _setup_time_bins (new_tester Demo.roi_frac "crab" (Demo.with_nbins 2))
       = (Ok tt, s')
    /\ time_range s' = Some (earliest, latest)
    /\ time s' = Some ([1; 6]%Z, [6; 10]%Z)
    /\ ~ covers [1; 6]%Z [6; 10]%Z earliest latest.
Proof.
  set (e := Binary64.rnd (Q2Qc (3 # 5))).
  set (l := Binary64.rnd (Q2Qc (52 # 5))).
  exists (set_time (Some (uniform_bins e l 2))
            (set_time_range (Some (e, l))
               (new_tester Demo.roi_frac "crab" (Demo.with_nbins 2)))), e, l.
  split; [reflexivity|]. split; [reflexivity|].
  split.
  { split; [apply Qc_is_canon; vm_compute; reflexivity|].
    unfold Qcle. vm_compute. discriminate. }
  split.
  { split; [apply Qc_is_canon; vm_compute; reflexivity|].
    unfold Qcle. vm_compute. discriminate. }
  split; [apply setup_time_bins_uniform; reflexivity|].
  split; [reflexivity|]. split; [vm_compute; reflexivity|].
  intros H.
  destruct (H e) as [k [Hk [H1 _]]].
  - apply Qcle_refl.
  - unfold Qcle. vm_compute. discriminate.
  - destruct k as [|[|k]]; cbn in Hk; [| |lia];
      unfold Qcle in H1; vm_compute in H1; apply H1; reflexivity.
Qed.

(** C2 as stated also fails where the double-precision value of a point
    falls on the other side of a half-integer than the point itself:
    from [1/2 - 2^-54] to [5/2] with two bins the middle point is
    [3/2 - 2^-55], whose nearest integer is 1, and the program computes
    [3/2] and the edge 2. *)
Lemma uniform_time_bins_edge_not_nearest :
  let earliest := (Q2Qc (1 # 2) - Q2Qc (1 # 2 ^ 54))%Qc in
  let latest := Q2Qc (5 # 2) in
  binary64_time earliest /\ binary64_time latest
  /\ bin_edges earliest latest 2 = [0; 2; 2]%Z
  /\ np_round (even_point earliest latest 2 1) = 1%Z.
Proof.
  intros earliest latest.
  split.
  { split; [apply Qc_is_canon; vm_compute; reflexivity|].
    unfold Qcle. vm_compute. discriminate. }
  split.
  { split; [apply Qc_is_canon; vm_compute; reflexivity|].
    unfold Qcle. vm_compute. discriminate. }
  split; vm_compute; reflexivity.
Qed.

(** The rounding agrees with the standard library's specification of
    IEEE 754 arithmetic on these inputs, point by point, and on a
    subnormal number. *)
Example linspace_agrees_with_IEEE :
  map this (linspace (Qc_of_Z 0) (Qc_of_Z 29) 15)
  = IEEE.linspace (IEEE.of_Z 0) (IEEE.of_Z 29) 14
  /\ map this (linspace (Q2Qc (1 # 2) - Q2Qc (1 # 2 ^ 54)) (Q2Qc (5 # 2)) 3)
     = IEEE.linspace (IEEE.of_scaled (2 ^ 53 - 1) (-54)) (IEEE.of_scaled 5 (-1)) 2
  /\ map this (linspace (Binary64.rnd (Q2Qc (3 # 5)))
                 (Binary64.rnd (Q2Qc (52 # 5))) 3)
     = IEEE.linspace
         (SpecFloat.SFdiv IEEE.prec IEEE.emax (IEEE.of_Z 3) (IEEE.of_Z 5))
         (SpecFloat.SFdiv IEEE.prec IEEE.emax (IEEE.of_Z 52) (IEEE.of_Z 5)) 2
  /\ this (Binary64.rnd (Q2Qc (3 # 2 ^ 1075)))
     = Qred (IEEE.value
               (SpecFloat.SFdiv IEEE.prec IEEE.emax
                  (IEEE.of_scaled 3 (-1074)) (IEEE.of_Z 2))).
Proof. repeat split; vm_compute; reflexivity. Qed.

Example rnd_agrees_with_IEEE :
  forallb (fun c => c)
    [ IEEE.agree SpecFloat.SFdiv Qcdiv 1 0 3 0;
      IEEE.agree SpecFloat.SFdiv Qcdiv 29 0 14 0;
      IEEE.agree SpecFloat.SFdiv Qcdiv (-7) 3 (2 ^ 53 - 1) (-20);
      IEEE.agree SpecFloat.SFdiv Qcdiv 1 (-1074) 2 0;
      IEEE.agree SpecFloat.SFdiv Qcdiv 3 (-1074) 2 0;
      IEEE.agree SpecFloat.SFdiv Qcdiv (2 ^ 52 + 1) (-1074) 3 5;
      IEEE.agree SpecFloat.SFmul Qcmult 7 0 4664442471205157 (-51);
      IEEE.agree SpecFloat.SFmul Qcmult (2 ^ 53 - 1) 0 (2 ^ 53 - 1) 0;
      IEEE.agree SpecFloat.SFmul Qcmult 3 (-540) (-5) (-535);
      IEEE.agree SpecFloat.SFmul Qcmult 6004799503160661 (-54) 3 (-1022);
      IEEE.agree SpecFloat.SFadd Qcplus (2 ^ 53 - 1) (-54) 1 0;
      IEEE.agree SpecFloat.SFadd Qcplus 1 0 1 (-53);
      IEEE.agree SpecFloat.SFadd Qcplus 1 0 3 (-54);
      IEEE.agree SpecFloat.SFadd Qcplus (2 ^ 53 - 1) 10 (-1) (-60);
      IEEE.agree SpecFloat.SFadd Qcplus 5 (-1074) 7 (-1073);
      IEEE.agree SpecFloat.SFsub Qcminus 5854679515581645 (-49) 5404319552844595 (-53);
      IEEE.agree SpecFloat.SFsub Qcminus 1 0 1 (-54);
      IEEE.agree SpecFloat.SFsub Qcminus 1 62 1 0;
      IEEE.agree SpecFloat.SFsub Qcminus (-3) (-1074) 1 (-1074) ]
  = true.
Proof. vm_compute. reflexivity. Qed.

Example uniform_bins_29_s :
  bin_edges (Qc_of_Z 0) (Qc_of_Z 29) 14
  = [0; 2; 4; 6; 8; 10; 12; 15; 17; 19; 21; 23; 25; 27; 29]%Z.
Proof. vm_compute. reflexivity. Qed.

(** ** Validation of the time-bin options *)

Lemma ft1_nested_ind (P : ft1 -> Prop) :
  (forall START STOP, P (ft1_file START STOP)) ->
  (forall files, Forall P files -> P (ft1_list files)) ->
  forall f, P f.
Proof.
  intros Hfile Hlist. fix IH 1. intros [START STOP|files].
  - apply Hfile.
  - apply Hlist. induction files as [|f files IHfiles]; constructor.
    + apply IH.
    + exact IHfiles.
Qed.

Lemma rmap_raise {A B} (g : A -> result B) (l : list A) (e : exn) :
  rmap g l = Raise e -> exists x, In x l /\ g x = Raise e.
Proof.
  induction l as [|a l IH]; cbn; [discriminate|].
  destruct (g a) as [y|e'] eqn:Ha; cbn.
  - destruct (rmap g l) as [ys|e'']; cbn; [discriminate|].
    intros H. injection H as ->.
    destruct (IH eq_refl) as [x [Hx Hg]]. exists x. auto.
  - intros H. injection H as ->. exists a. auto.
Qed.

(** Reading the time range fails only on empty tables or lists. *)
Lemma get_time_range_raises (f : ft1) (e : exn) :
  get_time_range f = Raise e -> exists msg, e = ValueError msg.
Proof.
  revert e. induction f as [START STOP|files IH] using ft1_nested_ind; intros e.
  - cbn. destruct START as [|a START]; cbn.
    + intros H. injection H as <-. eauto.
    + destruct STOP as [|b STOP]; cbn; [|discriminate].
      intros H. injection H as <-. eauto.
  - cbn. destruct (rmap get_time_range files) as [rs|e'] eqn:Hr; cbn.
    + destruct rs as [|r rs]; [intros H; injection H as <-; eauto|].
      cbn. discriminate.
    + intros H. injection H as ->.
      destruct (rmap_raise _ _ Hr) as [x [Hx Hg]].
      rewrite Forall_forall in IH. exact (IH x Hx e Hg).
Qed.

Lemma get_time_range_no_config_error (f : ft1) :
  config_error (get_time_range f) = false.
Proof.
  destruct (get_time_range f) as [r|e] eqn:H; [reflexivity|].
  destruct (get_time_range_raises f H) as [msg ->]. reflexivity.
Qed.

Lemma setup_time_bins_config_error (self : state) :
  config_error (fst (_setup_time_bins self))
  = conflicting_time_options (opts self).
Proof.
  unfold _setup_time_bins, conflicting_time_options, bind, get, lift, update,
    ret, raise.
  destruct (nbins (opts self)) as [n|] eqn:Hn,
           (tstarts (opts self)) as [ts|] eqn:Hs,
           (tstops (opts self)) as [te|] eqn:He; cbn; try reflexivity.
  - pose proof (get_time_range_no_config_error (ft1files (m_data (roi self)))) as H.
    destruct (get_time_range (ft1files (m_data (roi self)))) as [[e l]|x];
      [reflexivity | exact H].
  - pose proof (get_time_range_no_config_error (ft1files (m_data (roi self)))) as H.
    destruct (get_time_range (ft1files (m_data (roi self)))) as [[e l]|x].
    + cbn. destruct (Nat.eqb (List.length ts) (List.length te)); reflexivity.
    + exact H.
Qed.

(** C6.  [_setup_time_bins] raises its configuration error exactly when
    both forms are supplied, or neither, or only one of [tstarts] and
    [tstops]; the constructor then stops with that error before any call
    to a fitting engine and with the ROI untouched.  With exactly one
    form supplied the set-up succeeds (for explicit bins, given as many
    starts as stops) whenever the time range of the event files can be
    read. *)
Theorem time_options_validated
    {E : Engine} (roi0 : model) (name0 : string) (o : options) :
  (forall self, opts self = o ->
     config_error (fst (_setup_time_bins self)) = conflicting_time_options o)
  /\ (conflicting_time_options o = true ->
        config_error (fst (construct roi0 name0 o)) = true
        /\ log (snd (construct roi0 name0 o)) = []
        /\ roi (snd (construct roi0 name0 o)) = roi0)
  /\ (conflicting_time_options o = false ->
        forall self r,
          opts self = o ->
          get_time_range (ft1files (m_data (roi self))) = Ok r ->
          (forall ts te, tstarts o = Some ts -> tstops o = Some te ->
             List.length ts = List.length te) ->
          fst (_setup_time_bins self) = Ok tt).
Proof.
  split; [|split].
  - intros self <-. apply setup_time_bins_config_error.
  - unfold conflicting_time_options, construct, __init__, _setup_savedir,
      _setup_time_bins, bind, get, update, raise, ret.
    cbn [opts new_tester set_save_data].
    destruct (nbins o) as [n|], (tstarts o) as [ts|], (tstops o) as [te|];
      cbn; intros H; try discriminate H; repeat split; reflexivity.
  - intros Hok self r <- Hr Hlen.
    unfold conflicting_time_options in Hok.
    unfold _setup_time_bins, bind, get, lift, update, raise, ret.
    rewrite Hr.
    destruct (nbins (opts self)) as [n|], (tstarts (opts self)) as [ts|],
             (tstops (opts self)) as [te|];
      cbn in Hok; try discriminate Hok; destruct r as [e l]; cbn.
    + reflexivity.
    + rewrite (Hlen ts te eq_refl eq_refl), Nat.eqb_refl. reflexivity.
Qed.

Lemma time_options_validated_witness :
  (config_error (fst (construct (E:=Demo.engine) Demo.roi0 "crab" defaults)) = true
   /\ log (snd (construct (E:=Demo.engine) Demo.roi0 "crab" defaults)) = []
   /\ roi (snd (construct (E:=Demo.engine) Demo.roi0 "crab" defaults)) = Demo.roi0)
  /\ fst (_setup_time_bins (new_tester Demo.roi0 "crab" (Demo.with_nbins 2)))
     = Ok tt.
Proof.
  split.
  - apply (proj1 (proj2 (@time_options_validated Demo.engine Demo.roi0 "crab"
                           defaults))).
    reflexivity.
  - apply (proj2 (proj2 (@time_options_validated Demo.engine Demo.roi0 "crab"
                           (Demo.with_nbins 2)))
             eq_refl
             (new_tester Demo.roi0 "crab" (Demo.with_nbins 2))
             (Qc_of_Z 0, Qc_of_Z 100)).
    + reflexivity.
    + reflexivity.
    + intros ts te H. discriminate H.
Defined.

(** ** Freezing *)

Lemma freeze_source_frozen (s : source) : source_frozen (freeze_source s).
Proof.
  unfold source_frozen, freeze_source. cbn.
  apply Forall_forall. intros p Hp.
  apply in_map_iff in Hp. destruct Hp as [q [<- _]]. reflexivity.
Qed.

Lemma modify_frozen (m : model) (n : string) : frozen_in (modify m n) n.
Proof.
  intros s Hs Hn. cbn in Hs. apply in_map_iff in Hs.
  destruct Hs as [s0 [Hs0 _]].
  destruct (String.eqb_spec (s_name s0) n) as [He|He]; subst s.
  - apply freeze_source_frozen.
  - now cbn in Hn.
Qed.

Lemma modify_keeps_frozen (m : model) (n n' : string) :
  frozen_in m n' -> frozen_in (modify m n) n'.
Proof.
  intros H s Hs Hn. cbn in Hs. apply in_map_iff in Hs.
  destruct Hs as [s0 [Hs0 Hin]].
  destruct (String.eqb (s_name s0) n); subst s.
  - apply freeze_source_frozen.
  - now apply H.
Qed.

Lemma fold_modify_keeps_frozen (names : list string) (m : model) (n : string) :
  frozen_in m n -> frozen_in (fold_left modify names m) n.
Proof.
  revert m. induction names as [|a names IH]; intros m H; cbn; [exact H|].
  apply IH. now apply modify_keeps_frozen.
Qed.

Lemma fold_modify_frozen (names : list string) (m : model) (n : string) :
  In n names -> frozen_in (fold_left modify names m) n.
Proof.
  revert m. induction names as [|a names IH]; intros m Hin; [destruct Hin|].
  cbn. destruct Hin as [->|Hin].
  - apply fold_modify_keeps_frozen, modify_frozen.
  - now apply IH.
Qed.

Lemma modify_values (m : model) (n : string) :
  param_values (m_sources (modify m n)) = param_values (m_sources m).
Proof.
  unfold param_values, modify. cbn. rewrite map_map.
  apply map_ext. intros s.
  destruct (String.eqb (s_name s) n); [|reflexivity].
  cbn. rewrite map_map. reflexivity.
Qed.

Lemma fold_modify_values (names : list string) (m : model) :
  param_values (m_sources (fold_left modify names m))
  = param_values (m_sources m).
Proof.
  revert m. induction names as [|a names IH]; intros m; [reflexivity|].
  cbn. rewrite IH. apply modify_values.
Qed.


(** ** The per-bin fitters, step by step *)

Section FitterFacts.

Context {E : Engine}.

Lemma each_time_fit_gtlike_run
    (s : state) (smaller_roi : model) (tstart tstop : Z) (best : list source) :
  best_gtlike_state s = Some best ->
  let m0 := freeze_for_bin (opts s) (name s) (restore best (Gtlike smaller_roi)) in
  each_time_fit_gtlike smaller_roi tstart tstop s
  = (Ok (bin_result_of gtlike (logLikelihood gtlike) (opts s) (name s) m0),
     set_log (log s ++ bin_events gtlike (opts s) (name s) m0) s).
Proof.
  intros Hbest m0.
  cbv beta iota delta [each_time_fit_gtlike run_fit emit bind get update ret raise].
  rewrite Hbest. cbv beta iota.
  fold (freeze_for_bin (opts s) (name s) (restore best (Gtlike smaller_roi))).
  fold m0.
  unfold bin_result_of, bin_events, wants_upper_limit, free_fit_input, after_fit.
  destruct (Float.ltb _ _ || always_upper_limit (opts s))%bool;
    cbv beta iota; cbn [log set_log opts name]; rewrite <- ?app_assoc;
    reflexivity.
Qed.

Lemma each_time_fit_gtlike_unset
    (s : state) (smaller_roi : model) (tstart tstop : Z) :
  best_gtlike_state s = None ->
  each_time_fit_gtlike smaller_roi tstart tstop s
  = (Raise (AttributeError "best_gtlike_state"), s).
Proof.
  intros Hbest.
  unfold each_time_fit_gtlike, bind, get, raise. now rewrite Hbest.
Qed.

(** The name [roi] is bound neither in [each_time_fit_pointlike] nor at
    module level. *)
Lemma roi_unbound :
  existsb (String.eqb "roi") (each_time_fit_pointlike_names ++ module_names)
  = false.
Proof. reflexivity. Qed.

Lemma load_roi_raises (s : state) :
  load_name (each_time_fit_pointlike_names ++ module_names) "roi" s
  = (Raise (NameError "roi"), s).
Proof. unfold load_name. rewrite roi_unbound. reflexivity. Qed.

Lemma each_time_fit_pointlike_name_error
    (s : state) (smaller_roi : model) (tstart tstop : Z) :
  refit_background (opts s) = false ->
  get_background smaller_roi <> [] ->
  each_time_fit_pointlike smaller_roi tstart tstop s
  = (Raise (NameError "roi"), s).
Proof.
  intros Hbg Hne.
  unfold each_time_fit_pointlike.
  cbv beta iota delta [bind get].
  rewrite Hbg. cbn [negb].
  destruct (get_background smaller_roi) as [|source rest]; [congruence|].
  cbn [for_]. cbv beta iota delta [bind].
  rewrite load_roi_raises. reflexivity.
Qed.

Lemma each_time_fit_pointlike_run
    (s : state) (smaller_roi : model) (tstart tstop : Z) :
  refit_background (opts s) = true \/ get_background smaller_roi = [] ->
  let m0 :=
    modify (if negb (refit_other_sources (opts s))
            then fold_left modify (get_sources smaller_roi) smaller_roi
            else smaller_roi) (name s) in
  each_time_fit_pointlike smaller_roi tstart tstop s
  = (Ok (bin_result_of pointlike
           (fun m => Float.opp (logLikelihood pointlike m)) (opts s) (name s) m0,
         after_fit pointlike (free_fit_input pointlike (name s) m0)),
     set_log (log s ++ bin_events pointlike (opts s) (name s) m0) s).
Proof.
  intros Hbg m0.
  assert (Hloop :
    (if negb (refit_background (opts s))
     then for_ (get_background smaller_roi) (fun _ =>
            load_name (each_time_fit_pointlike_names ++ module_names) "roi")
     else ret tt) s = (Ok tt, s)).
  { destruct Hbg as [->| ->]; [reflexivity|].
    destruct (negb (refit_background (opts s))); reflexivity. }
  unfold each_time_fit_pointlike.
  cbv beta iota delta [bind get].
  rewrite Hloop.
  cbv beta iota delta [run_fit emit bind get update ret raise].
  fold m0.
  unfold bin_result_of, bin_events, wants_upper_limit, free_fit_input, after_fit.
  destruct (Float.ltb _ _ || always_upper_limit (opts s))%bool;
    cbv beta iota; cbn [log set_log opts name]; rewrite <- ?app_assoc;
    reflexivity.
Qed.

End FitterFacts.

(** ** Upper limits *)

Section UpperLimit.

Context {E : Engine}.

(** Both fitters store an upper limit exactly when TS is below [min_ts]
    or [always_upper_limit] is set, and ask for it at the literal 0.95. *)
Lemma upper_limit_of_bin (b : backend) (ll : model -> float) (o : options)
    (name : string) (m0 : model) :
  let r := bin_result_of b ll o name m0 in
  upper_limit r
  = (if wants_upper_limit o (TS r)
     then Some (upper_limit_of b (after_fit b (free_fit_input b name m0)) name
                  (Float.of_Q (95 # 100)))
     else None).
Proof. reflexivity. Qed.

Lemma pointlike_upper_limit_iff
    (s s' : state) (smaller_roi m : model) (tstart tstop : Z) (r : bin_result) :
  each_time_fit_pointlike smaller_roi tstart tstop s = (Ok (r, m), s') ->
  is_some (upper_limit r) = wants_upper_limit (opts s) (TS r).
Proof.
  intros H.
  destruct (refit_background (opts s)) eqn:Hbg.
  - rewrite each_time_fit_pointlike_run in H by auto.
    injection H as <- _ _. cbn [TS bin_result_of upper_limit].
    destruct (wants_upper_limit _ _); reflexivity.
  - destruct (get_background smaller_roi) as [|a l] eqn:Hl.
    + rewrite each_time_fit_pointlike_run in H by auto.
      injection H as <- _ _. cbn [TS bin_result_of upper_limit].
      destruct (wants_upper_limit _ _); reflexivity.
    + rewrite each_time_fit_pointlike_name_error in H by congruence.
      discriminate H.
Qed.

Lemma gtlike_upper_limit_iff
    (s s' : state) (smaller_roi : model) (tstart tstop : Z) (r : bin_result) :
  each_time_fit_gtlike smaller_roi tstart tstop s = (Ok r, s') ->
  is_some (upper_limit r) = wants_upper_limit (opts s) (TS r).
Proof.
  intros H.
  destruct (best_gtlike_state s) as [best|] eqn:Hb.
  - rewrite (each_time_fit_gtlike_run _ _ _ _ Hb) in H.
    injection H as <- _. cbn [TS bin_result_of upper_limit].
    destruct (wants_upper_limit _ _); reflexivity.
  - rewrite each_time_fit_gtlike_unset in H by exact Hb. discriminate H.
Qed.

End UpperLimit.

(** C7, the code at a failing input.  With [ul_confidence = 0.99] and
    upper limits asked for in every bin, both fitters call the
    upper-limit collaborator at 0.95: the option is never read. *)
Theorem upper_limit_confidence_not_read :
  ul_confidence (opts (Demo.in_loop Demo.ul99)) = Float.of_Q (99 # 100)
  /\ (exists r m,
        each_time_fit_pointlike (E:=Demo.engine) Demo.roi0 0 50
          (Demo.in_loop Demo.ul99)
        = (Ok (r, m),
           set_log [EvFit pointlike BinFrozen
                      (modify Demo.roi0 "crab");
                    EvFit pointlike BinFree
                      (free_fit_input (E:=Demo.engine) pointlike "crab"
                         (modify Demo.roi0 "crab"));
                    EvUpperLimit pointlike (Float.of_Q (95 # 100))]
             (Demo.in_loop Demo.ul99))
        /\ upper_limit r
           = Some (upper_limit_of (Engine:=Demo.engine) pointlike m "crab"
                     (Float.of_Q (95 # 100)))
        /\ option_map ul_flux (upper_limit r) = Some (Float.of_Q (95 # 100)))
  /\ (exists r,
        each_time_fit_gtlike (E:=Demo.engine) Demo.roi0 0 50
          (Demo.in_loop Demo.ul99)
        = (Ok r,
           set_log [EvFit gtlike BinFrozen (modify Demo.roi0 "crab");
                    EvFit gtlike BinFree
                      (free_fit_input (E:=Demo.engine) gtlike "crab"
                         (modify Demo.roi0 "crab"));
                    EvUpperLimit gtlike (Float.of_Q (95 # 100))]
             (Demo.in_loop Demo.ul99))
        /\ option_map ul_flux (upper_limit r) = Some (Float.of_Q (95 # 100))).
Proof.
  split; [reflexivity|]. split.
  - do 2 eexists. rewrite each_time_fit_pointlike_run by (left; reflexivity).
    split; [reflexivity|]. split; reflexivity.
  - eexists.
    rewrite (@each_time_fit_gtlike_run Demo.engine (Demo.in_loop Demo.ul99)
               Demo.roi0 0 50 (m_sources Demo.roi0) eq_refl).
    split; reflexivity.
Qed.

(** ** The freeze options *)

Section Freezing.

Context {E : Engine}.

(** The object of the first fit has every source frozen that the
    options ask for, whatever the other option says. *)
Lemma freeze_for_bin_frozen (o : options) (name : string) (m : model) :
  let m1 := if negb (refit_background o)
            then fold_left modify (get_background m) m else m in
  frozen_in (freeze_for_bin o name m) name
  /\ (refit_background o = false ->
        forall n, In n (get_background m) -> frozen_in (freeze_for_bin o name m) n)
  /\ (refit_other_sources o = false ->
        forall n, In n (get_sources m1) -> frozen_in (freeze_for_bin o name m) n).
Proof.
  intros m1. unfold freeze_for_bin. fold m1.
  split; [apply modify_frozen|]. split.
  - intros Hbg n Hn. apply modify_keeps_frozen.
    assert (Hm1 : frozen_in m1 n).
    { unfold m1. rewrite Hbg. cbn [negb]. now apply fold_modify_frozen. }
    destruct (negb (refit_other_sources o)); [|exact Hm1].
    now apply fold_modify_keeps_frozen.
  - intros Hot n Hn. apply modify_keeps_frozen.
    rewrite Hot. cbn [negb]. now apply fold_modify_frozen.
Qed.

(** The gtlike fitter freezes before its first fit and does not raise. *)
Lemma gtlike_bin_freezes
    (s : state) (smaller_roi : model) (tstart tstop : Z) (best : list source) :
  best_gtlike_state s = Some best ->
  exists (r : bin_result) (m0 : model) (evs : list event),
    each_time_fit_gtlike smaller_roi tstart tstop s
    = (Ok r, set_log (log s ++ EvFit gtlike BinFrozen m0 :: evs) s)
    /\ frozen_in m0 (name s)
    /\ (refit_background (opts s) = false ->
          forall n, In n (get_background (restore best (Gtlike smaller_roi))) ->
                    frozen_in m0 n)
    /\ (refit_other_sources (opts s) = false ->
          forall n,
            In n (get_sources
                    (if negb (refit_background (opts s))
                     then fold_left modify
                            (get_background (restore best (Gtlike smaller_roi)))
                            (restore best (Gtlike smaller_roi))
                     else restore best (Gtlike smaller_roi))) ->
            frozen_in m0 n).
Proof.
  intros Hbest.
  rewrite (each_time_fit_gtlike_run _ _ _ _ Hbest).
  do 3 eexists. split; [reflexivity|].
  apply freeze_for_bin_frozen.
Qed.

(** The pointlike fitter freezes the other sources before its first fit
    when the background loop is not entered. *)
Lemma pointlike_bin_freezes_others
    (s : state) (smaller_roi : model) (tstart tstop : Z) :
  refit_background (opts s) = true \/ get_background smaller_roi = [] ->
  exists (r : bin_result) (m m0 : model) (evs : list event),
    each_time_fit_pointlike smaller_roi tstart tstop s
    = (Ok (r, m), set_log (log s ++ EvFit pointlike BinFrozen m0 :: evs) s)
    /\ frozen_in m0 (name s)
    /\ (refit_other_sources (opts s) = false ->
          forall n, In n (get_sources smaller_roi) -> frozen_in m0 n).
Proof.
  intros Hbg.
  rewrite each_time_fit_pointlike_run by exact Hbg.
  do 4 eexists. split; [reflexivity|].
  split; [apply modify_frozen|].
  intros Hot n Hn. apply modify_keeps_frozen.
  rewrite Hot. cbn [negb]. now apply fold_modify_frozen.
Qed.

End Freezing.

(** C8, the code at a failing input.  With [refit_background] disabled
    and a background source in the model, the pointlike fitter raises
    NameError on the unbound name [roi] before any fit, and so does the
    whole run; the gtlike fitter, given the same input, freezes the
    background source before its first fit. *)
Theorem refit_background_off_raises_in_pointlike :
  refit_background (opts (Demo.in_loop Demo.fixed_background)) = false
  /\ get_background (Engine:=Demo.engine) Demo.roi0 = ["galdiff"%string]
  /\ each_time_fit_pointlike (E:=Demo.engine) Demo.roi0 0 50
       (Demo.in_loop Demo.fixed_background)
     = (Raise (NameError "roi"), Demo.in_loop Demo.fixed_background)
  /\ fst (construct (E:=Demo.engine) Demo.roi0 "crab" Demo.fixed_background)
     = Raise (NameError "roi")
  /\ exists (r : bin_result) (m0 : model) (evs : list event),
       each_time_fit_gtlike (E:=Demo.engine) Demo.roi0 0 50
         (Demo.in_loop Demo.fixed_background)
       = (Ok r, set_log (EvFit gtlike BinFrozen m0 :: evs)
                  (Demo.in_loop Demo.fixed_background))
       /\ frozen_in m0 "galdiff".
Proof.
  split; [reflexivity|]. split; [reflexivity|]. split.
  { apply each_time_fit_pointlike_name_error; [reflexivity|discriminate]. }
  split; [vm_compute; reflexivity|].
  destruct (@gtlike_bin_freezes Demo.engine (Demo.in_loop Demo.fixed_background)
              Demo.roi0 0 50 (m_sources Demo.roi0) eq_refl)
    as [r [m0 [evs [Hrun [_ [Hbg _]]]]]].
  exists r, m0, evs. split; [exact Hrun|].
  apply Hbg; [reflexivity|]. left. reflexivity.
Qed.

(** ** Invariants of a run *)

Lemma preserves_ret {A} (I : state -> Prop) (a : A) : preserves I (ret a).
Proof. intros s H. exact H. Qed.

Lemma preserves_raise {A} (I : state -> Prop) (e : exn) :
  preserves I (@raise A e).
Proof. intros s H. exact H. Qed.

Lemma preserves_get (I : state -> Prop) : preserves I get.
Proof. intros s H. exact H. Qed.

Lemma preserves_lift {A} (I : state -> Prop) (r : result A) :
  preserves I (lift r).
Proof. intros s H. exact H. Qed.

Lemma preserves_update (I : state -> Prop) (g : state -> state) :
  (forall s, I s -> I (g s)) -> preserves I (update g).
Proof. intros Hg s H. apply Hg, H. Qed.

Lemma preserves_bind {A B} (I : state -> Prop) (c : M A) (k : A -> M B) :
  preserves I c -> (forall a, preserves I (k a)) -> preserves I (bind c k).
Proof.
  intros Hc Hk s H. unfold bind.
  specialize (Hc s H). destruct (c s) as [[a|e] s1]; cbn in *.
  - apply Hk, Hc.
  - exact Hc.
Qed.

Lemma preserves_for {A} (I : state -> Prop) (l : list A) (body : A -> M unit) :
  (forall x, preserves I (body x)) -> preserves I (for_ l body).
Proof.
  intros Hb. induction l as [|x l IH]; cbn.
  - apply preserves_ret.
  - apply preserves_bind; [apply Hb | intros _; exact IH].
Qed.


Ltac inv_step :=
  lazymatch goal with
  | |- preserves _ _ =>
      first
        [ apply preserves_ret
        | apply preserves_raise
        | apply preserves_get
        | apply preserves_lift
        | apply preserves_for; intros ?
        | apply preserves_update; intros ? ?
        | apply preserves_bind; [|intros ?] ]
  end.

Lemma bind_from {A B} (I : state -> Prop) (c : M A) (k : A -> M B) (s : state) :
  I (snd (c s)) -> (forall a, preserves I (k a)) -> I (snd (bind c k s)).
Proof.
  intros Hc Hk. unfold bind. destruct (c s) as [[a|e] s1]; cbn in *.
  - apply Hk, Hc.
  - exact Hc.
Qed.

Lemma bind_weaken {A B} (J I : state -> Prop) (c : M A) (k : A -> M B)
    (s : state) :
  J (snd (c s)) ->
  (forall a s1, J s1 -> I (snd (k a s1))) ->
  (forall s1, J s1 -> I s1) ->
  I (snd (bind c k s)).
Proof.
  intros Hc Hk Hw. unfold bind. destruct (c s) as [[a|e] s1]; cbn in *.
  - apply Hk, Hc.
  - apply Hw, Hc.
Qed.

Lemma bind_get {A} (k : state -> M A) (s : state) : bind get k s = k s s.
Proof. reflexivity. Qed.

(** The set-up only writes [time_range], [time] and [nbins]. *)
Lemma setup_time_bins_preserves (I : state -> Prop) :
  (forall s v, I s -> I (set_time_range v s)) ->
  (forall s v, I s -> I (set_time v s)) ->
  (forall s v, I s -> I (set_opts (set_nbins v (opts s)) s)) ->
  preserves I _setup_time_bins.
Proof.
  intros Hr Ht Ho. unfold _setup_time_bins.
  apply preserves_bind; [apply preserves_get|]. intros self.
  repeat (apply preserves_bind;
          [match goal with
           | |- preserves _ (if ?c then _ else _) => destruct c
           end; inv_step | intros _]).
  apply preserves_bind; [inv_step|]. intros [e l].
  apply preserves_bind; [apply preserves_update; intros s Hs; now apply Hr|].
  intros _.
  apply preserves_bind;
    [|intros se; apply preserves_update; intros s Hs; now apply Ht].
  destruct (nbins (opts self)) as [n|]; [inv_step|].
  destruct (tstarts (opts self)) as [ts|]; [|inv_step].
  destruct (tstops (opts self)) as [te|]; [|inv_step].
  apply preserves_bind;
    [destruct (Nat.eqb (List.length ts) (List.length te)); inv_step|].
  intros _. apply preserves_bind; [|intros _; inv_step].
  apply preserves_update. intros s Hs. now apply Ho.
Qed.

Lemma setup_keeps_roi (r : model) :
  preserves (fun s => roi s = r /\ log s = [] /\ best_gtlike_state s = None)
    (_setup_savedir ;; _setup_time_bins).
Proof.
  apply preserves_bind.
  - intros s Hs. exact Hs.
  - intros _. apply setup_time_bins_preserves; intros s v Hs; exact Hs.
Qed.

Section RunFacts.

Context {E : Engine}.
Variables (roi0 : model) (o : options) (name0 : string).

Let Inv := run_invariant roi0 o name0.
Let best0 := all_time_gtlike_state roi0.

Lemma freeze_for_bin_flags (o1 o2 : options) (n : string) (m : model) :
  refit_background o1 = refit_background o2 ->
  refit_other_sources o1 = refit_other_sources o2 ->
  freeze_for_bin o1 n m = freeze_for_bin o2 n m.
Proof. intros H1 H2. unfold freeze_for_bin. now rewrite H1, H2. Qed.

Lemma inv_log (s : state) (evs : list event) :
  Inv s -> Forall (starts_from o name0 best0) evs ->
  Inv (set_log (log s ++ evs) s).
Proof.
  intros (Hn & Hb & Ho & Hd & Hbest & Hlog) Hevs.
  repeat split; cbn; auto. apply Forall_app. split; assumption.
Qed.

Lemma inv_emit (e : event) :
  starts_from o name0 best0 e -> preserves Inv (emit e).
Proof.
  intros He. apply preserves_update. intros s Hs.
  apply inv_log; [exact Hs|]. constructor; [exact He|constructor].
Qed.

Lemma inv_run_fit (b : backend) (st : stage) (m : model) :
  starts_from o name0 best0 (EvFit b st m) -> preserves Inv (run_fit b st m).
Proof.
  intros He. unfold run_fit.
  apply preserves_bind; [now apply inv_emit | intros _; apply preserves_ret].
Qed.

Lemma inv_setup_savedir : preserves Inv _setup_savedir.
Proof.
  intros s Hs. exact Hs.
Qed.

Lemma inv_setup_time_bins : preserves Inv _setup_time_bins.
Proof.
  apply setup_time_bins_preserves; intros s v Hs; exact Hs.
Qed.

Lemma inv_time_cut (r : model) (a b : Z) : preserves Inv (time_cut r a b).
Proof.
  unfold time_cut.
  repeat (apply preserves_bind;
          [match goal with
           | |- preserves _ (if ?c then _ else _) => destruct c
           end; inv_step | intros _]).
  destruct (ft2files (m_data r)); inv_step.
Qed.

Lemma inv_pointlike (m : model) (a b : Z) :
  preserves Inv (each_time_fit_pointlike m a b).
Proof.
  unfold each_time_fit_pointlike.
  apply preserves_bind; [apply preserves_get|]. intros self.
  apply preserves_bind.
  { destruct (negb (refit_background (opts self))); [|inv_step].
    apply preserves_for. intros x. unfold load_name.
    destruct (existsb _ _); inv_step. }
  intros _.
  apply preserves_bind; [apply inv_run_fit; exact I|]. intros m1.
  apply preserves_bind; [apply inv_run_fit; exact I|]. intros m2.
  apply preserves_bind; [|intros ul; inv_step].
  destruct (_ || _)%bool; [|inv_step].
  apply preserves_bind; [apply inv_emit; exact I | intros _; inv_step].
Qed.

Lemma inv_gtlike (m : model) (a b : Z) :
  preserves Inv (each_time_fit_gtlike m a b).
Proof.
  intros s Hs.
  destruct (best_gtlike_state s) as [best|] eqn:Hbest.
  - rewrite (each_time_fit_gtlike_run _ _ _ _ Hbest). cbn [snd].
    apply inv_log; [exact Hs|].
    destruct Hs as (Hn & Hb & Ho & _ & Hsaved & _).
    unfold bin_events. apply Forall_app. split.
    + constructor; [|constructor; [exact I|constructor]].
      exists m. rewrite (Hsaved best Hbest), Hn.
      now apply freeze_for_bin_flags.
    + destruct (wants_upper_limit _ _); repeat constructor.
  - rewrite each_time_fit_gtlike_unset by exact Hbest. exact Hs.
Qed.

Lemma inv_bands (g : list band -> list band) :
  preserves Inv (update (fun s => set_bands (g (bands s)) s)).
Proof. apply preserves_update. intros s Hs. exact Hs. Qed.

Lemma inv_one_bin (t : Z * Z) : preserves Inv (one_bin t).
Proof.
  unfold one_bin. destruct t as [a b].
  apply preserves_bind; [apply preserves_get|]. intros self.
  apply preserves_bind; [apply (inv_bands (fun l => l ++ [_]))|]. intros _.
  apply preserves_bind; [apply inv_time_cut|]. intros smaller_roi.
  apply preserves_bind; [apply inv_pointlike|]. intros [r m].
  apply preserves_bind; [apply (inv_bands (map_last _))|]. intros _.
  destruct (do_gtlike (opts self)); [|inv_step].
  apply preserves_bind; [apply inv_gtlike|]. intros r'.
  apply (inv_bands (map_last _)).
Qed.

Lemma inv_compute_TS_var (t : backend) : preserves Inv (compute_TS_var t).
Proof. unfold compute_TS_var. repeat inv_step. Qed.

Lemma all_time_fit_run (s : state) :
  let roi' := after_fit pointlike (roi s) in
  let like := Gtlike roi' in
  snd (all_time_fit s)
  = if do_gtlike (opts s)
    then set_best_gtlike_state (Some (all_time_gtlike_state (roi s)))
           (set_log (log s ++ [EvFit pointlike AllTime (roi s);
                               EvFit gtlike AllTime like])
              (set_roi roi' s))
    else set_log (log s ++ [EvFit pointlike AllTime (roi s)]) (set_roi roi' s).
Proof.
  cbv beta iota delta [all_time_fit run_fit emit bind get update ret raise].
  cbn [opts set_log set_roi log].
  destruct (do_gtlike (opts s)); cbv beta iota; cbn [snd log set_log set_roi];
    rewrite <- ?app_assoc; reflexivity.
Qed.

Lemma inv_all_time_fit (s : state) :
  Inv s -> roi s = roi0 -> Inv (snd (all_time_fit s)).
Proof.
  intros (Hn & Hb & Ho & Hd & Hbest & Hlog) Hroi.
  rewrite all_time_fit_run.
  assert (Hev : forall evs,
            Forall (starts_from o name0 best0) evs ->
            Forall (starts_from o name0 best0) (log s ++ evs))
    by (intros evs Hevs; apply Forall_app; split; assumption).
  subst roi0.
  destruct (do_gtlike (opts s)); unfold Inv, run_invariant;
    cbn [name opts roi best_gtlike_state log set_best_gtlike_state set_log
         set_roi after_fit with_sources m_data].
  - repeat (split; [assumption || reflexivity|]). split.
    + intros b Hb'. injection Hb' as <-. reflexivity.
    + apply Hev. repeat constructor.
  - repeat (split; [assumption || reflexivity|]).
    apply Hev. repeat constructor.
Qed.

Lemma inv_test_variability (s : state) :
  Inv s -> roi s = roi0 -> Inv (snd (_test_variability s)).
Proof.
  intros Hs Hroi. unfold _test_variability.
  apply bind_from; [now apply inv_all_time_fit|]. intros a.
  apply preserves_bind; [apply preserves_update; intros s1 H1; exact H1|].
  intros _.
  apply preserves_bind; [apply preserves_update; intros s1 H1; exact H1|].
  intros _.
  apply preserves_bind; [apply preserves_get|]. intros self.
  apply preserves_bind; [destruct (time self); inv_step|]. intros se.
  apply preserves_bind; [apply preserves_for; intros t; apply inv_one_bin|].
  intros _.
  apply preserves_bind; [apply inv_compute_TS_var|]. intros tp.
  apply preserves_bind; [apply preserves_update; intros s1 H1; exact H1|].
  intros _.
  destruct (do_gtlike (opts self)); [|inv_step].
  apply preserves_bind; [apply inv_compute_TS_var|]. intros tg.
  apply preserves_update. intros s1 H1. exact H1.
Qed.

Lemma inv_new_tester :
  Inv (new_tester roi0 name0 o).
Proof. repeat split. - intros b Hb. discriminate Hb. - constructor. Qed.

Lemma inv_construct : Inv (snd (construct roi0 name0 o)).
Proof.
  unfold construct, __init__.
  apply (@bind_weaken _ _ (fun s => Inv s /\ roi s = roi0));
    [split; [apply inv_new_tester | reflexivity] | | tauto].
  intros _ s1 H1.
  apply (@bind_weaken _ _ (fun s => Inv s /\ roi s = roi0));
    [ apply (@setup_time_bins_preserves (fun s => Inv s /\ roi s = roi0));
      [intros s v Hs; exact Hs ..| exact H1]
    | | tauto].
  intros _ s2 [H2 Hroi].
  rewrite bind_get.
  apply bind_from; [now apply inv_test_variability|]. intros _.
  apply preserves_update. intros s3 (Hn & Hb & Ho & Hd & Hbest & Hlog).
  unfold Inv, run_invariant. cbn [name opts roi best_gtlike_state log set_roi
                                  restore with_sources m_data].
  auto 10.
Qed.

End RunFacts.

Lemma freeze_for_bin_values {E : Engine} (o : options) (n : string) (m : model) :
  param_values (m_sources (freeze_for_bin o n m)) = param_values (m_sources m).
Proof.
  unfold freeze_for_bin. rewrite modify_values.
  destruct (negb (refit_other_sources o)); rewrite ?fold_modify_values;
    destruct (negb (refit_background o)); rewrite ?fold_modify_values;
    reflexivity.
Qed.

Lemma bind_ok {A B} (c : M A) (k : A -> M B) (s s' : state) (b : B) :
  bind c k s = (Ok b, s') ->
  exists a s1, c s = (Ok a, s1) /\ k a s1 = (Ok b, s').
Proof.
  unfold bind. destruct (c s) as [[a|e] s1]; [eauto|discriminate].
Qed.

Lemma returned_ok (c : result unit * state) :
  fst c = Ok tt -> c = (Ok tt, snd c).
Proof. destruct c as [r s]. cbn. now intros ->. Qed.

(** ** The caller's ROI after a run *)

(** C9.  When the constructor returns without raising, the caller's ROI
    is as it was before the call: its parameter state is the snapshot
    taken before the all-time and per-bin fits, written back after
    them, and the data it is bound to were never changed. *)
Theorem roi_state_restored
    {E : Engine} (roi0 : model) (name0 : string) (o : options) (s' : state) :
  construct roi0 name0 o = (Ok tt, s') ->
  m_sources (roi s') = m_sources roi0 /\ roi s' = roi0.
Proof.
  intros Hrun.
  assert (Hsrc : m_sources (roi s') = m_sources roi0).
  { unfold construct, __init__ in Hrun.
    apply bind_ok in Hrun. destruct Hrun as ([] & s1 & H1 & Hrun).
    apply bind_ok in Hrun. destruct Hrun as ([] & s2 & H2 & Hrun).
    rewrite bind_get in Hrun.
    apply bind_ok in Hrun. destruct Hrun as ([] & s3 & H3 & Hrun).
    injection Hrun as <-. cbn [roi set_roi restore with_sources m_sources snapshot].
    assert (Hroi : roi s2 = roi0).
    { pose proof (@setup_keeps_roi roi0 (new_tester roi0 name0 o)
                    (conj eq_refl (conj eq_refl eq_refl))) as Hk.
      unfold bind in Hk. rewrite H1, H2 in Hk. apply Hk. }
    now rewrite Hroi. }
  split; [exact Hsrc|].
  pose proof (inv_construct roi0 o name0) as (_ & _ & _ & Hd & _).
  rewrite Hrun in Hd. cbn [snd] in Hd.
  destruct (roi s') as [d l], roi0 as [d0 l0]. cbn in *. congruence.
Qed.

Lemma roi_state_restored_witness :
  m_sources (roi (snd (construct (E:=Demo.engine) Demo.roi0 "crab"
                         (Demo.with_nbins 2))))
  = m_sources Demo.roi0
  /\ roi (snd (construct (E:=Demo.engine) Demo.roi0 "crab"
                 (Demo.with_nbins 2)))
     = Demo.roi0.
Proof.
  apply (@roi_state_restored Demo.engine Demo.roi0 "crab" (Demo.with_nbins 2)).
  apply returned_ok. vm_compute. reflexivity.
Defined.

(** ** Where the per-bin gtlike fits start *)

(** C10.  In every run, each first gtlike fit of a bin is made on a new
    likelihood object into which the state saved by the all-time gtlike
    fit was restored before the freezing: its parameter values are those
    of the all-time best fit, whatever the earlier bins did; and the
    saved state, once set, is that of the all-time fit. *)
Theorem gtlike_bins_start_from_all_time_fit
    {E : Engine} (roi0 : model) (name0 : string) (o : options) :
  (forall m,
     In (EvFit gtlike BinFrozen m) (log (snd (construct roi0 name0 o))) ->
     (exists smaller_roi,
        m = freeze_for_bin o name0
              (restore (all_time_gtlike_state roi0) (Gtlike smaller_roi)))
     /\ param_values (m_sources m)
        = param_values (all_time_gtlike_state roi0))
  /\ (forall b,
        best_gtlike_state (snd (construct roi0 name0 o)) = Some b ->
        b = all_time_gtlike_state roi0).
Proof.
  pose proof (inv_construct roi0 o name0) as (_ & _ & _ & _ & Hbest & Hlog).
  split; [|exact Hbest].
  intros m Hm. rewrite Forall_forall in Hlog.
  specialize (Hlog _ Hm). cbn in Hlog.
  split; [exact Hlog|].
  destruct Hlog as [smaller_roi ->].
  now rewrite freeze_for_bin_values.
Qed.

Lemma in_frozen_gtlike_fits (l : list event) (m : model) :
  In m (frozen_gtlike_fits l) -> In (EvFit gtlike BinFrozen m) l.
Proof.
  unfold frozen_gtlike_fits. intros H. apply in_flat_map in H.
  destruct H as [e [He Hm]].
  destruct e as [[|] [| |] m'|]; cbn in Hm; try contradiction.
  destruct Hm as [->|[]]. exact He.
Qed.

Lemma gtlike_bins_start_from_all_time_fit_witness :
  List.length
    (frozen_gtlike_fits
       (log (snd (construct (E:=Demo.engine) Demo.roi0 "crab"
                    (Demo.with_nbins 2)))))
  = 2%nat
  /\ param_values
       (m_sources
          (hd Demo.roi0
             (frozen_gtlike_fits
                (log (snd (construct (E:=Demo.engine) Demo.roi0 "crab"
                             (Demo.with_nbins 2)))))))
     = param_values (all_time_gtlike_state (E:=Demo.engine) Demo.roi0).
Proof.
  split; [vm_compute; reflexivity|].
  apply (proj1 (@gtlike_bins_start_from_all_time_fit Demo.engine Demo.roi0
                  "crab" (Demo.with_nbins 2))).
  apply in_frozen_gtlike_fits. vm_compute. left. reflexivity.
Defined.

(** * Further properties of the aggregation *)

Lemma div_by_sum_unit (n c : float) :
  nonneg n -> nonneg c ->
  Float.isnan (n / (n + c)) = true \/ in_unit_interval (n / (n + c)).
Proof.
  destruct n as [|s|a], c as [|t|b]; cbn; intros Hn Hc; subst; cbn; auto.
  - right. exists 0%Qc. repeat split; unfold Qcle; cbn; discriminate.
  - destruct (Float.Qc_is0 (a + b)) eqn:E; cbn.
    + apply Qc_is0_spec in E.
      apply (Qc_sum_nonneg_0 Hn Hc) in E. subst a. left. reflexivity.
    + right. exists (a / (a + b))%Qc. split; [reflexivity|].
      apply Qc_is0_false in E.
      assert (Hpos : (0 < this a + this b)%Q) by (to_Q; lra).
      assert (Hw : (this (a / (a + b)) * (this a + this b) == this a)%Q).
      { rewrite this_div, this_plus. field. lra. }
      to_Q. set (w := (this a / (this a + this b))%Q) in *.
      split; nra.
Qed.

(** The damping weight is always a number between 0 and 1, whatever the
    fluxes are. *)
Lemma damping_weight_unit (f F0 df : float) :
  in_unit_interval (damping_weight f F0 df).
Proof.
  unfold damping_weight.
  destruct (div_by_sum_unit _ _ (nonneg_sq df)
              (nonneg_mul _ _ (nonneg_sq f) (nonneg_sq F0))) as [H|H];
    fold (damping_fraction f F0 df) in H.
  - rewrite H. exists 1%Qc. repeat split; unfold Qcle; cbn; discriminate.
  - destruct H as [w [Hw Hb]]. rewrite Hw. cbn. exists w. auto.
Qed.

Lemma fold_add_bounds (xs ys : list float) (a b : Qc) :
  Forall2 (fun x y => exists p q : Qc,
             x = Fin p /\ y = Fin q /\ (0 <= p)%Qc /\ (p <= q)%Qc) xs ys ->
  (0 <= a)%Qc -> (a <= b)%Qc ->
  exists v R : Qc,
    fold_left Float.add xs (Fin a) = Fin v
    /\ fold_left Float.add ys (Fin b) = Fin R
    /\ (0 <= v)%Qc /\ (v <= R)%Qc.
Proof.
  intros H. revert a b.
  induction H as [|x y xs ys (p & q & -> & -> & Hp & Hpq) _ IH];
    intros a b Ha Hab; cbn.
  - exists a, b. auto.
  - apply IH; to_Q; lra.
Qed.

(** X1.  The damped statistic never exceeds the raw one.  When no bin
    fits worse with the normalisation free, [compute_TS_var] returns a
    number between 0 and the undamped sum of [2*(ll_1 - ll_0)]. *)
Theorem TS_var_between_zero_and_raw
    (self : state) (type : backend) (rs : list bin_result)
    (a : all_time_dict) (d : source_dict) :
  rmap (fun b => band_get b type) (bands self) = Ok rs ->
  all_time self = Some a ->
  all_time_get a type = Ok d ->
  (forall r, In r rs ->
     exists l0 l1 : Qc,
       ll_0 r = Fin l0 /\ ll_1 r = Fin l1 /\ (l0 <= l1)%Qc) ->
  exists v R : Qc,
    compute_TS_var type self = (Ok (Fin v), self)
    /\ np.sum (map raw_statistic rs) = Fin R
    /\ (0 <= v)%Qc /\ (v <= R)%Qc.
Proof.
  intros Hb Ha Hd Hll.
  destruct (compute_TS_var_returns self type Hb Ha Hd) as [v0 [Hv ->]].
  rewrite Hv. unfold np.sum.
  destruct (@fold_add_bounds
              (map (damped_term (self_f self) (flux (sd_flux d))) rs)
              (map raw_statistic rs) 0%Qc 0%Qc) as (v & R & H1 & H2 & H3 & H4).
  - clear Hb Hv. induction rs as [|r rs IH]; cbn; constructor.
    + destruct (Hll r (or_introl eq_refl)) as (l0 & l1 & H0 & H1 & Hle).
      destruct (damping_weight_unit (self_f self) (flux (sd_flux d))
                  (flux (r_flux r) - flux (sd_flux d))) as (w & Hw & Hw0 & Hw1).
      unfold damped_term, raw_statistic. rewrite Hw, H0, H1. cbn.
      eexists _, _. split; [reflexivity|]. split; [reflexivity|].
      change (Q2Qc (inject_Z 2)) with (Qc_of_Z 2).
      to_Q. rewrite !this_Qc_of_Z. change (inject_Z 2) with 2%Q. split; nra.
    + apply IH. intros r' Hr'. apply Hll. now right.
  - unfold Qcle; cbn; discriminate.
  - unfold Qcle; cbn; discriminate.
  - exists v, R. change Float.zero with (Fin 0%Qc). rewrite H1, H2. auto.
Qed.

Lemma fold_add_zeros (xs : list float) :
  Forall (fun x => x = Fin 0%Qc) xs ->
  fold_left Float.add xs (Fin 0%Qc) = Fin 0%Qc.
Proof.
  induction 1 as [|x xs -> _ IH]; cbn; [reflexivity|].
  rewrite Qcplus_0_l. exact IH.
Qed.

(** X2.  Where freeing the normalisation changes no likelihood there is no
    variability signal.  If [ll_1 = ll_0] in every bin, [compute_TS_var]
    returns 0 whatever the fluxes are, not-a-number included. *)
Theorem TS_var_zero_without_likelihood_gain
    (self : state) (type : backend) (rs : list bin_result)
    (a : all_time_dict) (d : source_dict) :
  rmap (fun b => band_get b type) (bands self) = Ok rs ->
  all_time self = Some a ->
  all_time_get a type = Ok d ->
  (forall r, In r rs -> exists l : Qc, ll_0 r = Fin l /\ ll_1 r = Fin l) ->
  compute_TS_var type self = (Ok (Fin 0%Qc), self).
Proof.
  intros Hb Ha Hd Hll.
  destruct (compute_TS_var_returns self type Hb Ha Hd) as [v [Hv ->]].
  rewrite Hv. do 2 f_equal. unfold np.sum. apply fold_add_zeros.
  apply Forall_forall. intros x Hx. apply in_map_iff in Hx.
  destruct Hx as [r [<- Hr]].
  destruct (Hll r Hr) as (l & H0 & H1).
  destruct (damping_weight_unit (self_f self) (flux (sd_flux d))
              (flux (r_flux r) - flux (sd_flux d))) as (w & Hw & _).
  unfold damped_term, raw_statistic. rewrite Hw, H0, H1. cbn.
  f_equal. rewrite Qcplus_opp_r. ring.
Qed.

Lemma TS_var_zero_without_likelihood_gain_witness :
  compute_TS_var pointlike
    (Demo.fitted [Demo.mk_result Float.one Float.one Float.two;
                  Demo.mk_result Float.two Float.two NaN] Float.one)
  = (Ok (Fin 0%Qc),
     Demo.fitted [Demo.mk_result Float.one Float.one Float.two;
                  Demo.mk_result Float.two Float.two NaN] Float.one).
Proof.
  apply (@TS_var_zero_without_likelihood_gain
           (Demo.fitted [Demo.mk_result Float.one Float.one Float.two;
                         Demo.mk_result Float.two Float.two NaN] Float.one)
           pointlike _ _ _ eq_refl eq_refl eq_refl).
  intros r [<-|[<-|[]]]; eexists; split; reflexivity.
Defined.

Lemma TS_var_between_zero_and_raw_witness :
  exists v R : Qc,
    compute_TS_var pointlike
      (Demo.fitted [Demo.mk_result Float.zero Float.one Float.two;
                    Demo.mk_result Float.one Float.two NaN] Float.one)
    = (Ok (Fin v),
       Demo.fitted [Demo.mk_result Float.zero Float.one Float.two;
                    Demo.mk_result Float.one Float.two NaN] Float.one)
    /\ np.sum (map raw_statistic
                 [Demo.mk_result Float.zero Float.one Float.two;
                  Demo.mk_result Float.one Float.two NaN]) = Fin R
    /\ (0 <= v)%Qc /\ (v <= R)%Qc.
Proof.
  apply (@TS_var_between_zero_and_raw
           (Demo.fitted [Demo.mk_result Float.zero Float.one Float.two;
                         Demo.mk_result Float.one Float.two NaN] Float.one)
           pointlike _ _ _ eq_refl eq_refl eq_refl).
  intros r [<-|[<-|[]]]; eexists _, _; (split; [reflexivity|]);
    (split; [reflexivity|]); unfold Qcle; vm_compute; discriminate.
Defined.

(** The weight on finite inputs: guarded only where both the deviation
    and [f * F0] vanish. *)
Lemma damping_weight_fin (f F0 df : Qc) :
  damping_weight (Fin f) (Fin F0) (Fin df)
  = if Float.Qc_is0 (df * df + f * f * (F0 * F0))
    then Fin 1%Qc
    else Fin (df * df / (df * df + f * f * (F0 * F0))).
Proof.
  unfold damping_weight, damping_fraction. cbn.
  destruct (Float.Qc_is0 (df * df + f * f * (F0 * F0))) eqn:E; [|reflexivity].
  apply Qc_is0_spec in E.
  assert (Hn : (df * df)%Qc = 0%Qc).
  { apply (Qc_sum_nonneg_0 (Qc_sq_nonneg df)) in E; [exact E|]. to_Q. nra. }
  apply Qc_is0_spec in Hn. rewrite Hn. reflexivity.
Qed.

Lemma damping_weight_scaled (f F0 k : Qc) (F : float) :
  k <> 0%Qc ->
  damping_weight (Fin f) (Fin k * Fin F0) (Fin k * F - Fin k * Fin F0)
  = damping_weight (Fin f) (Fin F0) (F - Fin F0).
Proof.
  intros Hk. destruct F as [|s|x].
  - reflexivity.
  - cbn. apply Qc_is0_false in Hk. rewrite Hk. reflexivity.
  - cbn [Float.mul Float.sub Float.add Float.opp].
    rewrite !damping_weight_fin.
    set (d := (x + - F0)%Qc).
    replace (k * x + - (k * F0))%Qc with (k * d)%Qc by (unfold d; ring).
    set (den := (d * d + f * f * (F0 * F0))%Qc).
    replace (k * d * (k * d) + f * f * (k * F0 * (k * F0)))%Qc
      with (k * k * den)%Qc by (unfold den; ring).
    destruct (Float.Qc_is0 den) eqn:E.
    + apply Qc_is0_spec in E. rewrite E, Qcmult_0_r. reflexivity.
    + apply Qc_is0_false in E.
      assert (Hkk : (k * k * den)%Qc <> 0%Qc).
      { intros H. apply Qcmult_integral in H. destruct H as [H|H]; [|auto].
        apply Qcmult_integral in H. tauto. }
      apply Qc_is0_false in Hkk. rewrite Hkk. f_equal.
      apply Qc_is0_false in Hkk. field. split; assumption.
Qed.

Lemma good_fraction_weights (f F0 : float) (F : np.array) :
  let df := map (fun x => x - F0)%fl F in
  let fraction :=
    np.zip_with Float.div (map Float.sq df)
      (map (fun x => x + Float.sq f * Float.sq F0)%fl (map Float.sq df)) in
  np.where_ (np.invert (np.isnan fraction)) fraction Float.one
  = map (fun x => damping_weight f F0 (x - F0)%fl) F.
Proof.
  induction F as [|x F IH]; [reflexivity|].
  cbn [map np.zip_with np.isnan np.invert np.where_] in *.
  f_equal; [|exact IH]. apply good_fraction_weight.
Qed.

(** X3.  The flux unit does not matter.  Multiplying every bin flux and
    the all-time flux by the same non-zero factor leaves the result of
    the aggregation unchanged. *)
Theorem TS_var_flux_scale_invariant
    (f F0 k : Qc) (ll1 ll0 F : np.array) :
  k <> 0%Qc ->
  TS_var_of_arrays (Fin f) ll1 ll0 (map (fun x => Fin k * x)%fl F)
    (Fin k * Fin F0)%fl
  = TS_var_of_arrays (Fin f) ll1 ll0 F (Fin F0).
Proof.
  intros Hk. unfold TS_var_of_arrays.
  rewrite !good_fraction_weights. do 2 f_equal.
  rewrite map_map. apply map_ext. intros x.
  now apply damping_weight_scaled.
Qed.

Lemma TS_var_flux_scale_invariant_witness :
  TS_var_of_arrays CombinedVariabilityTester_f
    [Float.one; Float.two] [Float.zero; Float.zero]
    (map (fun x => Float.of_Z 1000 * x)%fl [Float.two; NaN])
    (Float.of_Z 1000 * Float.one)%fl
  = TS_var_of_arrays CombinedVariabilityTester_f
      [Float.one; Float.two] [Float.zero; Float.zero]
      [Float.two; NaN] Float.one.
Proof.
  apply (@TS_var_flux_scale_invariant (Q2Qc (2 # 100)) (Q2Qc (inject_Z 1))
           (Q2Qc (inject_Z 1000))).
  intros H. apply (f_equal this) in H. vm_compute in H. discriminate H.
Defined.

(** X4.  Larger deviations are damped less.  For finite inputs the weight
    grows with [|df|]. *)
Theorem damping_weight_monotone (f F0 df1 df2 : Qc) :
  (df1 * df1 <= df2 * df2)%Qc ->
  exists w1 w2 : Qc,
    damping_weight (Fin f) (Fin F0) (Fin df1) = Fin w1
    /\ damping_weight (Fin f) (Fin F0) (Fin df2) = Fin w2
    /\ (w1 <= w2)%Qc.
Proof.
  intros Hle. rewrite !damping_weight_fin.
  set (c := (f * f * (F0 * F0))%Qc).
  assert (Hc : (0 <= c)%Qc) by (unfold c; to_Q; nra).
  pose proof (Qc_sq_nonneg df1) as H1. pose proof (Qc_sq_nonneg df2) as H2.
  set (n1 := (df1 * df1)%Qc) in *. set (n2 := (df2 * df2)%Qc) in *.
  destruct (Float.Qc_is0 (n2 + c)) eqn:E2.
  - apply Qc_is0_spec in E2.
    assert (E1 : (n1 + c)%Qc = 0%Qc) by (to_Q; lra).
    apply Qc_is0_spec in E1. rewrite E1.
    exists 1%Qc, 1%Qc. repeat split. apply Qcle_refl.
  - apply Qc_is0_false in E2.
    assert (Hw2 : (this (n2 / (n2 + c)) * (this n2 + this c) == this n2)%Q).
    { rewrite this_div, this_plus. field. to_Q. exact E2. }
    destruct (Float.Qc_is0 (n1 + c)) eqn:E1.
    + apply Qc_is0_spec in E1.
      assert (Hc0 : (this c == 0)%Q) by (to_Q; lra).
      exists 1%Qc, (n2 / (n2 + c))%Qc. repeat split.
      to_Q. set (w := (this n2 / (this n2 + this c))%Q) in *. nra.
    + apply Qc_is0_false in E1.
      assert (Hw1 : (this (n1 / (n1 + c)) * (this n1 + this c) == this n1)%Q).
      { rewrite this_div, this_plus. field. to_Q. exact E1. }
      exists (n1 / (n1 + c))%Qc, (n2 / (n2 + c))%Qc. repeat split.
      to_Q.
      set (w1 := (this n1 / (this n1 + this c))%Q) in *.
      set (w2 := (this n2 / (this n2 + this c))%Q) in *.
      assert (Hp1 : (0 < this n1 + this c)%Q) by lra.
      assert (Hp2 : (0 < this n2 + this c)%Q) by lra.
      assert (Hw1' : (w1 <= 1)%Q) by nra.
      assert (Hw2' : (w2 <= 1)%Q) by nra.
      assert (Hw1'' : (0 <= w1)%Q) by nra.
      nra.
Qed.

Lemma damping_weight_monotone_witness :
  exists w1 w2 : Qc,
    damping_weight CombinedVariabilityTester_f Float.one (Fin (Q2Qc (1 # 10)))
    = Fin w1
    /\ damping_weight CombinedVariabilityTester_f Float.one (Fin (- Q2Qc (1 # 2)))
       = Fin w2
    /\ (w1 <= w2)%Qc.
Proof.
  apply (@damping_weight_monotone (Q2Qc (2 # 100)) (Q2Qc (inject_Z 1))
           (Q2Qc (1 # 10)) (- Q2Qc (1 # 2))).
  unfold Qcle. vm_compute. discriminate.
Defined.

(** X5.  The systematic fraction is the half-damping point.  A bin whose
    flux deviates from the all-time flux by exactly [f * F0] gets
    weight one half. *)
Theorem damping_weight_half (f F0 : Qc) :
  f <> 0%Qc -> F0 <> 0%Qc ->
  damping_weight (Fin f) (Fin F0) (Fin (f * F0)) = Fin (Q2Qc (1 # 2))
  /\ damping_weight (Fin f) (Fin F0) (Fin (- (f * F0))) = Fin (Q2Qc (1 # 2)).
Proof.
  intros Hf HF.
  assert (Hc : (f * F0 * (f * F0))%Qc <> 0%Qc).
  { intros H. apply Qcmult_integral in H.
    destruct H as [H|H]; apply Qcmult_integral in H; tauto. }
  assert (Hden : (f * F0 * (f * F0) + f * f * (F0 * F0))%Qc <> 0%Qc).
  { replace (f * F0 * (f * F0) + f * f * (F0 * F0))%Qc
      with (Qc_of_Z 2 * (f * F0 * (f * F0)))%Qc.
    - intros H. apply Qcmult_integral in H. destruct H as [H|H]; [|auto].
      apply (f_equal this) in H. vm_compute in H. discriminate H.
    - apply Qc_is_canon. rewrite this_plus, !this_mult, this_Qc_of_Z.
      change (inject_Z 2) with 2%Q. ring. }
  assert (Hhalf : (f * F0 * (f * F0) / (f * F0 * (f * F0) + f * f * (F0 * F0)))%Qc
                  = Q2Qc (1 # 2)).
  { apply Qc_is_canon. rewrite this_div, this_Q2Qc.
    assert (Hc' : ~ (this (f * F0 * (f * F0)) == 0)%Q)
      by (intros H; apply Hc; now apply Qc_is_canon).
    rewrite this_plus.
    assert (Hs : (this (f * f * (F0 * F0)) == this (f * F0 * (f * F0)))%Q).
    { rewrite !this_mult. ring. }
    rewrite Hs. set (q := this (f * F0 * (f * F0))) in *.
    field. intros H. apply Hc'. lra. }
  split.
  - rewrite damping_weight_fin.
    apply Qc_is0_false in Hden. rewrite Hden. now f_equal.
  - rewrite damping_weight_fin.
    replace (- (f * F0) * - (f * F0))%Qc with (f * F0 * (f * F0))%Qc by ring.
    apply Qc_is0_false in Hden. rewrite Hden. now f_equal.
Qed.

Lemma damping_weight_half_witness :
  damping_weight CombinedVariabilityTester_f (Fin (Qc_of_Z 3))
    (Fin (Q2Qc (2 # 100) * Qc_of_Z 3))
  = Fin (Q2Qc (1 # 2))
  /\ damping_weight CombinedVariabilityTester_f (Fin (Qc_of_Z 3))
       (Fin (- (Q2Qc (2 # 100) * Qc_of_Z 3)))
     = Fin (Q2Qc (1 # 2)).
Proof.
  apply (@damping_weight_half (Q2Qc (2 # 100)) (Qc_of_Z 3));
    intros H; apply (f_equal this) in H; vm_compute in H; discriminate H.
Defined.

Lemma band_entries (type : backend) (bs : list band) :
  if forallb (has_entry type) bs
  then exists rs, rmap (fun b => band_get b type) bs = Ok rs
  else rmap (fun b => band_get b type) bs = Raise (KeyError (backend_key type)).
Proof.
  induction bs as [|b bs IH]; cbn [forallb rmap]; [eexists; reflexivity|].
  assert (Hb : if has_entry type b
               then exists r, band_get b type = Ok r
               else band_get b type = Raise (KeyError (backend_key type))).
  { unfold has_entry, band_get, is_some, is_none.
    destruct type; [destruct (b_pointlike b)|destruct (b_gtlike b)]; cbn;
      eauto. }
  destruct (has_entry type b); cbn [andb].
  - destruct Hb as [r ->]. cbn [rbind].
    destruct (forallb (has_entry type) bs).
    + destruct IH as [rs ->]. eexists. reflexivity.
    + rewrite IH. reflexivity.
  - rewrite Hb. reflexivity.
Qed.

(** X6.  A missing backend entry is a KeyError.  Once the all-time fit is
    stored, [compute_TS_var] returns a value exactly when every band and
    the all-time dictionary carry results for the backend asked for;
    otherwise it raises [KeyError] with that backend's name and changes
    nothing. *)
Theorem compute_TS_var_key_error
    (self : state) (type : backend) (a : all_time_dict) :
  all_time self = Some a ->
  if forallb (has_entry type) (bands self) && all_time_has type a
  then exists v, compute_TS_var type self = (Ok v, self)
  else compute_TS_var type self = (Raise (KeyError (backend_key type)), self).
Proof.
  intros Ha.
  unfold compute_TS_var, bind, get, lift, compute_TS_var_of.
  pose proof (band_entries type (bands self)) as Hb.
  destruct (forallb (has_entry type) (bands self)); cbn [andb].
  - destruct Hb as [rs ->]. cbn [rbind]. rewrite Ha.
    unfold all_time_has, all_time_get, is_some, is_none.
    destruct type; [eexists; reflexivity|].
    destruct (a_gtlike a); cbn; [eexists; reflexivity|reflexivity].
  - rewrite Hb. reflexivity.
Qed.

Lemma compute_TS_var_key_error_witness :
  compute_TS_var gtlike
    (Demo.fitted [Demo.mk_result Float.zero Float.one Float.two] Float.one)
  = (Raise (KeyError "gtlike"),
     Demo.fitted [Demo.mk_result Float.zero Float.one Float.two] Float.one).
Proof.
  exact (@compute_TS_var_key_error
           (Demo.fitted [Demo.mk_result Float.zero Float.one Float.two] Float.one)
           gtlike (Demo.mk_all_time Float.one) eq_refl).
Defined.

(** * Further properties of the time range and the time bins *)

Lemma Qc_neg_spec (q : Qc) : Float.Qc_neg q = true <-> (q < 0)%Qc.
Proof.
  unfold Float.Qc_neg. rewrite Qclt_alt.
  destruct (Qccompare q 0); split; congruence.
Qed.

Lemma Qc_min_spec (a b : Qc) :
  (Qc_min a b = a \/ Qc_min a b = b)
  /\ (Qc_min a b <= a)%Qc /\ (Qc_min a b <= b)%Qc.
Proof.
  unfold Qc_min. destruct (Float.Qc_neg (b - a)) eqn:E.
  - apply Qc_neg_spec in E. split; [now right|]. split; to_Q; lra.
  - assert (H : ~ (b - a < 0)%Qc) by (rewrite <- Qc_neg_spec; congruence).
    split; [now left|]. split; to_Q; lra.
Qed.

Lemma Qc_max_spec (a b : Qc) :
  (Qc_max a b = a \/ Qc_max a b = b)
  /\ (a <= Qc_max a b)%Qc /\ (b <= Qc_max a b)%Qc.
Proof.
  unfold Qc_max. destruct (Float.Qc_neg (a - b)) eqn:E.
  - apply Qc_neg_spec in E. split; [now right|]. split; to_Q; lra.
  - assert (H : ~ (a - b < 0)%Qc) by (rewrite <- Qc_neg_spec; congruence).
    split; [now left|]. split; to_Q; lra.
Qed.

Lemma fold_min_spec (l : list Qc) (a : Qc) :
  In (fold_left Qc_min l a) (a :: l)
  /\ forall x, In x (a :: l) -> (fold_left Qc_min l a <= x)%Qc.
Proof.
  revert a. induction l as [|b l IH]; intros a; cbn [fold_left].
  - split; [now left|]. intros x [<-|[]]. apply Qcle_refl.
  - destruct (IH (Qc_min a b)) as [Hin Hle].
    destruct (Qc_min_spec a b) as [Hab [Ha Hb]].
    split.
    + destruct Hin as [Hin|Hin]; [|right; now right].
      rewrite <- Hin. destruct Hab as [->| ->]; [now left|right; now left].
    + intros x [<-|[<-|Hx]].
      * eapply Qcle_trans; [apply Hle; now left|exact Ha].
      * eapply Qcle_trans; [apply Hle; now left|exact Hb].
      * apply Hle. now right.
Qed.

Lemma fold_max_spec (l : list Qc) (a : Qc) :
  In (fold_left Qc_max l a) (a :: l)
  /\ forall x, In x (a :: l) -> (x <= fold_left Qc_max l a)%Qc.
Proof.
  revert a. induction l as [|b l IH]; intros a; cbn [fold_left].
  - split; [now left|]. intros x [<-|[]]. apply Qcle_refl.
  - destruct (IH (Qc_max a b)) as [Hin Hle].
    destruct (Qc_max_spec a b) as [Hab [Ha Hb]].
    split.
    + destruct Hin as [Hin|Hin]; [|right; now right].
      rewrite <- Hin. destruct Hab as [->| ->]; [now left|right; now left].
    + intros x [<-|[<-|Hx]].
      * eapply Qcle_trans; [exact Ha|apply Hle; now left].
      * eapply Qcle_trans; [exact Hb|apply Hle; now left].
      * apply Hle. now right.
Qed.

Lemma py_min_spec (l : list Qc) (m : Qc) :
  py_min l = Ok m -> In m l /\ forall x, In x l -> (m <= x)%Qc.
Proof.
  destruct l as [|a l]; cbn; [discriminate|].
  intros H. injection H as <-. apply fold_min_spec.
Qed.

Lemma py_max_spec (l : list Qc) (m : Qc) :
  py_max l = Ok m -> In m l /\ forall x, In x l -> (x <= m)%Qc.
Proof.
  destruct l as [|a l]; cbn; [discriminate|].
  intros H. injection H as <-. apply fold_max_spec.
Qed.

Lemma rmap_ok {A B} (g : A -> result B) (l : list A) (rs : list B) :
  rmap g l = Ok rs -> Forall2 (fun x r => g x = Ok r) l rs.
Proof.
  revert rs. induction l as [|a l IH]; cbn; intros rs H.
  - injection H as <-. constructor.
  - destruct (g a) as [y|e] eqn:Ha; cbn in H; [|discriminate].
    destruct (rmap g l) as [ys|e]; cbn in H; [|discriminate].
    injection H as <-. constructor; auto.
Qed.

Lemma Forall2_in_l {A B} (R : A -> B -> Prop) (l : list A) (l' : list B) :
  Forall2 R l l' -> forall x, In x l -> exists y, In y l' /\ R x y.
Proof.
  induction 1 as [|a b l l' Hab _ IH]; intros x []; subst.
  - exists b. split; [now left|exact Hab].
  - destruct (IH x H) as [y [Hy Hxy]]. exists y. split; [now right|exact Hxy].
Qed.

Lemma Forall2_in_r {A B} (R : A -> B -> Prop) (l : list A) (l' : list B) :
  Forall2 R l l' -> forall y, In y l' -> exists x, In x l /\ R x y.
Proof.
  induction 1 as [|a b l l' Hab _ IH]; intros y []; subst.
  - exists a. split; [now left|exact Hab].
  - destruct (IH y H) as [x [Hx Hxy]]. exists x. split; [now right|exact Hxy].
Qed.

(** X7.  The time range is the envelope of the files.  When
    [get_time_range] returns, its first value is the smallest START of
    all files and its second the largest STOP, however the files are
    nested in lists. *)
Theorem get_time_range_envelope (f : ft1) (lo hi : Qc) :
  get_time_range f = Ok (lo, hi) ->
  (In lo (all_starts f) /\ forall x, In x (all_starts f) -> (lo <= x)%Qc)
  /\ (In hi (all_stops f) /\ forall x, In x (all_stops f) -> (x <= hi)%Qc).
Proof.
  revert lo hi.
  induction f as [START STOP|files IH] using ft1_nested_ind; intros lo hi H.
  - cbn [get_time_range] in H.
    destruct (py_min START) as [a|e] eqn:Hmin; cbn [rbind] in H; [|discriminate].
    destruct (py_max STOP) as [b|e] eqn:Hmax; cbn [rbind] in H; [|discriminate].
    injection H as -> ->. cbn [all_starts all_stops].
    split; [now apply py_min_spec | now apply py_max_spec].
  - cbn [get_time_range] in H.
    destruct (rmap get_time_range files) as [rs|e] eqn:Hr; cbn [rbind] in H;
      [|discriminate].
    apply rmap_ok in Hr.
    destruct rs as [|r rs]; [discriminate|].
    destruct (py_min (map fst (r :: rs))) as [a|e] eqn:Hmin; cbn [rbind] in H;
      [|discriminate].
    destruct (py_max (map snd (r :: rs))) as [b|e] eqn:Hmax; cbn [rbind] in H;
      [|discriminate].
    injection H as -> ->.
    apply py_min_spec in Hmin. apply py_max_spec in Hmax.
    destruct Hmin as [Hin Hle]. destruct Hmax as [Hin' Hge].
    cbn [all_starts all_stops].
    assert (Hsub : forall r', In r' (r :: rs) ->
              exists f', In f' files /\ get_time_range f' = Ok r')
      by (intros r'; apply (Forall2_in_r Hr)).
    assert (Hrev : forall f', In f' files ->
              exists r', In r' (r :: rs) /\ get_time_range f' = Ok r')
      by (intros f'; apply (Forall2_in_l Hr)).
    rewrite Forall_forall in IH.
    split; split.
    + apply in_map_iff in Hin. destruct Hin as [[a' b'] [Ha Hr']].
      cbn in Ha. subst a'.
      destruct (Hsub (lo, b') Hr') as [f' [Hf' Hg]].
      apply in_flat_map. exists f'. split; [exact Hf'|].
      apply (IH f' Hf' lo b' Hg).
    + intros x Hx. apply in_flat_map in Hx. destruct Hx as [f' [Hf' Hx]].
      destruct (Hrev f' Hf') as [[a' b'] [Hr' Hg]].
      eapply Qcle_trans; [apply (Hle a'); apply in_map_iff; exists (a', b'); auto|].
      apply (IH f' Hf' a' b' Hg). exact Hx.
    + apply in_map_iff in Hin'. destruct Hin' as [[a' b'] [Hb Hr']].
      cbn in Hb. subst b'.
      destruct (Hsub (a', hi) Hr') as [f' [Hf' Hg]].
      apply in_flat_map. exists f'. split; [exact Hf'|].
      apply (IH f' Hf' a' hi Hg).
    + intros x Hx. apply in_flat_map in Hx. destruct Hx as [f' [Hf' Hx]].
      destruct (Hrev f' Hf') as [[a' b'] [Hr' Hg]].
      eapply Qcle_trans; [apply (IH f' Hf' a' b' Hg); exact Hx|].
      apply (Hge b'). apply in_map_iff. exists (a', b'). auto.
Qed.

Lemma get_time_range_envelope_witness :
  (In (Qc_of_Z 0) (all_starts (ft1files Demo.data))
   /\ forall x, In x (all_starts (ft1files Demo.data)) -> (Qc_of_Z 0 <= x)%Qc)
  /\ (In (Qc_of_Z 100) (all_stops (ft1files Demo.data))
      /\ forall x, In x (all_stops (ft1files Demo.data)) -> (x <= Qc_of_Z 100)%Qc).
Proof.
  apply (@get_time_range_envelope (ft1files Demo.data) (Qc_of_Z 0) (Qc_of_Z 100)).
  reflexivity.
Defined.

Lemma rmap_is_ok {A B} (g : A -> result B) (l : list A) :
  is_ok (rmap g l) = forallb (fun x => is_ok (g x)) l.
Proof.
  induction l as [|a l IH]; cbn; [reflexivity|].
  destruct (g a); cbn; [|reflexivity].
  rewrite <- IH. destruct (rmap g l); reflexivity.
Qed.

Lemma get_time_range_is_ok (f : ft1) :
  is_ok (get_time_range f) = ft1_complete f.
Proof.
  induction f as [START STOP|files IH] using ft1_nested_ind.
  - destruct START, STOP; reflexivity.
  - cbn [get_time_range ft1_complete].
    assert (Hall : forallb (fun x => is_ok (get_time_range x)) files
                   = forallb ft1_complete files).
    { clear -IH. induction IH as [|f fs Hf _ IHfs]; cbn; [reflexivity|].
      now rewrite Hf, IHfs. }
    rewrite <- Hall, <- rmap_is_ok.
    destruct (rmap get_time_range files) as [rs|e] eqn:Hr; cbn [rbind is_ok].
    + apply rmap_ok in Hr.
      destruct Hr as [|f r fs rs Hf Hr]; [reflexivity|]. reflexivity.
    + now rewrite Bool.andb_false_r.
Qed.

(** X8.  The time range cannot be read from an empty table or an empty
    list of files.  [get_time_range] returns exactly when no START or
    STOP column and no list of files is empty, and otherwise raises
    ValueError, the only exception it raises. *)
Theorem get_time_range_fails_on_empty (f : ft1) :
  if ft1_complete f
  then exists r, get_time_range f = Ok r
  else exists msg, get_time_range f = Raise (ValueError msg).
Proof.
  pose proof (get_time_range_is_ok f) as H.
  destruct (get_time_range f) as [r|e] eqn:Hg; cbn in H; rewrite <- H.
  - eauto.
  - destruct (get_time_range_raises f Hg) as [msg ->]. eauto.
Qed.

Lemma astype_int_Z (q : Qc) :
  let n := Qnum q in
  let d := Zpos (Qden q) in
  ((0 <= n -> astype_int q * d <= n < (astype_int q + 1) * d)
   /\ (n <= 0 -> (astype_int q - 1) * d < n <= astype_int q * d))%Z.
Proof.
  intros n d. unfold astype_int. fold n. fold d.
  assert (Hd : (0 < d)%Z) by (unfold d; lia).
  pose proof (Z.quot_rem' n d) as Hqr.
  split; intros Hn.
  - pose proof (Z.rem_bound_pos n d Hn Hd). nia.
  - pose proof (Z.rem_nonpos n d ltac:(lia) Hn).
    pose proof (Z.rem_bound_abs n d ltac:(lia)). nia.
Qed.

(** Truncation is towards zero and loses less than one second. *)
Lemma astype_int_towards_zero (q : Qc) :
  ((0 <= q)%Qc ->
     (Qc_of_Z (astype_int q) <= q)%Qc /\ (q < Qc_of_Z (astype_int q) + 1)%Qc)
  /\ ((q <= 0)%Qc ->
        (q <= Qc_of_Z (astype_int q))%Qc /\ (Qc_of_Z (astype_int q) - 1 < q)%Qc).
Proof.
  pose proof (astype_int_Z q) as [Hpos Hneg].
  set (t := astype_int q) in *.
  split; intros Hq.
  - assert (Hn : (0 <= Qnum q)%Z).
    { unfold Qcle, Qle in Hq. cbn in Hq. lia. }
    specialize (Hpos Hn). to_Q. rewrite !this_Qc_of_Z.
    destruct q as [[n d] Hc]. cbn [this Qnum Qden] in *.
    unfold Qle, Qlt, Qplus, inject_Z. cbn [Qnum Qden]. split; nia.
  - assert (Hn : (Qnum q <= 0)%Z).
    { unfold Qcle, Qle in Hq. cbn in Hq. lia. }
    specialize (Hneg Hn). to_Q. rewrite !this_Qc_of_Z.
    destruct q as [[n d] Hc]. cbn [this Qnum Qden] in *.
    unfold Qle, Qlt, Qminus, Qplus, Qopp, inject_Z. cbn [Qnum Qden]. split; nia.
Qed.

(** X9.  Explicit bins are taken as given.  With [tstarts] and [tstops]
    supplied and no [nbins], the set-up stores the two sequences in the
    caller's order, each value truncated towards zero to a whole second,
    and sets [nbins] to their common length; it neither sorts them nor
    asks them to be contiguous.  Sequences of different lengths fail the
    assertion, after the time range has been stored. *)
Theorem explicit_time_bins
    (self : state) (ts te : list Qc) (r : Qc * Qc) :
  nbins (opts self) = None ->
  tstarts (opts self) = Some ts ->
  tstops (opts self) = Some te ->
  get_time_range (ft1files (m_data (roi self))) = Ok r ->
  (List.length ts = List.length te ->
     exists s',
       _setup_time_bins self = (Ok tt, s')
       /\ time s' = Some (map astype_int ts, map astype_int te)
       /\ nbins (opts s') = Some (Z.of_nat (List.length ts))
       /\ roi s' = roi self
       /\ forall q, In q (ts ++ te) ->
            ((0 <= q)%Qc ->
               (Qc_of_Z (astype_int q) <= q)%Qc
               /\ (q < Qc_of_Z (astype_int q) + 1)%Qc)
            /\ ((q <= 0)%Qc ->
                  (q <= Qc_of_Z (astype_int q))%Qc
                  /\ (Qc_of_Z (astype_int q) - 1 < q)%Qc))
  /\ (List.length ts <> List.length te ->
        _setup_time_bins self
        = (Raise AssertionError, set_time_range (Some r) self)).
Proof.
  intros Hn Hs He Hr.
  unfold _setup_time_bins, bind, get, lift, update, ret, raise.
  rewrite Hn, Hs, He, Hr. destruct r as [e l]. cbn [is_none is_some negb andb orb].
  split.
  - intros Hlen. rewrite Hlen, Nat.eqb_refl.
    eexists. split; [reflexivity|]. cbn [time set_time opts set_opts nbins set_nbins roi set_time_range].
    do 3 (split; [reflexivity|]).
    intros q _. apply astype_int_towards_zero.
  - intros Hlen. apply Nat.eqb_neq in Hlen. rewrite Hlen. reflexivity.
Qed.

Lemma explicit_time_bins_witness :
  exists s',
    _setup_time_bins
      (new_tester Demo.roi0 "crab" Demo.explicit)
    = (Ok tt, s')
    /\ time s' = Some ([50; 0; -1]%Z, [99; 10; 0]%Z).
Proof.
  destruct (@explicit_time_bins
              (new_tester Demo.roi0 "crab" Demo.explicit)
              [Q2Qc (101 # 2); Qc_of_Z 0; Q2Qc (- 3 # 2)]
              [Q2Qc (199 # 2); Q2Qc (21 # 2); Q2Qc (- 1 # 2)]
              (Qc_of_Z 0, Qc_of_Z 100) eq_refl eq_refl eq_refl eq_refl)
    as [Hok _].
  destruct (Hok eq_refl) as [s' [Hrun [Htime _]]].
  exists s'. split; [exact Hrun|]. rewrite Htime. vm_compute. reflexivity.
Defined.

(** X10.  Evenly spaced bins are equal to within a second and the
    rounding of the arithmetic.  For double-precision times and at most
    [2^53] bins, every bin
    of the uniform partition lasts [(latest - earliest)/nbins] up to the
    rounding of its two edges to whole seconds, one second in all, and
    the error [float_error] of the double-precision value of each
    edge. *)
Theorem uniform_bins_equal_width (e l : Qc) (n : Z) (k : nat) :
  (1 <= n)%Z -> (n <= 2 ^ 53)%Z -> (k < Z.to_nat n)%nat -> (e <= l)%Qc ->
  binary64_time e -> binary64_time l ->
  let starts := fst (uniform_bins e l n) in
  let stops := snd (uniform_bins e l n) in
  let width := Qc_of_Z (nth k stops 0%Z - nth k starts 0%Z) in
  (width <= (l - e) / Qc_of_Z n + 1 + (float_error e l n + float_error e l n))%Qc
  /\ ((l - e) / Qc_of_Z n - 1 - (float_error e l n + float_error e l n)
      <= width)%Qc.
Proof.
  intros Hn Hn2 Hk Hel _ _ starts stops width.
  destruct (uniform_bins_facts e l Hn) as (_ & _ & Hnth).
  destruct (Hnth k Hk) as [Hs Ht].
  unfold width, starts, stops. rewrite Hs, Ht.
  rewrite !bin_edges_nth by (assumption || lia).
  pose proof (@linspace_point_error e l n k Hn Hn2 ltac:(lia) Hel) as E0.
  pose proof (@linspace_point_error e l n (S k) Hn Hn2 ltac:(lia) Hel) as E1.
  set (y0 := linspace_point e l n (Z.of_nat k)) in *.
  set (y1 := linspace_point e l n (Z.of_nat (S k))) in *.
  set (x0 := even_point e l n (Z.of_nat k)) in *.
  set (x1 := even_point e l n (Z.of_nat (S k))) in *.
  set (fe := float_error e l n) in *.
  destruct (np_round_half y0) as [H0a H0b].
  destruct (np_round_half y1) as [H1a H1b].
  assert (Hn0 : Qc_of_Z n <> 0%Qc) by (apply Qc_of_Z_nonzero; lia).
  assert (Hstep : (x1 - x0)%Qc = ((l - e) / Qc_of_Z n)%Qc).
  { unfold x0, x1, even_point.
    replace (Qc_of_Z (Z.of_nat (S k))) with (Qc_of_Z (Z.of_nat k) + 1)%Qc.
    - field. exact Hn0.
    - apply Qc_is_canon. rewrite this_plus, !this_Qc_of_Z, Nat2Z.inj_succ.
      unfold Z.succ. rewrite inject_Z_plus. reflexivity. }
  rewrite <- Hstep.
  assert (Hw : (this (Qc_of_Z (np_round y1 - np_round y0))
                == inject_Z (np_round y1) - inject_Z (np_round y0))%Q).
  { rewrite this_Qc_of_Z. unfold Z.sub.
    rewrite inject_Z_plus, inject_Z_opp. reflexivity. }
  unfold Qcle in E0, E1. rewrite this_Qcabs, this_minus in E0, E1.
  apply abs_bounds in E0. apply abs_bounds in E1.
  destruct E0 as [E0a E0b]. destruct E1 as [E1a E1b].
  to_Q. rewrite !this_Qc_of_Z in *. rewrite Hw.
  split; lra.
Qed.

Lemma uniform_bins_equal_width_witness :
  (Qc_of_Z (nth 1 (snd (uniform_bins (Qc_of_Z 0) (Qc_of_Z 100) 3)) 0%Z
            - nth 1 (fst (uniform_bins (Qc_of_Z 0) (Qc_of_Z 100) 3)) 0%Z)
   <= (Qc_of_Z 100 - Qc_of_Z 0) / Qc_of_Z 3 + 1
      + (float_error (Qc_of_Z 0) (Qc_of_Z 100) 3
         + float_error (Qc_of_Z 0) (Qc_of_Z 100) 3))%Qc
  /\ ((Qc_of_Z 100 - Qc_of_Z 0) / Qc_of_Z 3 - 1
      - (float_error (Qc_of_Z 0) (Qc_of_Z 100) 3
         + float_error (Qc_of_Z 0) (Qc_of_Z 100) 3)
      <= Qc_of_Z (nth 1 (snd (uniform_bins (Qc_of_Z 0) (Qc_of_Z 100) 3)) 0%Z
                  - nth 1 (fst (uniform_bins (Qc_of_Z 0) (Qc_of_Z 100) 3)) 0%Z))%Qc.
Proof.
  apply (@uniform_bins_equal_width (Qc_of_Z 0) (Qc_of_Z 100) 3 1).
  - lia.
  - vm_compute. discriminate.
  - lia.
  - unfold Qcle. vm_compute. discriminate.
  - apply binary64_time_Z; [reflexivity|vm_compute; discriminate].
  - apply binary64_time_Z;
      [apply Qc_is_canon; vm_compute; reflexivity|vm_compute; discriminate].
Defined.

(** * Further properties of a run *)

Lemma bind_raise {A B} (c : M A) (k : A -> M B) (s s' : state) (e : exn) :
  bind c k s = (Raise e, s') ->
  c s = (Raise e, s')
  \/ exists a s1, c s = (Ok a, s1) /\ k a s1 = (Raise e, s').
Proof.
  unfold bind. destruct (c s) as [[a|e'] s1]; [eauto|].
  intros H. injection H as <- <-. now left.
Qed.

Lemma preserves_bind_val {A B} (I : state -> Prop) (V : A -> Prop)
    (c : M A) (k : A -> M B) :
  (forall s a s', c s = (Ok a, s') -> V a) ->
  preserves I c ->
  (forall a, V a -> preserves I (k a)) ->
  preserves I (bind c k).
Proof.
  intros Hv Hc Hk s H. unfold bind.
  specialize (Hc s H). destruct (c s) as [[a|e] s1] eqn:Hcs; cbn in *.
  - apply (Hk a); [eapply Hv; eassumption|exact Hc].
  - exact Hc.
Qed.

Lemma preserves_for_in {A} (I : state -> Prop) (l : list A) (body : A -> M unit) :
  (forall x, In x l -> preserves I (body x)) -> preserves I (for_ l body).
Proof.
  induction l as [|x l IH]; intros Hb; cbn [for_].
  - apply preserves_ret.
  - apply preserves_bind; [apply Hb; now left|].
    intros _. apply IH. intros y Hy. apply Hb. now right.
Qed.

Section ReportFacts.

Context {E : Engine}.

Lemma time_cut_run (r : model) (a b : Z) (s : state) :
  snd (time_cut r a b s) = s
  /\ forall m, fst (time_cut r a b s) = Ok m -> m = time_cut_roi r a b.
Proof.
  unfold time_cut, bind, raise, ret.
  destruct (negb (sa_tstart (m_data r) =? 0)%Z || negb (sa_tstop (m_data r) =? 0)%Z)%bool;
    [split; [reflexivity|discriminate]|].
  destruct (1 <? List.length (ft2files (m_data r)))%nat;
    [split; [reflexivity|discriminate]|].
  destruct (ft2files (m_data r)) eqn:Hf; cbn; split; try reflexivity;
    try discriminate.
  intros m H. injection H as <-. unfold time_cut_roi. now rewrite Hf.
Qed.

Lemma compute_TS_var_state (t : backend) (s : state) :
  snd (compute_TS_var t s) = s.
Proof. reflexivity. Qed.

Lemma preserves_get_then {A} (I : state -> Prop) (k : state -> M A) :
  (forall s0, I s0 -> I (snd (k s0 s0))) -> preserves I (bind get k).
Proof. intros Hk s H. rewrite bind_get. apply Hk, H. Qed.

(** The tail of [_test_variability]: what the all-time fit establishes
    survives to the end if the loop over the bins keeps it. *)
Lemma test_variability_from (I : state -> Prop) (s : state) :
  (forall s v, I s -> I (set_all_time v s)) ->
  (forall s v, I s -> I (set_bands v s)) ->
  (forall s v, I s -> I (set_TS_var v s)) ->
  (forall s1 se, I s1 -> time s1 = Some se ->
                 I (snd (for_ (combine (fst se) (snd se)) one_bin s1))) ->
  I (snd (all_time_fit s)) ->
  I (snd (_test_variability s)).
Proof.
  intros Hall Hbands HTS Hloop H0.
  unfold _test_variability.
  apply bind_from; [exact H0|]. intros a.
  apply preserves_bind; [apply preserves_update; intros s1 H1; now apply Hall|].
  intros _.
  apply preserves_bind; [apply preserves_update; intros s1 H1; now apply Hbands|].
  intros _.
  apply preserves_get_then. intros s1 H1.
  destruct (time s1) as [se|] eqn:Hse; [|exact H1].
  change (I (snd ((for_ (combine (fst se) (snd se)) one_bin ;;
                   tp <- compute_TS_var pointlike ;;
                   update (set_TS_var (Some (tp, None))) ;;
                   (if do_gtlike (opts s1)
                    then tg <- compute_TS_var gtlike ;;
                         update (set_TS_var (Some (tp, Some tg)))
                    else ret tt)) s1))).
  apply bind_from; [now apply Hloop|]. intros _.
  apply preserves_bind; [intros s2 H2; exact H2|]. intros tp.
  apply preserves_bind; [apply preserves_update; intros s2 H2; now apply HTS|].
  intros _.
  destruct (do_gtlike (opts s1)); [|apply preserves_ret].
  apply preserves_bind; [intros s2 H2; exact H2|]. intros tg.
  apply preserves_update. intros s2 H2. now apply HTS.
Qed.

Variables (roi0 : model) (o : options) (name0 : string) (bins : list (Z * Z)).

Let LI := loop_invariant roi0 o name0 bins.

Lemma li_log (s : state) (evs : list event) :
  LI s -> Forall (call_ok roi0 o name0 bins) evs ->
  LI (set_log (log s ++ evs) s).
Proof.
  intros (Hn & Ho & Hg & Hr & Hlog) Hevs.
  repeat (split; [assumption|]). cbn. apply Forall_app. split; assumption.
Qed.

Lemma li_pointlike (t : Z * Z) (a b : Z) :
  In t bins ->
  preserves LI
    (each_time_fit_pointlike
       (time_cut_roi (after_fit pointlike roi0) (fst t) (snd t)) a b).
Proof.
  intros Hin s Hs.
  set (sroi := time_cut_roi (after_fit pointlike roi0) (fst t) (snd t)).
  assert (Hcases : refit_background (opts s) = true \/ get_background sroi = []
                   \/ (refit_background (opts s) = false
                       /\ get_background sroi <> [])).
  { destruct (refit_background (opts s)); [now left|].
    destruct (get_background sroi); [right; now left|].
    right; right. split; [reflexivity|discriminate]. }
  destruct Hcases as [Hbg|[Hbg|[Hbg Hne]]].
  - rewrite each_time_fit_pointlike_run by (now left). cbn [snd].
    apply li_log; [exact Hs|].
    destruct Hs as (Hn & Ho & _).
    unfold bin_events. apply Forall_app. split.
    + constructor; [|constructor; [exact I|constructor]].
      exists t. split; [exact Hin|].
      unfold pointlike_first_input. now rewrite Hn, Ho.
    + destruct (wants_upper_limit _ _); repeat constructor.
  - rewrite each_time_fit_pointlike_run by (now right). cbn [snd].
    apply li_log; [exact Hs|].
    destruct Hs as (Hn & Ho & _).
    unfold bin_events. apply Forall_app. split.
    + constructor; [|constructor; [exact I|constructor]].
      exists t. split; [exact Hin|].
      unfold pointlike_first_input. now rewrite Hn, Ho.
    + destruct (wants_upper_limit _ _); repeat constructor.
  - rewrite each_time_fit_pointlike_name_error by assumption. exact Hs.
Qed.

Lemma li_gtlike (m : model) (a b : Z) :
  do_gtlike o = true -> preserves LI (each_time_fit_gtlike m a b).
Proof.
  intros Hg s Hs.
  destruct (best_gtlike_state s) as [best|] eqn:Hbest.
  - rewrite (each_time_fit_gtlike_run _ _ _ _ Hbest). cbn [snd].
    apply li_log; [exact Hs|].
    unfold bin_events. apply Forall_app. split.
    + repeat constructor; exact Hg.
    + destruct (wants_upper_limit _ _); repeat constructor. exact Hg.
  - rewrite each_time_fit_gtlike_unset by exact Hbest. exact Hs.
Qed.

Lemma li_one_bin (t : Z * Z) : In t bins -> preserves LI (one_bin t).
Proof.
  intros Hin s Hs. destruct t as [a b]. unfold one_bin. rewrite bind_get.
  apply bind_from; [exact Hs|]. intros _.
  apply (@preserves_bind_val _ _ LI (fun m => m = time_cut_roi (roi s) a b)).
  - intros s1 m s1' H. apply (proj2 (time_cut_run (roi s) a b s1)).
    now rewrite H.
  - intros s1 H1. now rewrite (proj1 (time_cut_run (roi s) a b s1)).
  - intros sroi ->.
    assert (Hroi : roi s = after_fit pointlike roi0) by apply Hs.
    rewrite Hroi.
    apply preserves_bind; [apply (li_pointlike (a, b) a b Hin)|].
    intros [r m].
    apply preserves_bind; [apply preserves_update; intros s1 H1; exact H1|].
    intros _.
    destruct (do_gtlike (opts s)) eqn:Hg; [|apply preserves_ret].
    apply preserves_bind.
    + apply li_gtlike. destruct Hs as (_ & _ & Hgo & _). congruence.
    + intros r'. apply preserves_update. intros s1 H1. exact H1.
Qed.

Lemma li_all_time_fit (s : state) :
  name s = name0 ->
  refit_other_sources (opts s) = refit_other_sources o ->
  do_gtlike (opts s) = do_gtlike o ->
  roi s = roi0 -> log s = [] ->
  LI (snd (all_time_fit s)).
Proof.
  intros Hn Ho Hg Hr Hl. rewrite all_time_fit_run, Hr, Hl.
  destruct (do_gtlike (opts s)) eqn:Hd; unfold LI, loop_invariant;
    cbn [name opts roi log set_best_gtlike_state set_log set_roi app].
  - do 4 (split; [first [assumption | reflexivity | congruence]|]).
    constructor; [reflexivity|]. constructor; [cbn; congruence|constructor].
  - do 4 (split; [first [assumption | reflexivity | congruence]|]).
    constructor; [reflexivity|constructor].
Qed.

End ReportFacts.

Lemma preserves_and {A} (I J : state -> Prop) (c : M A) :
  preserves I c -> preserves J c -> preserves (fun s => I s /\ J s) c.
Proof. intros HI HJ s [H1 H2]. split; [now apply HI | now apply HJ]. Qed.

(** What the per-bin code writes: the log and the bands, nothing else. *)
Section Frame.

Context {E : Engine}.
Variable I : state -> Prop.
Hypothesis Hlog : forall s l, I s -> I (set_log l s).
Hypothesis Hbands : forall s v, I s -> I (set_bands v s).

Lemma frame_emit (e : event) : preserves I (emit e).
Proof. apply preserves_update. intros s Hs. now apply Hlog. Qed.

Lemma frame_run_fit (b : backend) (st : stage) (m : model) :
  preserves I (run_fit b st m).
Proof.
  unfold run_fit.
  apply preserves_bind; [apply frame_emit | intros _; apply preserves_ret].
Qed.

Lemma frame_time_cut (r : model) (a b : Z) : preserves I (time_cut r a b).
Proof.
  intros s Hs. now rewrite (proj1 (time_cut_run r a b s)).
Qed.

Lemma frame_pointlike (m : model) (a b : Z) :
  preserves I (each_time_fit_pointlike m a b).
Proof.
  unfold each_time_fit_pointlike.
  apply preserves_bind; [apply preserves_get|]. intros self.
  apply preserves_bind.
  { destruct (negb (refit_background (opts self))); [|apply preserves_ret].
    apply preserves_for. intros x. unfold load_name.
    destruct (existsb _ _); [apply preserves_ret|apply preserves_raise]. }
  intros _.
  apply preserves_bind; [apply frame_run_fit|]. intros m1.
  apply preserves_bind; [apply frame_run_fit|]. intros m2.
  apply preserves_bind; [|intros ul; apply preserves_ret].
  destruct (_ || _)%bool; [|apply preserves_ret].
  apply preserves_bind; [apply frame_emit | intros _; apply preserves_ret].
Qed.

Lemma frame_gtlike (m : model) (a b : Z) :
  preserves I (each_time_fit_gtlike m a b).
Proof.
  intros s Hs.
  destruct (best_gtlike_state s) as [best|] eqn:Hbest.
  - rewrite (each_time_fit_gtlike_run _ _ _ _ Hbest). cbn [snd]. now apply Hlog.
  - rewrite each_time_fit_gtlike_unset by exact Hbest. exact Hs.
Qed.

Lemma frame_one_bin (t : Z * Z) : preserves I (one_bin t).
Proof.
  unfold one_bin. destruct t as [a b].
  apply preserves_bind; [apply preserves_get|]. intros self.
  apply preserves_bind; [apply preserves_update; intros s Hs; now apply Hbands|].
  intros _.
  apply preserves_bind; [apply frame_time_cut|]. intros smaller_roi.
  apply preserves_bind; [apply frame_pointlike|]. intros [r m].
  apply preserves_bind; [apply preserves_update; intros s Hs; now apply Hbands|].
  intros _.
  destruct (do_gtlike (opts self)); [|apply preserves_ret].
  apply preserves_bind; [apply frame_gtlike|]. intros r'.
  apply preserves_update. intros s Hs. now apply Hbands.
Qed.

End Frame.

Section RunCalls.

Context {E : Engine}.
Variables (roi0 : model) (o : options) (name0 : string).

Lemma setup_facts_kept :
  preserves (setup_facts roi0 o name0) (_setup_savedir ;; _setup_time_bins).
Proof.
  apply preserves_bind.
  - intros s Hs. exact Hs.
  - intros _. apply setup_time_bins_preserves; intros s v Hs; exact Hs.
Qed.

Lemma all_time_fit_time (s : state) : time (snd (all_time_fit s)) = time s.
Proof. rewrite all_time_fit_run. destruct (do_gtlike (opts s)); reflexivity. Qed.

(** From the all-time fit on, in runs that return and in runs that
    raise, the loop invariant holds and the bins are not rewritten. *)
Lemma loop_invariant_reached (s : state) :
  setup_facts roi0 o name0 s ->
  loop_invariant roi0 o name0 (bins_of (time s)) (snd (_test_variability s))
  /\ time (snd (_test_variability s)) = time s.
Proof.
  intros (Hn & Ho & Hg & Hr & Hl).
  apply (@test_variability_from E
           (fun s1 => loop_invariant roi0 o name0 (bins_of (time s)) s1
                      /\ time s1 = time s)).
  - intros s1 v H1. exact H1.
  - intros s1 v H1. exact H1.
  - intros s1 v H1. exact H1.
  - intros s1 se [H1 Ht] Hse.
    apply (@preserves_for_in _
             (fun s1 => loop_invariant roi0 o name0 (bins_of (time s)) s1
                        /\ time s1 = time s)); [|now split].
    intros t Hin. apply preserves_and.
    + apply li_one_bin. rewrite <- Ht, Hse. exact Hin.
    + apply frame_one_bin; intros s2 v H2; exact H2.
  - split; [now apply li_all_time_fit | apply all_time_fit_time].
Qed.

(** Every call recorded in a run, whether it returns or raises. *)
Lemma calls_of_a_run :
  Forall (call_ok roi0 o name0 (bins_of (time (snd (construct roi0 name0 o)))))
    (log (snd (construct roi0 name0 o))).
Proof.
  unfold construct, __init__.
  set (K := fun s => Forall (call_ok roi0 o name0 (bins_of (time s))) (log s)).
  change (K (snd ((_setup_savedir ;; _setup_time_bins ;; self <- get ;;
                   (let saved_state := snapshot (roi self) in
                    _test_variability ;;
                    update (fun s => set_roi (restore saved_state (roi s)) s)))
                    (new_tester roi0 name0 o)))).
  assert (HJK : forall s, setup_facts roi0 o name0 s -> K s).
  { intros s (_ & _ & _ & _ & Hl). unfold K. rewrite Hl. constructor. }
  apply (@bind_weaken _ _ (setup_facts roi0 o name0));
    [repeat split | | exact HJK].
  intros _ s1 H1.
  apply (@bind_weaken _ _ (setup_facts roi0 o name0));
    [ apply (@setup_time_bins_preserves (setup_facts roi0 o name0));
      [intros s v Hs; exact Hs ..| exact H1]
    | | exact HJK].
  intros _ s2 H2. rewrite bind_get.
  apply (@bind_weaken _ _
           (fun s => loop_invariant roi0 o name0 (bins_of (time s2)) s
                     /\ time s = time s2)).
  - now apply loop_invariant_reached.
  - intros _ s3 [(_ & _ & _ & _ & Hlog) Ht]. unfold K. cbn [snd update].
    cbn [log time set_roi]. now rewrite Ht.
  - intros s3 [(_ & _ & _ & _ & Hlog) Ht]. unfold K. now rewrite Ht.
Qed.

End RunCalls.

(** ** Where the per-bin pointlike fits start *)

Lemma fold_modify_data (names : list string) (m : model) :
  m_data (fold_left modify names m) = m_data m.
Proof.
  revert m. induction names as [|a names IH]; intros m; [reflexivity|].
  cbn. now rewrite IH.
Qed.

Lemma pointlike_first_input_facts {E : Engine} (o : options) (n : string)
    (m : model) :
  m_data (pointlike_first_input o n m) = m_data m
  /\ param_values (m_sources (pointlike_first_input o n m))
     = param_values (m_sources m)
  /\ frozen_in (pointlike_first_input o n m) n.
Proof.
  unfold pointlike_first_input. split; [|split].
  - cbn [modify with_sources m_data].
    destruct (negb (refit_other_sources o)); [apply fold_modify_data|reflexivity].
  - rewrite modify_values.
    destruct (negb (refit_other_sources o)); [apply fold_modify_values|reflexivity].
  - apply modify_frozen.
Qed.

(** X11.  In every run, returning or raising, each first pointlike fit of
    a bin is made on an ROI cut to one of the time bins of the run, whose
    parameter values are those the all-time pointlike fit left in the
    caller's ROI, with the source of interest frozen: no bin starts from
    the result of an earlier bin. *)
Theorem pointlike_bins_start_from_all_time_fit
    {E : Engine} (roi0 : model) (name0 : string) (o : options) (m : model) :
  In (EvFit pointlike BinFrozen m) (log (snd (construct roi0 name0 o))) ->
  exists t,
    In t (bins_of (time (snd (construct roi0 name0 o))))
    /\ selection (m_data m) = Some t
    /\ param_values (m_sources m) = param_values (fit pointlike roi0)
    /\ frozen_in m name0.
Proof.
  intros Hm.
  pose proof (calls_of_a_run roi0 o name0) as Hlog.
  rewrite Forall_forall in Hlog. specialize (Hlog _ Hm). cbn in Hlog.
  destruct Hlog as (t & Hin & ->). exists t.
  destruct (pointlike_first_input_facts o name0
              (time_cut_roi (after_fit pointlike roi0) (fst t) (snd t)))
    as (Hd & Hv & Hf).
  split; [exact Hin|]. rewrite Hd, Hv.
  repeat split; [now destruct t | exact Hf].
Qed.

Lemma in_frozen_pointlike_fits (l : list event) (m : model) :
  In m (frozen_pointlike_fits l) -> In (EvFit pointlike BinFrozen m) l.
Proof.
  unfold frozen_pointlike_fits. intros H. apply in_flat_map in H.
  destruct H as [e [He Hm]].
  destruct e as [[|] [| |] m'|]; cbn in Hm; try contradiction.
  destruct Hm as [->|[]]. exact He.
Qed.

Lemma pointlike_bins_start_from_all_time_fit_witness :
  List.length
    (frozen_pointlike_fits
       (log (snd (construct (E:=Demo.engine) Demo.roi0 "crab"
                    Demo.pointlike_only))))
  = 3%nat
  /\ param_values
       (m_sources
          (nth 2
             (frozen_pointlike_fits
                (log (snd (construct (E:=Demo.engine) Demo.roi0 "crab"
                             Demo.pointlike_only))))
             Demo.roi0))
     = param_values (fit (Engine:=Demo.engine) pointlike Demo.roi0).
Proof.
  split; [vm_compute; reflexivity|].
  destruct (@pointlike_bins_start_from_all_time_fit Demo.engine Demo.roi0
              "crab" Demo.pointlike_only
              (nth 2
                 (frozen_pointlike_fits
                    (log (snd (construct (E:=Demo.engine) Demo.roi0 "crab"
                                 Demo.pointlike_only))))
                 Demo.roi0))
    as (t & _ & _ & Hv & _).
  - apply in_frozen_pointlike_fits. vm_compute. right. right. left. reflexivity.
  - exact Hv.
Defined.

(** ** Runs without gtlike *)

(** X12.  With [do_gtlike] off, no run makes a gtlike call: no gtlike
    fit and no gtlike upper limit, in the all-time analysis or in a bin. *)
Theorem no_gtlike_call_when_disabled
    {E : Engine} (roi0 : model) (name0 : string) (o : options) :
  do_gtlike o = false ->
  Forall (fun e => is_gtlike_event e = false)
    (log (snd (construct roi0 name0 o))).
Proof.
  intros Hg.
  pose proof (calls_of_a_run roi0 o name0) as Hlog.
  eapply Forall_impl; [|exact Hlog].
  intros [[|] st m|[|] cl]; cbn; intros H; try reflexivity.
  - congruence.
  - destruct H. congruence.
Qed.

Lemma no_gtlike_call_when_disabled_witness :
  log (snd (construct (E:=Demo.engine) Demo.roi0 "crab" Demo.pointlike_only))
  <> []
  /\ Forall (fun e => is_gtlike_event e = false)
       (log (snd (construct (E:=Demo.engine) Demo.roi0 "crab"
                    Demo.pointlike_only))).
Proof.
  split; [vm_compute; discriminate|].
  apply (@no_gtlike_call_when_disabled Demo.engine Demo.roi0 "crab"
           Demo.pointlike_only).
  reflexivity.
Defined.

(** ** The caller's ROI after a run that raises *)

Lemma raised {A} (c : result A * state) (e : exn) :
  fst c = Raise e -> c = (Raise e, snd c).
Proof. destruct c as [r s]. cbn. now intros ->. Qed.

(** X13.  When the constructor raises, the saved state is not written
    back: either the set-up raised, and then no fit was made and the
    caller's ROI is untouched, or the caller's ROI is left with the
    parameters of the all-time pointlike fit. *)
Theorem roi_not_restored_when_run_raises
    {E : Engine} (roi0 : model) (name0 : string) (o : options)
    (e : exn) (s' : state) :
  construct roi0 name0 o = (Raise e, s') ->
  (log s' = [] /\ roi s' = roi0)
  \/ roi s' = with_sources roi0 (fit pointlike roi0).
Proof.
  intros Hrun. unfold construct, __init__ in Hrun.
  assert (H0 : setup_facts roi0 o name0 (new_tester roi0 name0 o))
    by (repeat split).
  apply bind_raise in Hrun. destruct Hrun as [Hrun|([] & s1 & H1 & Hrun)].
  { discriminate Hrun. }
  assert (Hs1 : setup_facts roi0 o name0 s1).
  { injection H1 as <-. exact H0. }
  pose proof (@setup_time_bins_preserves (setup_facts roi0 o name0)
                (fun s v Hs => Hs) (fun s v Hs => Hs) (fun s v Hs => Hs)
                s1 Hs1) as Hs2.
  apply bind_raise in Hrun. destruct Hrun as [Hrun|([] & s2 & H2 & Hrun)].
  { rewrite Hrun in Hs2. cbn [snd] in Hs2.
    destruct Hs2 as (_ & _ & _ & Hr & Hl). left. now split. }
  rewrite H2 in Hs2. cbn [snd] in Hs2.
  rewrite bind_get in Hrun.
  apply bind_raise in Hrun. destruct Hrun as [Hrun|([] & s3 & H3 & Hrun)].
  - right.
    destruct (@loop_invariant_reached _ roi0 o name0 s2 Hs2)
      as [(_ & _ & _ & Hr & _) _].
    rewrite Hrun in Hr. exact Hr.
  - discriminate Hrun.
Qed.

Lemma roi_not_restored_when_run_raises_witness :
  roi (snd (construct (E:=Demo.engine) Demo.roi0 "crab" Demo.fixed_background))
  = with_sources Demo.roi0 (fit (Engine:=Demo.engine) pointlike Demo.roi0)
  /\ roi (snd (construct (E:=Demo.engine) Demo.roi0 "crab"
                 Demo.fixed_background))
     <> Demo.roi0.
Proof.
  split; [|vm_compute; discriminate].
  destruct (@roi_not_restored_when_run_raises Demo.engine Demo.roi0 "crab"
              Demo.fixed_background (NameError "roi")
              (snd (construct (E:=Demo.engine) Demo.roi0 "crab"
                      Demo.fixed_background)))
    as [[Hl _]|H].
  - apply raised. vm_compute. reflexivity.
  - vm_compute in Hl. discriminate Hl.
  - exact H.
Defined.

(** ** The report of a run that returns *)

Lemma map_last_app (g : band -> band) (l : list band) (b : band) :
  map_last g (l ++ [b]) = l ++ [g b].
Proof.
  induction l as [|x l IH]; [reflexivity|].
  cbn [app map_last]. destruct (l ++ [b]) eqn:H; [destruct l; discriminate|].
  rewrite <- H, <- IH. rewrite H. reflexivity.
Qed.

Lemma update_run (g : state -> state) (s s' : state) :
  update g s = (Ok tt, s') -> s' = g s.
Proof. unfold update. intros H. now injection H as <-. Qed.

Section Report.

Context {E : Engine}.
Variable o : options.

Lemma wants_upper_limit_same (s : state) (ts : float) :
  report_options o s ->
  wants_upper_limit (opts s) ts = wants_upper_limit o ts.
Proof.
  intros (_ & Hm & Ha & _). unfold wants_upper_limit. now rewrite Hm, Ha.
Qed.

Lemma one_bin_ok (t : Z * Z) (s s' : state) :
  report_options o s ->
  one_bin t s = (Ok tt, s') ->
  exists b, bands s' = bands s ++ [b] /\ band_report o t b.
Proof.
  intros Ho H. destruct t as [a b]. unfold one_bin in H. rewrite bind_get in H.
  apply bind_ok in H. destruct H as ([] & s1 & H1 & H).
  apply update_run in H1.
  apply bind_ok in H. destruct H as (m & s2 & H2 & H).
  pose proof (proj1 (time_cut_run (roi s) a b s1)) as Hs2.
  rewrite H2 in Hs2. cbn [snd] in Hs2. subst s2.
  apply bind_ok in H. destruct H as ([r m'] & s3 & H3 & H).
  pose proof (@pointlike_upper_limit_iff _ _ _ _ _ _ _ _ H3) as Hul.
  pose proof (@frame_pointlike _
                (fun x => bands x = bands s1 /\ opts x = opts s1)
                (fun x l Hx => Hx) m a b s1 (conj eq_refl eq_refl)) as [Hb3 Ho3].
  rewrite H3 in Hb3, Ho3. cbn [snd] in Hb3, Ho3.
  apply bind_ok in H. destruct H as ([] & s4 & H4 & H).
  apply update_run in H4.
  assert (Hs1o : opts s1 = opts s) by (now subst s1).
  assert (Hs1b : bands s1
                 = bands s ++ [{| tstart := a; tstop := b;
                                  days := ((b - a) / (60 * 60 * 24))%Z;
                                  b_pointlike := None; b_gtlike := None |}])
    by (now subst s1).
  rewrite Hs1o in Hul. rewrite wants_upper_limit_same in Hul by exact Ho.
  assert (Hb4 : bands s4
                = bands s ++ [{| tstart := a; tstop := b;
                                 days := ((b - a) / (60 * 60 * 24))%Z;
                                 b_pointlike := Some r; b_gtlike := None |}]).
  { subst s4. cbn [bands set_bands]. rewrite Hb3, Hs1b.
    now rewrite map_last_app. }
  assert (Ho4 : opts s4 = opts s) by (subst s4; cbn [opts set_bands]; congruence).
  destruct (do_gtlike (opts s)) eqn:Hg.
  - apply bind_ok in H. destruct H as (r' & s5 & H5 & H).
    apply update_run in H.
    pose proof (@gtlike_upper_limit_iff _ _ _ _ _ _ _ H5) as Hul'.
    rewrite Ho4 in Hul'. rewrite wants_upper_limit_same in Hul' by exact Ho.
    pose proof (@frame_gtlike _ (fun x => bands x = bands s4)
                  (fun x l Hx => Hx) m' a b s4 eq_refl) as Hb5.
    rewrite H5 in Hb5. cbn [snd] in Hb5.
    eexists. split.
    + subst s'. cbn [bands set_bands]. rewrite Hb5, Hb4.
      rewrite map_last_app. reflexivity.
    + destruct Ho as (Hd & _).
      unfold band_report, limit_as_asked.
      cbn [tstart tstop days b_pointlike b_gtlike set_b_gtlike
           set_b_pointlike fst snd is_some is_none negb].
      do 4 (split; [reflexivity|]). split; [congruence|].
      split; intros x Hx; injection Hx as <-; assumption.
  - unfold ret in H. injection H as <-.
    eexists. split; [exact Hb4|].
    destruct Ho as (Hd & _).
    unfold band_report, limit_as_asked.
    cbn [tstart tstop days b_pointlike b_gtlike fst snd is_some is_none negb].
    do 4 (split; [reflexivity|]). split; [congruence|].
    split; intros x Hx; [injection Hx as <-; assumption|discriminate Hx].
Qed.

Lemma report_options_one_bin (t : Z * Z) :
  preserves (report_options o) (one_bin t).
Proof. apply frame_one_bin; intros s v Hs; exact Hs. Qed.

Lemma for_bins_ok (l : list (Z * Z)) : forall (s s' : state),
  report_options o s ->
  for_ l one_bin s = (Ok tt, s') ->
  exists bs, bands s' = bands s ++ bs /\ Forall2 (band_report o) l bs.
Proof.
  induction l as [|t l IH]; intros s s' Ho H; cbn [for_] in H.
  - unfold ret in H. injection H as <-. exists []. split; [|constructor].
    now rewrite app_nil_r.
  - apply bind_ok in H. destruct H as ([] & s1 & H1 & H).
    destruct (@one_bin_ok t s s1 Ho H1) as (b & Hb & Hrep).
    pose proof (@report_options_one_bin t s Ho) as Ho1.
    rewrite H1 in Ho1. cbn [snd] in Ho1.
    destruct (IH s1 s' Ho1 H) as (bs & Hbs & Hall).
    exists (b :: bs). split; [|now constructor].
    rewrite Hbs, Hb, <- app_assoc. reflexivity.
Qed.

Lemma all_time_fit_ok (s : state) :
  exists a, fst (all_time_fit s) = Ok a
            /\ is_some (a_gtlike a) = do_gtlike (opts s).
Proof.
  cbv beta iota delta [all_time_fit run_fit emit bind get update ret raise].
  cbn [opts set_log set_roi log].
  destruct (do_gtlike (opts s)); cbv beta iota; eexists; split; reflexivity.
Qed.

Lemma all_time_fit_frame (s : state) :
  opts (snd (all_time_fit s)) = opts s
  /\ time (snd (all_time_fit s)) = time s
  /\ self_f (snd (all_time_fit s)) = self_f s.
Proof.
  rewrite all_time_fit_run. destruct (do_gtlike (opts s)); repeat split.
Qed.

Lemma test_variability_ok (s s' : state) :
  report_options o s ->
  _test_variability s = (Ok tt, s') ->
  exists se a tp,
    time s = Some se
    /\ time s' = Some se
    /\ Forall2 (band_report o) (combine (fst se) (snd se)) (bands s')
    /\ all_time s' = Some a
    /\ is_some (a_gtlike a) = do_gtlike o
    /\ compute_TS_var_of CombinedVariabilityTester_f (bands s') (Some a)
         pointlike = Ok tp
    /\ (if do_gtlike o
        then exists tg,
               compute_TS_var_of CombinedVariabilityTester_f (bands s')
                 (Some a) gtlike = Ok tg
               /\ TS_var s' = Some (tp, Some tg)
        else TS_var s' = Some (tp, None)).
Proof.
  intros Ho H. unfold _test_variability in H.
  apply bind_ok in H. destruct H as (a & s1 & H1 & H).
  destruct (all_time_fit_ok s) as (a' & Ha & Hag).
  destruct (all_time_fit_frame s) as (Ho1 & Ht1 & Hf1).
  rewrite H1 in Ha, Ho1, Ht1, Hf1. cbn [fst snd] in Ha, Ho1, Ht1, Hf1.
  injection Ha as <-.
  apply bind_ok in H. destruct H as ([] & s2 & H2 & H). apply update_run in H2.
  apply bind_ok in H. destruct H as ([] & s3 & H3 & H). apply update_run in H3.
  rewrite bind_get in H.
  assert (Hs3 : time s3 = time s /\ opts s3 = opts s /\ self_f s3 = self_f s
                /\ all_time s3 = Some a /\ bands s3 = []).
  { subst s3 s2. cbn. repeat split; assumption. }
  destruct Hs3 as (Ht3 & Ho3 & Hf3 & Ha3 & Hb3).
  assert (Hro3 : report_options o s3).
  { destruct Ho as (? & ? & ? & ?). unfold report_options.
    rewrite Ho3, Hf3. repeat split; assumption. }
  destruct (time s3) as [se|] eqn:Hse; [|discriminate H].
  apply bind_ok in H. destruct H as (se' & s4 & H4 & H).
  unfold ret in H4. injection H4 as <- <-.
  apply bind_ok in H. destruct H as ([] & s5 & H5 & H).
  destruct (@for_bins_ok _ s3 s5 Hro3 H5) as (bs & Hbs & Hall).
  rewrite Hb3 in Hbs. cbn [app] in Hbs.
  set (J := fun x => (all_time x = Some a /\ time x = Some se)
                     /\ report_options o x).
  pose proof (@preserves_for _ J (combine (fst se) (snd se)) one_bin
                (fun t => @frame_one_bin _ J (fun x l Hx => Hx)
                            (fun x l Hx => Hx) t)
                s3 (conj (conj Ha3 Hse) Hro3)) as Hfr.
  rewrite H5 in Hfr. cbn [snd] in Hfr.
  destruct Hfr as ((Ha5 & Ht5) & Hro5).
  apply bind_ok in H. destruct H as (tp & s6 & H6 & H).
  unfold compute_TS_var, bind, get, lift in H6. injection H6 as Htp <-.
  apply bind_ok in H. destruct H as ([] & s7 & H7 & H). apply update_run in H7.
  assert (Hf5 : self_f s5 = CombinedVariabilityTester_f) by apply Hro5.
  rewrite Hf5, Ha5 in Htp.
  assert (Hg3 : do_gtlike (opts s3) = do_gtlike o) by apply Hro3.
  rewrite Hg3 in H.
  exists se, a, tp.
  split; [congruence|].
  destruct (do_gtlike o) eqn:Hg.
  - apply bind_ok in H. destruct H as (tg & s8 & H8 & H).
    unfold compute_TS_var, bind, get, lift in H8. injection H8 as Htg <-.
    apply update_run in H. subst s' s7.
    cbn [self_f bands all_time set_TS_var] in Htg.
    rewrite Hf5, Ha5 in Htg.
    cbn [time bands all_time TS_var set_TS_var].
    rewrite Hbs in *.
    repeat split; try assumption; try congruence.
    exists tg. split; [assumption|reflexivity].
  - unfold ret in H. injection H as <-. subst s7.
    cbn [time bands all_time TS_var set_TS_var].
    rewrite Hbs in *.
    repeat split; try assumption; try congruence.
Qed.

End Report.

(** A constructor call that returned: the set-up, then
    [_test_variability], then the restore. *)
Lemma construct_returns
    {E : Engine} (roi0 : model) (name0 : string) (o : options) (s' : state) :
  construct roi0 name0 o = (Ok tt, s') ->
  exists s2 s3,
    report_options o s2
    /\ roi s2 = roi0
    /\ _test_variability s2 = (Ok tt, s3)
    /\ s' = set_roi (restore (snapshot (roi s2)) (roi s3)) s3.
Proof.
  intros Hrun. unfold construct, __init__ in Hrun.
  assert (H0 : report_options o (new_tester roi0 name0 o)) by (repeat split).
  pose proof (@setup_keeps_roi roi0 (new_tester roi0 name0 o)
                (conj eq_refl (conj eq_refl eq_refl))) as Hk.
  unfold bind in Hk.
  apply bind_ok in Hrun. destruct Hrun as ([] & s1 & H1 & Hrun).
  assert (Hs1 : report_options o s1).
  { unfold _setup_savedir in H1. rewrite bind_get in H1.
    apply update_run in H1. subst s1. exact H0. }
  apply bind_ok in Hrun. destruct Hrun as ([] & s2 & H2 & Hrun).
  rewrite H1, H2 in Hk. cbn [snd] in Hk. destruct Hk as (Hr2 & _).
  pose proof (@setup_time_bins_preserves (report_options o)
                (fun s v Hs => Hs) (fun s v Hs => Hs) (fun s v Hs => Hs)
                s1 Hs1) as Hs2.
  rewrite H2 in Hs2. cbn [snd] in Hs2.
  rewrite bind_get in Hrun.
  apply bind_ok in Hrun. destruct Hrun as ([] & s3 & H3 & Hrun).
  apply update_run in Hrun.
  exists s2, s3.
  split; [exact Hs2|]. split; [exact Hr2|]. split; [exact H3|exact Hrun].
Qed.

(** X14.  When the constructor returns, the report has one band for each
    pair of the stored start and stop times, in order: the band carries
    the two times, the whole number of days between them, a pointlike
    result, and a gtlike result exactly when [do_gtlike] is set; each
    result has an upper limit exactly when its TS is below [min_ts] or
    [always_upper_limit] is set.  The stored [TS_var] values are
    [compute_TS_var] of these bands and the all-time fit. *)
Theorem report_of_a_run_that_returns
    {E : Engine} (roi0 : model) (name0 : string) (o : options) (s' : state) :
  construct roi0 name0 o = (Ok tt, s') ->
  exists starts stops a tp,
    time s' = Some (starts, stops)
    /\ Forall2 (band_report o) (combine starts stops) (bands s')
    /\ all_time s' = Some a
    /\ is_some (a_gtlike a) = do_gtlike o
    /\ compute_TS_var_of CombinedVariabilityTester_f (bands s') (Some a)
         pointlike = Ok tp
    /\ (if do_gtlike o
        then exists tg,
               compute_TS_var_of CombinedVariabilityTester_f (bands s')
                 (Some a) gtlike = Ok tg
               /\ TS_var s' = Some (tp, Some tg)
        else TS_var s' = Some (tp, None)).
Proof.
  intros Hrun.
  destruct (@construct_returns E roi0 name0 o s' Hrun)
    as (s2 & s3 & Ho & _ & Ht & ->).
  destruct (@test_variability_ok _ o s2 s3 Ho Ht)
    as ([starts stops] & a & tp & _ & Htm & Hb & Ha & Hg & Htp & Htg).
  exists starts, stops, a, tp.
  cbn [time bands all_time TS_var set_roi].
  repeat split; assumption.
Qed.

Lemma report_of_a_run_that_returns_witness :
  exists starts stops a tp,
    time (snd (construct (E:=Demo.engine) Demo.roi0 "crab" Demo.explicit))
    = Some (starts, stops)
    /\ Forall2 (band_report Demo.explicit) (combine starts stops)
         (bands (snd (construct (E:=Demo.engine) Demo.roi0 "crab"
                        Demo.explicit)))
    /\ all_time (snd (construct (E:=Demo.engine) Demo.roi0 "crab"
                        Demo.explicit)) = Some a
    /\ is_some (a_gtlike a) = do_gtlike Demo.explicit
    /\ compute_TS_var_of CombinedVariabilityTester_f
         (bands (snd (construct (E:=Demo.engine) Demo.roi0 "crab"
                        Demo.explicit)))
         (Some a) pointlike = Ok tp
    /\ (if do_gtlike Demo.explicit
        then exists tg,
               compute_TS_var_of CombinedVariabilityTester_f
                 (bands (snd (construct (E:=Demo.engine) Demo.roi0 "crab"
                                Demo.explicit)))
                 (Some a) gtlike = Ok tg
               /\ TS_var (snd (construct (E:=Demo.engine) Demo.roi0 "crab"
                                 Demo.explicit))
                  = Some (tp, Some tg)
        else TS_var (snd (construct (E:=Demo.engine) Demo.roi0 "crab"
                            Demo.explicit))
             = Some (tp, None)).
Proof.
  apply (@report_of_a_run_that_returns Demo.engine Demo.roi0 "crab"
           Demo.explicit).
  apply returned_ok. vm_compute. reflexivity.
Defined.

(** * Further properties of the plot *)

Lemma mask_set_map_get (g : float -> float) (m : list bool) :
  forall a v : np.array,
    List.length a = List.length m -> List.length v = List.length m ->
    mask_set m a (map g (mask_get m v)) = choose m (map g v) a.
Proof.
  induction m as [|c m IH]; intros [|x a] [|y v] Ha Hv; try discriminate;
    [reflexivity|].
  injection Ha as Ha. injection Hv as Hv.
  destruct c; cbn; f_equal; now apply IH.
Qed.

Lemma zeros_py_sum (m : list bool) :
  forall v : np.array,
    List.length v = List.length m ->
    zeros (py_sum m) = map (fun _ => Float.zero) (mask_get m v).
Proof.
  induction m as [|c m IH]; intros [|y v] Hv; try discriminate; [reflexivity|].
  injection Hv as Hv. destruct c; cbn; [f_equal|]; now apply IH.
Qed.

Lemma choose_none (m : list bool) :
  forall p a : np.array,
    py_sum m = 0%nat ->
    List.length p = List.length m -> List.length a = List.length m ->
    choose m p a = a.
Proof.
  induction m as [|c m IH]; intros [|x p] [|y a] H0 Hp Ha; try discriminate;
    [reflexivity|].
  injection Hp as Hp. injection Ha as Ha.
  destruct c; [discriminate H0|]. cbn. f_equal. now apply IH.
Qed.

Lemma masked_update (g : float -> float) (m : list bool) (a v : np.array) :
  List.length a = List.length m -> List.length v = List.length m ->
  (if (0 <? py_sum m)%nat then mask_set m a (map g (mask_get m v)) else a)
  = choose m (map g v) a.
Proof.
  intros Ha Hv. destruct (py_sum m) as [|n] eqn:Hn; cbn [Nat.ltb Nat.leb].
  - symmetry. apply choose_none; [exact Hn| |exact Ha].
    now rewrite length_map.
  - now apply mask_set_map_get.
Qed.

Lemma choose_invert_nth (s : list bool) :
  forall (p q : np.array) (i : nat) (d : float),
    List.length p = List.length s -> List.length q = List.length s ->
    (i < List.length s)%nat ->
    nth i (choose (np.invert s) p q) d
    = if nth i s true then nth i q d else nth i p d.
Proof.
  induction s as [|c s IH]; intros [|x p] [|y q] i d Hp Hq Hi;
    try discriminate; [cbn in Hi; lia|].
  injection Hp as Hp. injection Hq as Hq.
  destruct i as [|i]; [destruct c; reflexivity|].
  cbn in Hi. cbn. apply IH; [assumption ..|lia].
Qed.

Lemma invert_length (s : list bool) :
  List.length (np.invert s) = List.length s.
Proof. apply length_map. Qed.

(** The arrays of the [errorbar] call, point by point. *)
Lemma plot_points_arrays (x y : np.array) (xlo xhi : option np.array)
    (lo hi y_ul : np.array) (sig : significance) (ulf : float) :
  let s := significant_array sig x in
  let d := plot_points x y xlo xhi (Some lo) (Some hi) y_ul sig ulf in
  List.length y = List.length s -> List.length lo = List.length s ->
  List.length hi = List.length s -> List.length y_ul = List.length s ->
  e_y (errorbar d) = choose (np.invert s) y_ul y
  /\ fst (e_yerr (errorbar d))
     = choose (np.invert s) (map (fun v => ulf * v)%fl y_ul) lo
  /\ snd (e_yerr (errorbar d))
     = choose (np.invert s) (map (fun _ => Float.zero) y_ul) hi.
Proof.
  intros s d Hy Hlo Hhi Hul. subst d. unfold plot_points. fold s.
  cbn [errorbar e_y e_yerr fst snd].
  rewrite <- (invert_length s) in Hy, Hlo, Hhi, Hul.
  split; [|split].
  - rewrite <- (map_id (mask_get (np.invert s) y_ul)).
    rewrite masked_update by assumption. now rewrite map_id.
  - now apply masked_update.
  - rewrite (zeros_py_sum (np.invert s) y_ul) by assumption.
    now apply masked_update.
Qed.

Lemma nth_map_in {A B} (g : A -> B) (l : list A) (i : nat) (d : A) (d' : B) :
  (i < List.length l)%nat -> nth i (map g l) d' = g (nth i l d).
Proof.
  intros Hi. rewrite (nth_indep (map g l) d' (g d)) by (now rewrite length_map).
  apply map_nth.
Qed.

(** X15.  [plot_points], point by point, for arrays of one length.  A
    significant point is drawn as given, with the error bars given.  A
    point that is not significant is drawn at its upper limit, with a
    lower bar of [ul_fraction] times the upper limit and no upper bar. *)
Theorem plot_points_point_by_point
    (x y : np.array) (xlo xhi : option np.array) (lo hi y_ul : np.array)
    (sig : significance) (ulf : float) (i : nat) :
  let s := significant_array sig x in
  let d := plot_points x y xlo xhi (Some lo) (Some hi) y_ul sig ulf in
  List.length y = List.length s -> List.length lo = List.length s ->
  List.length hi = List.length s -> List.length y_ul = List.length s ->
  (i < List.length s)%nat ->
  nth i (e_y (errorbar d)) NaN
  = (if nth i s true then nth i y NaN else nth i y_ul NaN)
  /\ nth i (fst (e_yerr (errorbar d))) NaN
     = (if nth i s true then nth i lo NaN else (ulf * nth i y_ul NaN)%fl)
  /\ nth i (snd (e_yerr (errorbar d))) NaN
     = (if nth i s true then nth i hi NaN else Float.zero).
Proof.
  intros s d Hy Hlo Hhi Hul Hi.
  destruct (@plot_points_arrays x y xlo xhi lo hi y_ul sig ulf Hy Hlo Hhi Hul)
    as (Ey & El & Eh).
  fold d in Ey, El, Eh. rewrite Ey, El, Eh.
  rewrite !choose_invert_nth
    by (rewrite ?length_map; first [assumption | reflexivity]).
  rewrite (nth_map_in (fun v => (ulf * v)%fl) y_ul NaN NaN) by lia.
  rewrite (nth_map_in (fun _ : float => Float.zero) y_ul NaN NaN) by lia.
  repeat split.
Qed.

Lemma plot_points_point_by_point_witness :
  let d := plot_points [Float.of_Z 1; Float.of_Z 2]
             [Float.of_Z 10; Float.of_Z 20] None None
             (Some [Float.of_Z 1; Float.of_Z 1])
             (Some [Float.of_Z 1; Float.of_Z 1])
             [Float.of_Z 30; Float.of_Z 40]
             (per_point [true; false]) default_ul_fraction in
  nth 1 (e_y (errorbar d)) NaN = Float.of_Z 40
  /\ nth 1 (fst (e_yerr (errorbar d))) NaN
     = (default_ul_fraction * Float.of_Z 40)%fl
  /\ nth 1 (snd (e_yerr (errorbar d))) NaN = Float.zero.
Proof.
  apply (@plot_points_point_by_point
           [Float.of_Z 1; Float.of_Z 2] [Float.of_Z 10; Float.of_Z 20]
           None None [Float.of_Z 1; Float.of_Z 1] [Float.of_Z 1; Float.of_Z 1]
           [Float.of_Z 30; Float.of_Z 40] (per_point [true; false])
           default_ul_fraction 1%nat);
    first [reflexivity | cbn; lia].
Defined.

Lemma bar_foot (u q : Qc) :
  ((Float.one - Fin u) * Fin q = Fin q - Fin u * Fin q)%fl.
Proof.
  unfold Float.one, Float.of_Z. cbn [Float.sub Float.add Float.opp Float.mul].
  f_equal. change (Q2Qc (inject_Z 1)) with 1%Qc. ring.
Qed.

Lemma arrow_foot_arrays (u : Qc) (s : list bool) :
  forall y lo y_ul : np.array,
    List.length y = List.length s -> List.length lo = List.length s ->
    List.length y_ul = List.length s ->
    Forall (fun v => Float.isfinite v = true) (mask_get (np.invert s) y_ul) ->
    map (fun v => (Float.one - Fin u) * v)%fl (mask_get (np.invert s) y_ul)
    = mask_get (np.invert s)
        (np.zip_with Float.sub
           (choose (np.invert s) y_ul y)
           (choose (np.invert s) (map (fun v => Fin u * v)%fl y_ul) lo)).
Proof.
  induction s as [|c s IH]; intros [|a y] [|b lo] [|v y_ul] Hy Hlo Hul Hfin;
    try discriminate; [reflexivity|].
  injection Hy as Hy. injection Hlo as Hlo. injection Hul as Hul.
  destruct c; cbn in Hfin |- *.
  - now apply IH.
  - inversion Hfin as [|? ? Hv Hrest]; subst.
    destruct v as [| |q]; try discriminate Hv.
    f_equal; [apply bar_foot|now apply IH].
Qed.

Lemma has_upper_limits (s : list bool) :
  (0 <? py_sum (np.invert s))%nat = negb (forallb (fun c => c) s).
Proof.
  induction s as [|c s IH]; [reflexivity|].
  destruct c; cbn; [exact IH|reflexivity].
Qed.

(** X16.  Each upper-limit arrow of [plot_points] sits at the foot of the
    bar drawn for its point: for a finite upper limit, the arrow's height
    [(1 - ul_fraction) * y_ul] is the drawn value minus the drawn lower
    error.  Arrows are drawn exactly when some point is not significant,
    one for each such point. *)
Theorem upper_limit_arrows_at_bar_feet
    (x y : np.array) (xlo xhi : option np.array) (lo hi y_ul : np.array)
    (sig : significance) (u : Qc) :
  let s := significant_array sig x in
  let d := plot_points x y xlo xhi (Some lo) (Some hi) y_ul sig (Fin u) in
  List.length y = List.length s -> List.length lo = List.length s ->
  List.length hi = List.length s -> List.length y_ul = List.length s ->
  Forall (fun v => Float.isfinite v = true) (mask_get (np.invert s) y_ul) ->
  arrows d
  = if forallb (fun c => c) s then None
    else Some {| p_x := mask_get (np.invert s) x;
                 p_y := mask_get (np.invert s)
                          (np.zip_with Float.sub (e_y (errorbar d))
                             (fst (e_yerr (errorbar d)))) |}.
Proof.
  intros s d Hy Hlo Hhi Hul Hfin.
  destruct (@plot_points_arrays x y xlo xhi lo hi y_ul sig (Fin u)
              Hy Hlo Hhi Hul) as (Ey & El & _).
  pose proof (arrow_foot_arrays u s y lo y_ul Hy Hlo Hul Hfin) as Hfoot.
  subst d s. rewrite Ey, El, <- Hfoot.
  unfold plot_points. cbn [arrows].
  rewrite has_upper_limits. destruct (forallb _ _); reflexivity.
Qed.

Lemma upper_limit_arrows_at_bar_feet_witness :
  let d := plot_points [Float.of_Z 1; Float.of_Z 2; Float.of_Z 3]
             [Float.of_Z 10; Float.of_Z 20; Float.of_Z 30] None None
             (Some [Float.of_Z 1; Float.of_Z 1; Float.of_Z 1])
             (Some [Float.of_Z 1; Float.of_Z 1; Float.of_Z 1])
             [NaN; Float.of_Z 40; Float.of_Z 50]
             (per_point [true; false; false]) (Fin (Q2Qc (4 # 10))) in
  arrows d
  = Some {| p_x := [Float.of_Z 2; Float.of_Z 3];
            p_y := mask_get [false; true; true]
                     (np.zip_with Float.sub (e_y (errorbar d))
                        (fst (e_yerr (errorbar d)))) |}.
Proof.
  apply (@upper_limit_arrows_at_bar_feet
           [Float.of_Z 1; Float.of_Z 2; Float.of_Z 3]
           [Float.of_Z 10; Float.of_Z 20; Float.of_Z 30] None None
           [Float.of_Z 1; Float.of_Z 1; Float.of_Z 1]
           [Float.of_Z 1; Float.of_Z 1; Float.of_Z 1]
           [NaN; Float.of_Z 40; Float.of_Z 50]
           (per_point [true; false; false]) (Q2Qc (4 # 10)));
    try reflexivity.
  repeat constructor.
Defined.

Lemma rmap_in {A B} (g : A -> result B) (l : list A) (rs : list B) (r : B) :
  rmap g l = Ok rs -> In r rs -> exists a, In a l /\ g a = Ok r.
Proof.
  intros H Hin. apply rmap_ok in H. apply (Forall2_in_r H), Hin.
Qed.

Lemma zip_with_nth (op : float -> float -> float) :
  forall (a b : np.array) (i : nat) (d : float),
    (i < List.length a)%nat -> List.length b = List.length a ->
    nth i (np.zip_with op a b) d = op (nth i a d) (nth i b d).
Proof.
  induction a as [|x a IH]; intros [|y b] i d Hi Hb; try discriminate;
    [cbn in Hi; lia|].
  injection Hb as Hb. destruct i as [|i]; [reflexivity|].
  cbn in Hi. cbn. apply IH; [lia|exact Hb].
Qed.

Lemma zip_with_length (op : float -> float -> float) :
  forall a b : np.array,
    List.length b = List.length a ->
    List.length (np.zip_with op a b) = List.length a.
Proof.
  induction a as [|x a IH]; intros [|y b] Hb; try discriminate; [reflexivity|].
  injection Hb as Hb. cbn. now rewrite IH.
Qed.

Lemma half_sum (a b : Qc) :
  ((Fin a + Fin b) / Float.two)%fl = Fin ((a + b) / Q2Qc 2).
Proof. reflexivity. Qed.

Lemma bin_bar (a b : Z) :
  let t := ((Float.of_Z a + Float.of_Z b) / Float.two)%fl in
  (t - (t - Float.of_Z a))%fl = Float.of_Z a
  /\ (t + (Float.of_Z b - t))%fl = Float.of_Z b.
Proof.
  unfold Float.of_Z. cbv zeta. rewrite half_sum.
  cbn [Float.sub Float.add Float.opp].
  split; f_equal; field; discriminate.
Qed.

(** One curve of a plot that returned. *)
Lemma plot_curve (res : results_dict) (pg pp : bool) (ulf : float)
    (cs : list curve) (c : curve) :
  plot res pg pp ulf = Ok cs -> In c cs ->
  exists rs,
    rmap (fun b => band_get b (c_type c)) (res_bands res) = Ok rs
    /\ c_points c
       = plot_points
           (map (fun v => v / Float.two)%fl
              (np.zip_with Float.add (astype_float (fst (res_time res)))
                 (astype_float (snd (res_time res)))))
           (map (fun r => flux (r_flux r)) rs)
           (Some (astype_float (fst (res_time res))))
           (Some (astype_float (snd (res_time res))))
           (Some (map (fun r => flux_err (r_flux r)) rs))
           (Some (map (fun r => flux_err (r_flux r)) rs))
           (map (fun r => match upper_limit r with
                          | Some u => ul_flux u
                          | None => NaN
                          end) rs)
           (per_point (map (fun v => float_geb v (res_min_ts res)) (map TS rs)))
           ulf.
Proof.
  intros H Hin. unfold plot in H.
  destruct (@rmap_in _ _ _ _ _ _ H Hin) as (t & _ & Ht).
  destruct (all_time_get (res_all_time res) t) as [a|e]; [|discriminate Ht].
  cbn [rbind] in Ht.
  destruct (rmap (fun b => band_get b t) (res_bands res)) as [rs|e] eqn:Hrs;
    [|discriminate Ht].
  cbn [rbind] in Ht. injection Ht as <-. cbn [c_type c_points].
  exists rs. split; [exact Hrs|reflexivity].
Qed.

(** X17.  In a plot of a report with as many start as stop times, the
    horizontal bar of every point spans exactly its time bin: the point
    sits at the middle of the bin, and the bar runs from the start time
    to the stop time. *)
Theorem plot_bars_span_the_bins
    (res : results_dict) (pg pp : bool) (ulf : float)
    (cs : list curve) (c : curve) (i : nat) :
  plot res pg pp ulf = Ok cs -> In c cs ->
  List.length (fst (res_time res)) = List.length (snd (res_time res)) ->
  (i < List.length (fst (res_time res)))%nat ->
  let e := errorbar (c_points c) in
  (nth i (e_x e) NaN - nth i (fst (e_xerr e)) NaN)%fl
  = Float.of_Z (nth i (fst (res_time res)) 0%Z)
  /\ (nth i (e_x e) NaN + nth i (snd (e_xerr e)) NaN)%fl
     = Float.of_Z (nth i (snd (res_time res)) 0%Z).
Proof.
  intros H Hin Hlen Hi e. subst e.
  destruct (@plot_curve _ _ _ _ _ _ H Hin) as (rs & _ & ->).
  unfold plot_points. cbn [errorbar e_x e_xerr fst snd].
  set (starts := astype_float (fst (res_time res))).
  set (stops := astype_float (snd (res_time res))).
  assert (Hls : List.length starts = List.length (fst (res_time res)))
    by apply length_map.
  assert (Hlp : List.length stops = List.length starts)
    by (unfold stops, starts, astype_float; now rewrite !length_map).
  assert (Hlz : List.length (np.zip_with Float.add starts stops)
                = List.length starts) by (now apply zip_with_length).
  assert (Hlt : List.length
                  (map (fun v => v / Float.two)%fl
                     (np.zip_with Float.add starts stops))
                = List.length starts) by (now rewrite length_map).
  rewrite !zip_with_nth by (rewrite ?Hlt; lia).
  rewrite (nth_map_in (fun v => (v / Float.two)%fl) _ NaN NaN) by lia.
  rewrite zip_with_nth by lia.
  unfold starts, stops, astype_float.
  rewrite (nth_map_in Float.of_Z _ 0%Z NaN) by lia.
  rewrite (nth_map_in Float.of_Z _ 0%Z NaN) by lia.
  apply bin_bar.
Qed.

Lemma plot_bars_span_the_bins_witness :
  let e := errorbar
             (c_points
                (hd no_curve
                   (curves_of (plot (demo_report Demo.explicit) true true
                                 default_ul_fraction)))) in
  (nth 1 (e_x e) NaN - nth 1 (fst (e_xerr e)) NaN)%fl = Float.of_Z 0
  /\ (nth 1 (e_x e) NaN + nth 1 (snd (e_xerr e)) NaN)%fl = Float.of_Z 10.
Proof.
  apply (@plot_bars_span_the_bins (demo_report Demo.explicit) true true
           default_ul_fraction
           (curves_of (plot (demo_report Demo.explicit) true true
                         default_ul_fraction))
           (hd no_curve
              (curves_of (plot (demo_report Demo.explicit) true true
                            default_ul_fraction)))
           1%nat).
  - vm_compute. reflexivity.
  - vm_compute. left. reflexivity.
  - vm_compute. reflexivity.
  - vm_compute. lia.
Defined.

(** ** Plotting the report of a run *)

Section PlotOfRun.

Context {E : Engine}.
Variables (roi0 : model) (o : options) (name0 : string).

Lemma report_options_run :
  report_options o (snd (construct roi0 name0 o)).
Proof.
  unfold construct, __init__.
  apply bind_from; [repeat split|]. intros _.
  apply preserves_bind;
    [apply setup_time_bins_preserves; intros s v Hs; exact Hs|].
  intros _. apply preserves_get_then. intros s0 H0.
  apply bind_from;
    [|intros _; apply preserves_update; intros s Hs; exact Hs].
  apply test_variability_from;
    try (intros s v Hs; exact Hs).
  - intros s1 se H1 _.
    apply (@preserves_for _ (report_options o)); [|exact H1].
    intros t. apply report_options_one_bin.
  - destruct (all_time_fit_frame s0) as (Ho & _ & Hf).
    unfold report_options. rewrite Ho, Hf. exact H0.
Qed.

Lemma band_report_entries (ts : list (Z * Z)) (bs : list band) :
  Forall2 (band_report o) ts bs ->
  forallb (has_entry pointlike) bs = true
  /\ (do_gtlike o = true -> forallb (has_entry gtlike) bs = true).
Proof.
  induction 1 as [|t b ts bs (_ & _ & _ & Hp & Hg & _) _ IH];
    [split; reflexivity|].
  destruct IH as [IHp IHg]. cbn [forallb has_entry]. split.
  - now rewrite Hp, IHp.
  - intros Hd. rewrite Hg, Hd, (IHg Hd). reflexivity.
Qed.

(** The report of a run that returned, as [plot] reads it. *)
Lemma results_of_run (res : results_dict) :
  results_of (construct roi0 name0 o) = Some res ->
  res_min_ts res = min_ts o
  /\ Forall2 (band_report o)
       (combine (fst (res_time res)) (snd (res_time res))) (res_bands res)
  /\ is_some (a_gtlike (res_all_time res)) = do_gtlike o.
Proof.
  intros H.
  pose proof report_options_run as (_ & Hm & _).
  destruct (construct roi0 name0 o) as [[[]|e] s'] eqn:Hrun;
    [|discriminate H].
  destruct (@construct_returns E roi0 name0 o s' Hrun)
    as (s2 & s3 & Ho & _ & Htv & ->).
  destruct (@test_variability_ok _ o s2 s3 Ho Htv)
    as ([starts stops] & a & tp & _ & Ht & Hb & Ha & Hg & _).
  cbn [results_of snd time all_time bands opts set_roi] in H, Hm.
  rewrite Ht, Ha in H. injection H as <-.
  cbn [res_min_ts res_time res_bands res_all_time fst snd].
  repeat split; assumption.
Qed.

End PlotOfRun.

(** X18.  On the report of a run that returned, [plot] returns exactly
    when it is not asked for the gtlike curve of a run made without
    gtlike: with [plot_gtlike] set, as it is by default, and
    [do_gtlike] off, it raises [KeyError] for the key gtlike. *)
Theorem plot_needs_gtlike_results
    {E : Engine} (roi0 : model) (name0 : string) (o : options)
    (res : results_dict) (pg pp : bool) (ulf : float) :
  results_of (construct roi0 name0 o) = Some res ->
  is_ok (plot res pg pp ulf) = implb pg (do_gtlike o)
  /\ (pg = true -> do_gtlike o = false ->
      plot res pg pp ulf = Raise (KeyError "gtlike")).
Proof.
  intros H.
  destruct (results_of_run roi0 o name0 H) as (_ & Hb & Hg).
  destruct (band_report_entries Hb) as [Hp Hgt].
  pose proof (band_entries pointlike (res_bands res)) as Hep.
  rewrite Hp in Hep. destruct Hep as [rsp Hep].
  assert (Hpoint : forall g, is_ok
            (rbind (all_time_get (res_all_time res) pointlike) (fun a =>
             rbind (rmap (fun b => band_get b pointlike) (res_bands res))
               (fun rs => Ok (g a rs : curve)))) = true).
  { intros g. cbn [all_time_get rbind]. rewrite Hep. reflexivity. }
  unfold plot. split.
  - rewrite rmap_is_ok.
    destruct pg; cbn [app forallb implb].
    + destruct (do_gtlike o) eqn:Hd.
      * pose proof (band_entries gtlike (res_bands res)) as Heg.
        rewrite (Hgt eq_refl) in Heg. destruct Heg as [rsg Heg].
        unfold all_time_get at 1.
        destruct (a_gtlike (res_all_time res)); [|discriminate Hg].
        cbn [rbind]. rewrite Heg. cbn [rbind is_ok andb].
        destruct pp; cbn [forallb]; [|reflexivity].
        rewrite Hpoint. reflexivity.
      * unfold all_time_get at 1.
        destruct (a_gtlike (res_all_time res)); [discriminate Hg|].
        reflexivity.
    + destruct pp; cbn [forallb]; [|reflexivity].
      rewrite Hpoint. reflexivity.
  - intros -> Hd. cbn [app rmap]. unfold all_time_get at 1.
    rewrite Hd in Hg.
    destruct (a_gtlike (res_all_time res)); [discriminate Hg|].
    reflexivity.
Qed.

Lemma plot_needs_gtlike_results_witness :
  is_ok (plot (demo_report Demo.pointlike_only) true true default_ul_fraction)
  = implb true (do_gtlike Demo.pointlike_only)
  /\ (true = true -> do_gtlike Demo.pointlike_only = false ->
      plot (demo_report Demo.pointlike_only) true true default_ul_fraction
      = Raise (KeyError "gtlike")).
Proof.
  apply (@plot_needs_gtlike_results Demo.engine Demo.roi0 "crab"
           Demo.pointlike_only (demo_report Demo.pointlike_only) true true
           default_ul_fraction).
  vm_compute. reflexivity.
Defined.

Lemma float_geb_ltb (x y : float) :
  Float.isnan x = false -> Float.isnan y = false ->
  float_geb x y = negb (Float.ltb x y).
Proof. destruct x, y; intros Hx Hy; try discriminate; reflexivity. Qed.

(** X19.  In the report of a run that returned, the results that [plot]
    marks as not significant are those for which the fitter stored an
    upper limit: when TS and [min_ts] are numbers, a result has an upper
    limit exactly when its TS is not at least [min_ts] or
    [always_upper_limit] is set.  So [plot] never draws an upper limit
    that was not computed, except for a TS that is not a number. *)
Theorem not_significant_means_upper_limit
    {E : Engine} (roi0 : model) (name0 : string) (o : options)
    (res : results_dict) (t : backend) (b : band) (r : bin_result) :
  results_of (construct roi0 name0 o) = Some res ->
  In b (res_bands res) -> band_get b t = Ok r ->
  Float.isnan (TS r) = false -> Float.isnan (res_min_ts res) = false ->
  is_some (upper_limit r)
  = negb (float_geb (TS r) (res_min_ts res)) || always_upper_limit o.
Proof.
  intros H Hin Hr Hts Hmin.
  destruct (results_of_run roi0 o name0 H) as (Hm & Hb & _).
  destruct (Forall2_in_r Hb _ Hin) as (tb & _ & Hrep).
  destruct Hrep as (_ & _ & _ & _ & _ & Hlp & Hlg).
  rewrite float_geb_ltb by assumption. rewrite negb_involutive, Hm.
  unfold band_get in Hr.
  destruct t.
  - destruct (b_pointlike b) as [x|] eqn:Hx; [|discriminate Hr].
    injection Hr as <-. apply (Hlp x eq_refl).
  - destruct (b_gtlike b) as [x|] eqn:Hx; [|discriminate Hr].
    injection Hr as <-. apply (Hlg x eq_refl).
Qed.

Lemma not_significant_means_upper_limit_witness :
  let b := hd (Demo.mk_band (Demo.mk_result NaN NaN NaN))
             (res_bands (demo_report Demo.ul99)) in
  let r := match b_gtlike b with
           | Some r => r
           | None => Demo.mk_result NaN NaN NaN
           end in
  is_some (upper_limit r)
  = negb (float_geb (TS r) (res_min_ts (demo_report Demo.ul99)))
    || always_upper_limit Demo.ul99.
Proof.
  apply (@not_significant_means_upper_limit Demo.engine Demo.roi0 "crab"
           Demo.ul99 (demo_report Demo.ul99) gtlike
           (hd (Demo.mk_band (Demo.mk_result NaN NaN NaN))
              (res_bands (demo_report Demo.ul99)))).
  - vm_compute. reflexivity.
  - vm_compute. left. reflexivity.
  - vm_compute. reflexivity.
  - vm_compute. reflexivity.
  - vm_compute. reflexivity.
Defined.

(** * Further properties of the time cut *)

Section TimeCut.

Context {E : Engine}.

Lemma time_cut_ok (r m : model) (a b : Z) (s s' : state) :
  time_cut r a b s = (Ok m, s') -> can_cut (m_data r) = true.
Proof.
  unfold time_cut, can_cut, bind, raise, ret.
  destruct (sa_tstart (m_data r) =? 0)%Z; [|discriminate].
  destruct (sa_tstop (m_data r) =? 0)%Z; [|discriminate].
  cbn [negb orb andb].
  destruct (ft2files (m_data r)) as [|f [|g l]]; cbn; try discriminate.
  reflexivity.
Qed.

Lemma one_bin_cut (t : Z * Z) (s s' : state) :
  one_bin t s = (Ok tt, s') -> can_cut (m_data (roi s)) = true.
Proof.
  intros H. destruct t as [a b]. unfold one_bin in H. rewrite bind_get in H.
  apply bind_ok in H. destruct H as ([] & s1 & _ & H).
  apply bind_ok in H. destruct H as (m & s2 & H2 & _).
  exact (time_cut_ok _ _ _ _ H2).
Qed.

Lemma test_variability_cut (o : options) (s s' : state) :
  report_options o s ->
  _test_variability s = (Ok tt, s') ->
  bands s' <> [] ->
  can_cut (m_data (roi s)) = true.
Proof.
  intros Ho H Hne.
  destruct (@test_variability_ok _ o s s' Ho H)
    as (se & _ & _ & Hse & _ & Hall & _).
  unfold _test_variability in H.
  apply bind_ok in H. destruct H as (a & s1 & H1 & H).
  pose proof (all_time_fit_run s) as Hrun.
  destruct (all_time_fit_frame s) as (_ & Ht1 & _).
  rewrite H1 in Hrun, Ht1. cbn [snd] in Hrun, Ht1.
  assert (Hd : m_data (roi s1) = m_data (roi s)).
  { rewrite Hrun. destruct (do_gtlike (opts s)); reflexivity. }
  apply bind_ok in H. destruct H as ([] & s2 & H2 & H). apply update_run in H2.
  apply bind_ok in H. destruct H as ([] & s3 & H3 & H). apply update_run in H3.
  rewrite bind_get in H.
  assert (Ht3 : time s3 = Some se) by (subst s3 s2; cbn; congruence).
  assert (Hr3 : roi s3 = roi s1) by (subst s3 s2; reflexivity).
  rewrite Ht3 in H.
  apply bind_ok in H. destruct H as (se' & s4 & H4 & H).
  unfold ret in H4. injection H4 as <- <-.
  apply bind_ok in H. destruct H as ([] & s5 & H5 & _).
  destruct (combine (fst se) (snd se)) as [|t l].
  - inversion Hall as [Hb|]. congruence.
  - cbn [for_] in H5. apply bind_ok in H5. destruct H5 as ([] & s6 & H6 & _).
    apply one_bin_cut in H6. now rewrite Hr3, Hd in H6.
Qed.

End TimeCut.

(** X20.  A run over at least one time bin returns only for an ROI whose
    analysis object carries no time cut of its own, [tstart] and [tstop]
    both 0, and exactly one spacecraft file: otherwise [time_cut] raises
    in the first bin, after the all-time fits have been made. *)
Theorem run_needs_uncut_roi
    {E : Engine} (roi0 : model) (name0 : string) (o : options) (s' : state) :
  construct roi0 name0 o = (Ok tt, s') ->
  bands s' <> [] ->
  sa_tstart (m_data roi0) = 0%Z
  /\ sa_tstop (m_data roi0) = 0%Z
  /\ List.length (ft2files (m_data roi0)) = 1%nat.
Proof.
  intros Hrun Hne.
  destruct (@construct_returns E roi0 name0 o s' Hrun)
    as (s2 & s3 & Ho & Hr2 & Ht & ->).
  pose proof (@test_variability_cut _ o s2 s3 Ho Ht Hne) as Hc.
  rewrite Hr2 in Hc. unfold can_cut in Hc.
  apply andb_prop in Hc. destruct Hc as [Hc Hf].
  apply andb_prop in Hc. destruct Hc as [Ha Hb].
  repeat split.
  - now apply Z.eqb_eq.
  - now apply Z.eqb_eq.
  - now apply Nat.eqb_eq.
Qed.

Lemma run_needs_uncut_roi_witness :
  sa_tstart (m_data Demo.roi0) = 0%Z
  /\ sa_tstop (m_data Demo.roi0) = 0%Z
  /\ List.length (ft2files (m_data Demo.roi0)) = 1%nat.
Proof.
  apply (@run_needs_uncut_roi Demo.engine Demo.roi0 "crab"
           (Demo.with_nbins 2)
           (snd (construct (E:=Demo.engine) Demo.roi0 "crab"
                   (Demo.with_nbins 2)))).
  - apply returned_ok. vm_compute. reflexivity.
  - vm_compute. discriminate.
Defined.
